(** * ceresmeta: leader election of the member manager, and the etcd KV storage

    A shallow embedding of [server/member/member.go] and
    [server/storage/etcd_kv.go], with the collaborators they call
    (protobuf wire codec, etcd key space, contexts, lease handle, watcher)
    modelled next to them, followed by the properties of the specification.

    Conventions.
    - A Go [string] is a Rocq [string]; a Go [[]byte] is a [list byte];
      the conversions [string(bs)] and [[]byte(s)] are written out.
    - [uint64], [int64], [int] and [time.Duration] are [Z]; a [uint64] value
      is in range when [0 <= v < 2^64].
    - A Go [error] that may be nil is an [option error]; a [(T, error)]
      result is a [T + error] sum with the value on the left. *)

From Stdlib Require Import ZArith List Bool Lia.
From Stdlib Require Import Strings.String Strings.Ascii Strings.Byte.
Import ListNotations.
Local Open Scope Z_scope.
Local Open Scope list_scope.

Definition bytes := list byte.

(** [uint64(b)] for a byte. *)
Definition byte_val (b : byte) : Z := Z.of_N (Byte.to_N b).

(** [byte(v)]: the low eight bits. *)
Definition byte_of (v : Z) : byte :=
  match Byte.of_N (Z.to_N (v mod 256)) with
  | Some b => b
  | None => x00
  end.

(** ** unicode/utf8 *)
Module utf8.

Definition between (lo hi : Z) (b : byte) : bool :=
  (lo <=? byte_val b) && (byte_val b <=? hi).

(** Second-byte range of a three-byte sequence ([acceptRanges]). *)
Definition accept3 (c0 : Z) : Z * Z :=
  if c0 =? 0xE0 then (0xA0, 0xBF)
  else if c0 =? 0xED then (0x80, 0x9F)
  else (0x80, 0xBF).

(** Second-byte range of a four-byte sequence. *)
Definition accept4 (c0 : Z) : Z * Z :=
  if c0 =? 0xF0 then (0x90, 0xBF)
  else if c0 =? 0xF4 then (0x80, 0x8F)
  else (0x80, 0xBF).

(** [utf8.Valid]: every rune is a well-formed UTF-8 sequence. *)
Fixpoint Valid (p : bytes) : bool :=
  match p with
  | [] => true
  | b0 :: p1 =>
    let c0 := byte_val b0 in
    if c0 <? 0x80 then Valid p1
    else if (c0 <? 0xC2) || (0xF4 <? c0) then false
    else if c0 <? 0xE0 then
      match p1 with
      | b1 :: p2 => between 0x80 0xBF b1 && Valid p2
      | _ => false
      end
    else if c0 <? 0xF0 then
      match p1 with
      | b1 :: b2 :: p3 =>
        between (fst (accept3 c0)) (snd (accept3 c0)) b1
        && between 0x80 0xBF b2 && Valid p3
      | _ => false
      end
    else
      match p1 with
      | b1 :: b2 :: b3 :: p4 =>
        between (fst (accept4 c0)) (snd (accept4 c0)) b1
        && between 0x80 0xBF b2 && between 0x80 0xBF b3 && Valid p4
      | _ => false
      end
  end.

Definition ValidString (s : string) : bool := Valid (list_byte_of_string s).

End utf8.

(** ** google.golang.org/protobuf/encoding/protowire

    A consumer returns the decoded value and the rest of the buffer, or
    [None] where the Go function returns a negative length. *)
Module protowire.

Definition VarintType : Z := 0.
Definition Fixed64Type : Z := 1.
Definition BytesType : Z := 2.
Definition StartGroupType : Z := 3.
Definition EndGroupType : Z := 4.
Definition Fixed32Type : Z := 5.

Definition MinValidNumber : Z := 1.
Definition MaxValidNumber : Z := 2 ^ 29 - 1.
Definition MaxInt32 : Z := 2 ^ 31 - 1.
Definition DefaultRecursionLimit : Z := 10000.

(** The bytes of a varint whose value needs at most [S n] of them; the
    last of ten bytes carries bit 63 alone. *)
Fixpoint varint_bytes (n : nat) (v : Z) : bytes :=
  match n with
  | O => [byte_of v]
  | S n' =>
    if v <? 0x80 then [byte_of v]
    else byte_of (Z.lor (Z.land v 0x7f) 0x80) :: varint_bytes n' (Z.shiftr v 7)
  end.

Definition AppendVarint (b : bytes) (v : Z) : bytes := b ++ varint_bytes 9 v.

(** Reads a varint of at most [S n] bytes. A tenth byte above 1 overflows
    64 bits; an empty buffer is a truncated value. *)
Fixpoint consume_varint (n : nat) (b : bytes) : option (Z * bytes) :=
  match b with
  | [] => None
  | y :: b' =>
    match n with
    | O => if byte_val y <=? 1 then Some (byte_val y, b') else None
    | S n' =>
      if byte_val y <? 0x80 then Some (byte_val y, b')
      else
        match consume_varint n' b' with
        | Some (v, rest) => Some (Z.land (byte_val y) 0x7f + Z.shiftl v 7, rest)
        | None => None
        end
    end
  end.

Definition ConsumeVarint (b : bytes) : option (Z * bytes) := consume_varint 9 b.

Definition EncodeTag (num typ : Z) : Z := Z.lor (Z.shiftl num 3) (Z.land typ 7).

Definition AppendTag (b : bytes) (num typ : Z) : bytes :=
  AppendVarint b (EncodeTag num typ).

(** [ConsumeTag]: a field number below 1 or above [MaxInt32] is an error. *)
Definition ConsumeTag (b : bytes) : option (Z * Z * bytes) :=
  match ConsumeVarint b with
  | None => None
  | Some (v, rest) =>
    let num := Z.shiftr v 3 in
    if (num <? MinValidNumber) || (MaxInt32 <? num) then None
    else Some (num, Z.land v 7, rest)
  end.

Definition AppendBytes (b v : bytes) : bytes :=
  AppendVarint b (Z.of_nat (List.length v)) ++ v.

Definition AppendString (b : bytes) (v : string) : bytes :=
  AppendBytes b (list_byte_of_string v).

(** The first [m] bytes, when the buffer holds that many. *)
Definition take (m : Z) (b : bytes) : option (bytes * bytes) :=
  if Z.of_nat (List.length b) <? m then None
  else Some (firstn (Z.to_nat m) b, skipn (Z.to_nat m) b).

Definition ConsumeBytes (b : bytes) : option (bytes * bytes) :=
  match ConsumeVarint b with
  | None => None
  | Some (m, rest) => take m rest
  end.

Definition ConsumeFixed32 (b : bytes) : option (bytes * bytes) := take 4 b.
Definition ConsumeFixed64 (b : bytes) : option (bytes * bytes) := take 8 b.

(** [consumeFieldValueD], with the loop over the fields of a group as
    [consume_group]. Every tag read takes a byte of the buffer and costs at
    most two units of fuel, so twice the buffer's length is never exhausted. *)
Fixpoint consume_value (fuel : nat) (num typ : Z) (b : bytes) (depth : Z)
  : option bytes :=
  if typ =? VarintType then option_map snd (ConsumeVarint b)
  else if typ =? Fixed32Type then option_map snd (ConsumeFixed32 b)
  else if typ =? Fixed64Type then option_map snd (ConsumeFixed64 b)
  else if typ =? BytesType then option_map snd (ConsumeBytes b)
  else if typ =? StartGroupType then
    if depth <? 0 then None
    else match fuel with
         | O => None
         | S fuel' => consume_group fuel' num b depth
         end
  else None
with consume_group (fuel : nat) (num : Z) (b : bytes) (depth : Z)
  : option bytes :=
  match ConsumeTag b with
  | None => None
  | Some (num2, typ2, b1) =>
    if typ2 =? EndGroupType then
      if num =? num2 then Some b1 else None
    else
      match fuel with
      | O => None
      | S fuel' =>
        match consume_value fuel' num2 typ2 b1 (depth - 1) with
        | None => None
        | Some b2 => consume_group fuel' num b2 depth
        end
      end
  end.

Definition ConsumeFieldValue (num typ : Z) (b : bytes) : option bytes :=
  consume_value (S (2 * List.length b)) num typ b DefaultRecursionLimit.

End protowire.

(** ** Errors

    Modelled from the spec: the error values of [server/member/error.go],
    [server/etcdutil/error.go] and [pkg/coderr] are not under src/. Each is a
    coded error of one kind of the taxonomy of the specification, and
    [WithCause] attaches the originating error to it. *)
Inductive ErrKind : Type :=
| GetLeaderFailed
| MultipleLeaders
| InvalidLeaderValue
| ResetLeaderFailed
| TxnPutLeaderFailed
| MarshalMemberFailed
| LeaseGrantFailed
| KVGetFailed
| KVPutFailed
| KVDeleteFailed.

Inductive error : Type :=
| ProtoDecode                        (* proto: cannot parse invalid wire-format data *)
| ProtoInvalidUTF8                   (* proto: string field contains invalid UTF-8 *)
| ClientError (msg : string)         (* an error of the coordination store's client *)
| LeaseError (msg : string)          (* an error of the lease handle *)
| Formatted (format : string)        (* the message WithCausef formats *)
| Coded (kind : ErrKind)             (* a coded error with no cause *)
| Caused (kind : ErrKind) (cause : error).

Definition WithCause (e cause : error) : error :=
  match e with
  | Coded k | Caused k _ => Caused k cause
  | _ => e
  end.

Definition WithCausef (e : error) (format : string) : error :=
  WithCause e (Formatted format).

Definition ErrGetLeader : error := Coded GetLeaderFailed.
Definition ErrMultipleLeader : error := Coded MultipleLeaders.
Definition ErrInvalidLeaderValue : error := Coded InvalidLeaderValue.
Definition ErrResetLeader : error := Coded ResetLeaderFailed.
Definition ErrTxnPutLeader : error := Coded TxnPutLeaderFailed.
Definition ErrMarshalMember : error := Coded MarshalMemberFailed.
Definition ErrGrantLease : error := Coded LeaseGrantFailed.
Definition ErrEtcdKVGet : error := Coded KVGetFailed.
Definition ErrEtcdKVPut : error := Coded KVPutFailed.
Definition ErrEtcdKVDelete : error := Coded KVDeleteFailed.

(** ** metapb.Member and its wire codec (google.golang.org/protobuf/proto)

    The message declaration lives in another repository (ceresdbproto); the
    source builds it with plain [string] and [uint64] fields, so they are
    proto3 scalars: a zero value is not emitted, and a string must be valid
    UTF-8 in both directions. The field numbers are parameters. *)
Module metapb.

Record Member : Type := mkMember { Name : string; Id : Z }.

End metapb.

Module proto.
Import protowire.

Section MemberMessage.

Variables nameNum idNum : Z.

(** [appendStringNoZeroValidateUTF8] for the name field. *)
Definition appendName (b : bytes) (m : metapb.Member) : bytes + error :=
  let v := metapb.Name m in
  if (String.length v =? 0)%nat then inl b
  else
    let b := AppendVarint b (EncodeTag nameNum BytesType) in
    let b := AppendString b v in
    if utf8.ValidString v then inl b else inr ProtoInvalidUTF8.

(** [appendUint64NoZero] for the id field. *)
Definition appendId (b : bytes) (m : metapb.Member) : bytes + error :=
  let v := metapb.Id m in
  if v =? 0 then inl b
  else
    let b := AppendVarint b (EncodeTag idNum VarintType) in
    inl (AppendVarint b v).

(** [proto.Marshal]: the fields in the order of their numbers. *)
Definition Marshal (m : metapb.Member) : bytes + error :=
  let (first, second) :=
    if nameNum <? idNum then (appendName, appendId) else (appendId, appendName) in
  match first [] m with
  | inr err => inr err
  | inl b => second b m
  end.

(** The decoding loop of [unmarshalPointer] at the top level (no group is
    open): one field per iteration, the last value of a field wins, and a
    field that is not declared, or comes with another wire type, is skipped. *)
Fixpoint unmarshal_fields (fuel : nat) (b : bytes) (m : metapb.Member)
  : metapb.Member + error :=
  match b with
  | [] => inl m
  | _ :: _ =>
    match fuel with
    | O => inr ProtoDecode
    | S fuel' =>
      match ConsumeVarint b with
      | None => inr ProtoDecode
      | Some (tag, b1) =>
        let num := Z.shiftr tag 3 in
        let wtyp := Z.land tag 7 in
        if (num <? MinValidNumber) || (MaxValidNumber <? num) then inr ProtoDecode
        else if wtyp =? EndGroupType then inr ProtoDecode
        else if (num =? nameNum) && (wtyp =? BytesType) then
          match ConsumeBytes b1 with
          | None => inr ProtoDecode
          | Some (v, b2) =>
            if utf8.Valid v
            then unmarshal_fields fuel' b2
                   (metapb.mkMember (string_of_list_byte v) (metapb.Id m))
            else inr ProtoInvalidUTF8
          end
        else if (num =? idNum) && (wtyp =? VarintType) then
          match ConsumeVarint b1 with
          | None => inr ProtoDecode
          | Some (v, b2) =>
            unmarshal_fields fuel' b2 (metapb.mkMember (metapb.Name m) v)
          end
        else
          match ConsumeFieldValue num wtyp b1 with
          | None => inr ProtoDecode
          | Some b2 => unmarshal_fields fuel' b2 m
          end
      end
    end
  end.

(** [proto.Unmarshal] into a fresh [&metapb.Member{}]. Each iteration takes
    at least the tag's byte, so the buffer's length bounds the loop. *)
Definition Unmarshal (b : bytes) : metapb.Member + error :=
  unmarshal_fields (List.length b) b (metapb.mkMember EmptyString 0).

End MemberMessage.

End proto.


(** ** strings, bytes *)
Module strings.

(** [strings.Join([]string{a, b}, sep)]. *)
Definition Join2 (a b sep : string) : string := (a ++ sep ++ b)%string.

(** [s] without the leading [prefix], when it starts with it. *)
Fixpoint cut_prefix (s prefix : string) {struct prefix} : option string :=
  match prefix with
  | EmptyString => Some s
  | String c prefix' =>
    match s with
    | EmptyString => None
    | String d s' => if Ascii.eqb c d then cut_prefix s' prefix' else None
    end
  end.

Definition HasPrefix (s prefix : string) : bool :=
  match cut_prefix s prefix with Some _ => true | None => false end.

(** [strings.TrimPrefix]. *)
Definition TrimPrefix (s prefix : string) : string :=
  match cut_prefix s prefix with Some rest => rest | None => s end.

End strings.

(** ** path

    [path.Clean] works on the elements between slashes: empty elements and
    [.] are dropped, [..] takes back the element before it (at the root it
    is dropped, at the start of a relative path it is kept), and a path that
    comes out empty is [.]. *)
Module path.

(** The elements of a path, the empty ones included. *)
Fixpoint elements (p : string) : list string :=
  match p with
  | EmptyString => [EmptyString]
  | String c p' =>
    if Ascii.eqb c "/" then EmptyString :: elements p'
    else
      match elements p' with
      | e :: es => String c e :: es
      | [] => [String c EmptyString]
      end
  end.

(** One element met by [Clean]; [out] holds the elements kept so far, the
    last one first. *)
Definition clean_step (rooted : bool) (out : list string) (e : string)
  : list string :=
  if String.eqb e "" || String.eqb e "." then out
  else if String.eqb e ".." then
    match out with
    | last :: out' =>
      if String.eqb last ".." then (if rooted then out else e :: out)
      else out'
    | [] => if rooted then [] else [e]
    end
  else e :: out.

(** An element [Clean] keeps where it is: not empty, not [.], not [..]. *)
Definition is_name (e : string) : bool :=
  negb (String.eqb e "" || String.eqb e "." || String.eqb e "..").

Definition Clean (p : string) : string :=
  match p with
  | EmptyString => "."
  | String c _ =>
    let rooted := Ascii.eqb c "/" in
    let out := fold_left (clean_step rooted) (elements p) [] in
    let body := String.concat "/" (rev out) in
    let cleaned := if rooted then String "/" body else body in
    match cleaned with
    | EmptyString => "."
    | _ => cleaned
    end
  end.

(** [path.Join(a, b)]: the non-empty elements joined by a slash and
    cleaned; the empty string when both are empty. *)
Definition Join (a b : string) : string :=
  match a, b with
  | EmptyString, EmptyString => EmptyString
  | EmptyString, _ => Clean b
  | _, _ => Clean (a ++ "/" ++ b)
  end.

End path.

(** [bytes.Compare]: lexicographic, byte by byte. *)
Fixpoint bytes_compare (a b : bytes) : comparison :=
  match a, b with
  | [], [] => Eq
  | [], _ :: _ => Lt
  | _ :: _, [] => Gt
  | x :: a', y :: b' =>
    match byte_val x ?= byte_val y with
    | Eq => bytes_compare a' b'
    | c => c
    end
  end.

Definition bytes_eqb (a b : bytes) : bool :=
  match bytes_compare a b with Eq => true | _ => false end.

Definition bytes_ltb (a b : bytes) : bool :=
  match bytes_compare a b with Lt => true | _ => false end.

Definition bytes_leb (a b : bytes) : bool :=
  match bytes_compare a b with Gt => false | _ => true end.

(** ** context

    A context is known by the instant at which its [Done] channel closes,
    if it ever does, and by the error its [Err] returns from then on: for
    the caller's context both are the environment's choice (cancellation, or
    a deadline of its own). *)
Module context.

Definition Canceled : error := ClientError "context canceled".
Definition DeadlineExceeded : error := ClientError "context deadline exceeded".

Record Context : Type := mkContext { doneAt : option Z; cause : error }.

Definition Background : Context := mkContext None Canceled.

(** [context.WithTimeout(parent, timeout)] called at instant [now]: done at
    the deadline or when the parent is, whichever comes first, with the
    parent's error when the parent is done by the deadline. The cancel
    function is only ever deferred to the return of the caller. *)
Definition WithTimeout (parent : Context) (timeout now : Z) : Context :=
  match doneAt parent with
  | Some d =>
    mkContext (Some (Z.min d (now + timeout)))
      (if d <=? now + timeout then cause parent else DeadlineExceeded)
  | None => mkContext (Some (now + timeout)) DeadlineExceeded
  end.

Definition WithCancel (parent : Context) : Context := parent.

(** Whether [<-ctx.Done()] is ready at instant [now]. *)
Definition Done (ctx : Context) (now : Z) : bool :=
  match doneAt ctx with
  | Some d => d <=? now
  | None => false
  end.

(** [ctx.Err()] at instant [now]: nil until the context is done. *)
Definition Err (ctx : Context) (now : Z) : option error :=
  if Done ctx now then Some (cause ctx) else None.

End context.

(** ** go.etcd.io/etcd: key-value records and the key space *)
Module mvccpb.

Record KeyValue : Type := mkKeyValue {
  Key : bytes;
  CreateRevision : Z;
  ModRevision : Z;
  Version : Z;
  Value : bytes;
  Lease : Z
}.

Inductive EventType : Type := PUT | DELETE.

Record Event : Type := mkEvent { EvType : EventType; Kv : bytes }.

Definition is_delete (ev : Event) : bool :=
  match EvType ev with DELETE => true | PUT => false end.

End mvccpb.

(** The store's key space: the live keys in ascending order and the
    current revision. A write commits at the next revision; a key that is
    created gets that revision as its creation revision, and an absent key
    compares as the zero [KeyValue]. *)
Module mvcc.
Import mvccpb.

Record Store : Type := mkStore { kvs : list KeyValue; rev : Z }.

Definition lookup (key : bytes) (l : list KeyValue) : option KeyValue :=
  find (fun kv => bytes_eqb (Key kv) key) l.

Fixpoint upsert (kv : KeyValue) (l : list KeyValue) : list KeyValue :=
  match l with
  | [] => [kv]
  | x :: l' =>
    match bytes_compare (Key kv) (Key x) with
    | Lt => kv :: x :: l'
    | Eq => kv :: l'
    | Gt => x :: upsert kv l'
    end
  end.

Definition remove (key : bytes) (l : list KeyValue) : list KeyValue :=
  filter (fun kv => negb (bytes_eqb (Key kv) key)) l.

(** The record a put at revision [r] leaves under [key]. *)
Definition put_at (r : Z) (key value : bytes) (lease : Z) (l : list KeyValue)
  : list KeyValue :=
  match lookup key l with
  | Some old =>
    upsert (mkKeyValue key (CreateRevision old) r (Version old + 1) value lease) l
  | None => upsert (mkKeyValue key r r 1 value lease) l
  end.

(** Whether [k] is selected by a request for [key] with range end
    [rangeEnd]: the key alone when there is no range end, every key from
    [key] on when the range end is the single byte 0, and the half-open
    interval otherwise. *)
Definition selected (key rangeEnd k : bytes) : bool :=
  match rangeEnd with
  | [] => bytes_eqb k key
  | _ =>
    bytes_leb key k && (bytes_eqb rangeEnd [x00] || bytes_ltb k rangeEnd)
  end.

(** A range read; a limit of zero or less is no limit. *)
Definition range (s : Store) (key rangeEnd : bytes) (limit : Z) : list KeyValue :=
  let found := filter (fun kv => selected key rangeEnd (Key kv)) (kvs s) in
  if 0 <? limit then firstn (Z.to_nat limit) found else found.

(** Deletes one key; the revision moves only when a key was deleted. *)
Definition delete (s : Store) (key : bytes) : Z * Store :=
  match lookup key (kvs s) with
  | Some _ => (1, mkStore (remove key (kvs s)) (rev s + 1))
  | None => (0, s)
  end.

(** The live keys in strictly ascending order, as the store's index keeps
    them: no key twice. *)
Fixpoint ascending (l : list KeyValue) : Prop :=
  match l with
  | [] => True
  | x :: l' =>
    Forall (fun y => bytes_ltb (Key x) (Key y) = true) l' /\ ascending l'
  end.

(** A key space is sound at [key] when its revision is not negative and
    the record under [key], if there is one, was created at a positive
    revision: the store starts at revision 1 and creates at the next one. *)
Definition sound_at (key : bytes) (s : Store) : Prop :=
  0 <= rev s
  /\ forall kv, lookup key (kvs s) = Some kv -> 0 < CreateRevision kv.

End mvcc.

(** ** go.etcd.io/etcd/client/v3 *)
Module clientv3.
Import mvccpb.

Inductive CompareTarget : Type := CREATE | MOD | VERSION.

(** A comparison of a transaction; [Result] is the operator as the caller
    wrote it. *)
Record Cmp : Type := mkCmp {
  Target : CompareTarget;
  CmpKey : bytes;
  Result : string;
  TargetValue : Z
}.

Definition CreateRevision (key : string) : Cmp :=
  mkCmp CREATE (list_byte_of_string key) EmptyString 0.

Definition Compare (cmp : Cmp) (result : string) (v : Z) : Cmp :=
  mkCmp (Target cmp) (CmpKey cmp) result v.

Inductive OpOption : Type :=
| WithRange (endKey : string)
| WithLimit (n : Z)
| WithRev (rev : Z)
| WithLease (id : Z).

Inductive Op : Type :=
| OpPut (key val : string) (opts : list OpOption)
| OpDelete (key : string).

Record GetResponse : Type := mkGetResponse { Kvs : list KeyValue }.
Record DeleteResponse : Type := mkDeleteResponse { Deleted : Z }.
Record TxnResponse : Type := mkTxnResponse { Succeeded : bool; Revision : Z }.

Record WatchResponse : Type := mkWatchResponse {
  Events : list Event;
  CompactRevision : Z;
  Canceled : bool
}.

Definition range_end_of (opts : list OpOption) : bytes :=
  fold_left (fun acc o => match o with
                          | WithRange e => list_byte_of_string e
                          | _ => acc
                          end) opts [].

Definition limit_of (opts : list OpOption) : Z :=
  fold_left (fun acc o => match o with WithLimit n => n | _ => acc end) opts 0.

Definition lease_of (opts : list OpOption) : Z :=
  fold_left (fun acc o => match o with WithLease id => id | _ => acc end) opts 0.

(** The value a comparison reads: the zero record for an absent key. *)
Definition target_value (l : list KeyValue) (cmp : Cmp) : Z :=
  match mvcc.lookup (CmpKey cmp) l with
  | None => 0
  | Some kv =>
    match Target cmp with
    | CREATE => mvccpb.CreateRevision kv
    | MOD => mvccpb.ModRevision kv
    | VERSION => mvccpb.Version kv
    end
  end.

Definition holds (l : list KeyValue) (cmp : Cmp) : bool :=
  let v := target_value l cmp in
  if String.eqb (Result cmp) "=" then v =? TargetValue cmp
  else if String.eqb (Result cmp) "!=" then negb (v =? TargetValue cmp)
  else if String.eqb (Result cmp) ">" then TargetValue cmp <? v
  else if String.eqb (Result cmp) "<" then v <? TargetValue cmp
  else false.

(** One operation of a transaction committing at revision [r]; the flag
    tells whether anything was written so far. *)
Definition apply_op (r : Z) (acc : list KeyValue * bool) (op : Op)
  : list KeyValue * bool :=
  let (l, wrote) := acc in
  match op with
  | OpPut key val opts =>
    (mvcc.put_at r (list_byte_of_string key) (list_byte_of_string val)
       (lease_of opts) l, true)
  | OpDelete key =>
    match mvcc.lookup (list_byte_of_string key) l with
    | Some _ => (mvcc.remove (list_byte_of_string key) l, true)
    | None => (l, wrote)
    end
  end.

(** [Txn().If(cmps).Then(thenOps).Else(elseOps).Commit()] on the key
    space: the comparisons are evaluated and the chosen branch applied in
    one atomic step, at one revision. *)
Definition commit (s : mvcc.Store) (cmps : list Cmp) (thenOps elseOps : list Op)
  : TxnResponse * mvcc.Store :=
  let ok := forallb (holds (mvcc.kvs s)) cmps in
  let r := mvcc.rev s + 1 in
  let (l, wrote) :=
    fold_left (apply_op r) (if ok then thenOps else elseOps) (mvcc.kvs s, false) in
  if wrote then (mkTxnResponse ok r, mvcc.mkStore l r)
  else (mkTxnResponse ok (mvcc.rev s), s).

(** A client of one cluster: the key space it talks to, and the error its
    calls return while the cluster cannot be reached. *)
Record Client : Type := mkClient {
  cluster : mvcc.Store;
  unavailable : option error
}.

Definition Get (c : Client) (key : string) (opts : list OpOption)
  : GetResponse + error :=
  match unavailable c with
  | Some err => inr err
  | None =>
    inl (mkGetResponse
           (mvcc.range (cluster c) (list_byte_of_string key)
              (range_end_of opts) (limit_of opts)))
  end.

Definition Delete (c : Client) (key : string) : (DeleteResponse + error) * Client :=
  match unavailable c with
  | Some err => (inr err, c)
  | None =>
    let (n, s) := mvcc.delete (cluster c) (list_byte_of_string key) in
    (inl (mkDeleteResponse n), mkClient s None)
  end.

(** [client.Put(ctx, key, val)]: one write at the next revision. *)
Definition Put (c : Client) (key val : string) : option error * Client :=
  match unavailable c with
  | Some err => (Some err, c)
  | None =>
    let s := cluster c in
    let r := mvcc.rev s + 1 in
    (None,
     mkClient
       (mvcc.mkStore
          (mvcc.put_at r (list_byte_of_string key) (list_byte_of_string val) 0
             (mvcc.kvs s)) r)
       None)
  end.

Definition Commit (c : Client) (cmps : list Cmp) (thenOps : list Op)
  : (TxnResponse + error) * Client :=
  match unavailable c with
  | Some err => (inr err, c)
  | None =>
    let (resp, s) := commit (cluster c) cmps thenOps [] in
    (inl resp, mkClient s None)
  end.

(** Transactions of several clients as the store serializes them: one
    after the other, each on the key space the previous one left. *)
Fixpoint commit_all (c : Client) (txns : list (list Cmp * list Op))
  : list (TxnResponse + error) * Client :=
  match txns with
  | [] => ([], c)
  | (cmps, thenOps) :: txns' =>
    let (r, c1) := Commit c cmps thenOps in
    let (rs, c2) := commit_all c1 txns' in
    (r :: rs, c2)
  end.

Definition succeeded (r : TxnResponse + error) : bool :=
  match r with
  | inl resp => Succeeded resp
  | inr _ => false
  end.

(** A response the watch loop of the member manager passes over: no
    compaction, no cancellation, no delete event. *)
Definition quiet (resp : WatchResponse) : bool :=
  (CompactRevision resp =? 0) && negb (Canceled resp)
  && negb (existsb mvccpb.is_delete (Events resp)).

End clientv3.

(** ** The world a call runs in

    [now] is the clock in nanoseconds; local steps take no time and the
    k-th blocking call takes the k-th duration of [waits] (none once they
    run out). [kv] is the state behind the injected [ClusterKV], [calls] the
    calls made on the collaborators so far, oldest first, and [tickFirst]
    the case a [select] takes when a tick and the context's end fall on the
    same instant. *)
Inductive LogLevel : Type := Info | Warn | Error.

Inductive Call : Type :=
| CallKVGet (key : string)
| CallKVDelete (key : string)
| CallKVTxn (cmps : list clientv3.Cmp) (thenOps : list clientv3.Op)
| CallLeaseGrant (ttlSec : Z)
| CallLeaseClose (id : Z)
| CallLeaseKeepAlive (id : Z)
| CallWatch (key : string) (opts : list clientv3.OpOption)
| CallWatcherClose
| CallLog (level : LogLevel) (msg : string).

Record World (St : Type) : Type := mkWorld {
  now : Z;
  waits : list Z;
  tickFirst : Z -> bool;
  kv : St;
  calls : list Call
}.

Arguments mkWorld {St}.
Arguments now {St}.
Arguments waits {St}.
Arguments tickFirst {St}.
Arguments kv {St}.
Arguments calls {St}.

(** What a call that may wait forever comes to. *)
Inductive Outcome (A : Type) : Type :=
| Returned (a : A)
| Blocked.

Arguments Returned {A}.
Arguments Blocked {A}.

(** The state monad over the world. *)
Definition M (St A : Type) : Type := World St -> A * World St.

Definition ret {St A : Type} (a : A) : M St A := fun w => (a, w).

Definition bind {St A B : Type} (c : M St A) (k : A -> M St B) : M St B :=
  fun w => let (a, w') := c w in k a w'.

Declare Scope go_scope.
Delimit Scope go_scope with go.
Notation "x <- c ;; k" := (bind c (fun x => k))
  (at level 61, c at next level, right associativity) : go_scope.
Notation "c ;; k" := (bind c (fun _ => k))
  (at level 61, right associativity) : go_scope.
Local Open Scope go_scope.

Definition clock {St : Type} : M St Z := fun w => (now w, w).

Definition record {St : Type} (c : Call) : M St unit :=
  fun w => (tt, mkWorld (now w) (waits w) (tickFirst w) (kv w) (calls w ++ [c])).

(** The clock moves to instant [t] unless it is already past it. *)
Definition wait_until {St : Type} (t : Z) : M St unit :=
  fun w => (tt, mkWorld (Z.max (now w) t) (waits w) (tickFirst w) (kv w) (calls w)).

(** A blocking call takes its time. *)
Definition block {St : Type} : M St unit :=
  fun w =>
    match waits w with
    | [] => (tt, w)
    | d :: ds =>
      (tt, mkWorld (now w + Z.max 0 d) ds (tickFirst w) (kv w) (calls w))
    end.

(** The injected scheduler's choice at instant [t]. *)
Definition tick_first {St : Type} (t : Z) : M St bool :=
  fun w => (tickFirst w t, w).

Definition log {St : Type} (level : LogLevel) (msg : string) : M St unit :=
  record (CallLog level msg).

(** ** etcdutil.ClusterKV

    Modelled from the spec: the interface is declared in
    [server/etcdutil], which is not under src/; its operations are the
    [Get], [Delete] and [Txn] of the coordination store facade. An
    implementation answers a call at an instant, from a state of its own,
    which it moves. *)
Class ClusterKV (St : Type) : Type := {
  kvGet : context.Context -> string -> Z -> St ->
          (clientv3.GetResponse + error) * St;
  kvDelete : context.Context -> string -> Z -> St ->
             (clientv3.DeleteResponse + error) * St;
  kvCommit : context.Context -> list clientv3.Cmp -> list clientv3.Op -> Z -> St ->
             (clientv3.TxnResponse + error) * St
}.

(** The etcd client as a [ClusterKV]: a call whose context is done at the
    instant it would be answered returns the context's error; such a call is
    taken not to have reached the key space. *)
#[export] Instance etcdKV : ClusterKV clientv3.Client := {
  kvGet := fun ctx key t c =>
    match context.Err ctx t with
    | Some err => (inr err, c)
    | None => (clientv3.Get c key [], c)
    end;
  kvDelete := fun ctx key t c =>
    match context.Err ctx t with
    | Some err => (inr err, c)
    | None => clientv3.Delete c key
    end;
  kvCommit := fun ctx cmps ops t c =>
    match context.Err ctx t with
    | Some err => (inr err, c)
    | None => clientv3.Commit c cmps ops
    end
}.

(** A test double of the facade: it answers every call with the reply it
    holds. *)
Record Stub : Type := mkStub {
  getReply : clientv3.GetResponse + error;
  deleteReply : clientv3.DeleteResponse + error;
  txnReply : clientv3.TxnResponse + error
}.

#[export] Instance stubKV : ClusterKV Stub := {
  kvGet := fun _ _ _ s => (getReply s, s);
  kvDelete := fun _ _ _ s => (deleteReply s, s);
  kvCommit := fun _ _ _ _ s => (txnReply s, s)
}.

(** The calls that reach the coordination store's key space. *)
Definition is_kv_call (c : Call) : bool :=
  match c with
  | CallKVGet _ | CallKVDelete _ | CallKVTxn _ _ => true
  | _ => false
  end.

(** The calls of a wait for the leader key before its watcher is closed. *)
Definition is_watch_or_log (c : Call) : bool :=
  match c with
  | CallWatch _ _ | CallLog _ _ => true
  | _ => false
  end.

Definition is_lease_close (c : Call) : bool :=
  match c with
  | CallLeaseClose _ => true
  | _ => false
  end.

(** A [clientv3.Watcher]: the k-th call of [Watch] returns the k-th
    channel. A channel delivers its responses in order and is then closed,
    or stays open and silent. *)
Record WatchChan : Type := mkWatchChan {
  resps : list clientv3.WatchResponse;
  closed : bool
}.

Record Watcher : Type := mkWatcher {
  chans : list WatchChan;
  closeErr : option error
}.

(** ** The lease handle

    Modelled from the spec: [server/member/lease.go] is not under src/. The
    handle wraps a store lease, owns grant, keep-alive and revocation, and
    exposes a liveness flag that the keep-alive stream alone writes. The raw
    lease service decides the outcome of a grant and of a close, and what the
    flag reads at each instant; an error of the grant is wrapped, with its
    cause, as [LeaseGrantFailed]. *)
Module lease.

Record RawLease : Type := mkRawLease {
  grantReply : Z + error;
  closeReply : option error;
  aliveAt : Z -> bool
}.

Record lease : Type := mklease {
  rawLease : RawLease;
  ttlSec : Z;
  ID : Z
}.

Definition newLease (rawLease : RawLease) (ttlSec : Z) : lease :=
  mklease rawLease ttlSec 0.

(** [l.Grant(ctx)]: the handle with the granted ID, or the error of the
    service as [LeaseGrantFailed]. *)
Definition Grant {St : Type} (l : lease) (ctx : context.Context)
  : M St (lease + error) :=
  record (CallLeaseGrant (ttlSec l));;
  block;;
  match grantReply (rawLease l) with
  | inl id => ret (inl (mklease (rawLease l) (ttlSec l) id))
  | inr err => ret (inr (WithCause ErrGrantLease err))
  end.

Definition Close {St : Type} (l : lease) (ctx : context.Context)
  : M St (option error) :=
  record (CallLeaseClose (ID l));;
  block;;
  ret (closeReply (rawLease l)).

(** [go l.KeepAlive(ctx)]: the stream runs on its own from here. *)
Definition KeepAlive {St : Type} (l : lease) (ctx : context.Context) : M St unit :=
  record (CallLeaseKeepAlive (ID l)).

Definition IsLeader {St : Type} (l : lease) : M St bool :=
  fun w => (aliveAt (rawLease l) (now w), w).

End lease.

(** ** server/member/member.go *)
Module member.
Import clientv3.

Definition Millisecond : Z := 1000000.

Definition leaderCheckInterval : Z := 50 * Millisecond.

(** The struct [Member]. The injected [clusterKV] is the [ClusterKV]
    instance the methods run against; [etcdLeaderGetter] gives the ID of the
    store's own leader as read at an instant. *)
Record Member : Type := mkMember {
  ID : Z;
  Name : string;
  rootPath : string;
  leaderKey : string;
  etcdLeaderGetter : Z -> Z;
  leader : option metapb.Member;
  rpcTimeout : Z
}.

Record GetLeaderResp : Type := mkGetLeaderResp {
  Leader : option metapb.Member;
  Revision : Z
}.

Definition formatLeaderKey (rootPath : string) : string :=
  (rootPath ++ "/members/leader")%string.

Definition NewMember (rootPath : string) (id : Z) (name : string)
    (etcdLeaderGetter : Z -> Z) (rpcTimeout : Z) : Member :=
  let leaderKey := formatLeaderKey rootPath in
  mkMember id name rootPath leaderKey etcdLeaderGetter None rpcTimeout.

(** The case a [select] between the ticker and [ctx.Done()] takes. *)
Inductive Ready : Type := TickerC | CtxDone.

(** How the loop over a watch channel is left. *)
Inductive RangeExit : Type :=
| ExitReturn
| ExitBreak (revision : Z)
| ExitClosed
| ExitSilent.

Section Methods.

Context {St : Type} {clusterKV : ClusterKV St}.

(** The field numbers of [metapb.Member]. *)
Variables nameNum idNum : Z.

Definition on_kv {A : Type} (f : St -> A * St) : M St A :=
  fun w =>
    let (a, s) := f (kv w) in
    (a, mkWorld (now w) (waits w) (tickFirst w) s (calls w)).

Definition clusterKV_Get (ctx : context.Context) (key : string)
  : M St (GetResponse + error) :=
  record (CallKVGet key);; block;; t <- clock;; on_kv (kvGet ctx key t).

Definition clusterKV_Delete (ctx : context.Context) (key : string)
  : M St (DeleteResponse + error) :=
  record (CallKVDelete key);; block;; t <- clock;; on_kv (kvDelete ctx key t).

Definition clusterKV_Txn_Commit (ctx : context.Context) (cmps : list Cmp)
    (thenOps : list Op) : M St (TxnResponse + error) :=
  record (CallKVTxn cmps thenOps);; block;;
  t <- clock;; on_kv (kvCommit ctx cmps thenOps t).

Definition Marshal (m : Member) : string + error :=
  let memPb := metapb.mkMember (Name m) (ID m) in
  match proto.Marshal nameNum idNum memPb with
  | inr err => inr (WithCause ErrMarshalMember err)
  | inl bs => inl (string_of_list_byte bs)
  end.

Definition GetLeader (m : Member) (ctx : context.Context)
  : M St (GetLeaderResp + error) :=
  t <- clock;;
  let ctx := context.WithTimeout ctx (rpcTimeout m) t in
  r <- clusterKV_Get ctx (leaderKey m);;
  match r with
  | inr err => ret (inr (WithCause ErrGetLeader err))
  | inl resp =>
    match Kvs resp with
    | _ :: _ :: _ => ret (inr ErrMultipleLeader)
    | [] => ret (inl (mkGetLeaderResp None 0))
    | [leaderKv] =>
      match proto.Unmarshal nameNum idNum (mvccpb.Value leaderKv) with
      | inr err => ret (inr (WithCause ErrInvalidLeaderValue err))
      | inl leader =>
        ret (inl (mkGetLeaderResp (Some leader) (mvccpb.ModRevision leaderKv)))
      end
    end
  end.

Definition ResetLeader (m : Member) (ctx : context.Context) : M St (option error) :=
  t <- clock;;
  let ctx := context.WithTimeout ctx (rpcTimeout m) t in
  r <- clusterKV_Delete ctx (leaderKey m);;
  match r with
  | inr err => ret (Some (WithCause ErrResetLeader err))
  | inl _ => ret None
  end.

(** [for resp := range wch]: each response takes a blocking receive. *)
Fixpoint range_wch (m : Member) (revision : Z) (rs : list WatchResponse)
    (closed : bool) : M St RangeExit :=
  match rs with
  | [] => if closed then block;; ret ExitClosed else ret ExitSilent
  | resp :: rs' =>
    block;;
    if negb (CompactRevision resp =? 0) then
      log Warn "required revision has been compacted, use the compact revision";;
      ret (ExitBreak (CompactRevision resp))
    else if Canceled resp then
      log Error "watcher is cancelled";;
      ret ExitReturn
    else if existsb mvccpb.is_delete (Events resp) then
      log Info "current leader is deleted";;
      ret ExitReturn
    else range_wch m revision rs' closed
  end.

(** The outer [for] of [WaitForLeaderChange]; when the watcher has no
    channel left to give, the call stays on a silent one. *)
Fixpoint watch_loop (m : Member) (ctx : context.Context) (chs : list WatchChan)
    (revision : Z) : M St (Outcome unit) :=
  match chs with
  | [] => record (CallWatch (leaderKey m) [WithRev revision]);; ret Blocked
  | wch :: chs' =>
    record (CallWatch (leaderKey m) [WithRev revision]);;
    e <- range_wch m revision (resps wch) (closed wch);;
    match e with
    | ExitReturn => ret (Returned tt)
    | ExitSilent => ret Blocked
    | ExitBreak compact =>
      t <- clock;;
      if context.Done ctx t then ret (Returned tt)
      else watch_loop m ctx chs' compact
    | ExitClosed =>
      t <- clock;;
      if context.Done ctx t then ret (Returned tt)
      else watch_loop m ctx chs' revision
    end
  end.

Definition WaitForLeaderChange (m : Member) (ctx : context.Context)
    (watcher : Watcher) (revision : Z) : M St (Outcome unit) :=
  let ctx := context.WithCancel ctx in
  o <- watch_loop m ctx (chans watcher) revision;;
  match o with
  | Blocked => ret Blocked
  | Returned _ =>
    (* deferred: watcher.Close() *)
    record CallWatcherClose;;
    match closeErr watcher with
    | Some _ => log Error "close watcher failed"
    | None => ret tt
    end;;
    ret (Returned tt)
  end.

(** [select] between the ticker channel, next due at [nextTick], and
    [ctx.Done()]. *)
Definition select (ctx : context.Context) (nextTick : Z) : M St Ready :=
  match context.doneAt ctx with
  | None => wait_until nextTick;; ret TickerC
  | Some d =>
    if d <? nextTick then wait_until d;; ret CtxDone
    else if nextTick <? d then wait_until nextTick;; ret TickerC
    else
      first <- tick_first nextTick;;
      wait_until nextTick;;
      ret (if first then TickerC else CtxDone)
  end.

(** The monitoring loop; [Blocked] after [fuel] rounds means the call is
    still in the loop. *)
Fixpoint keep_leader (fuel : nat) (m : Member) (newLease : lease.lease)
    (ctx : context.Context) (nextTick : Z) : M St (Outcome (option error)) :=
  match fuel with
  | O => ret Blocked
  | S fuel' =>
    ready <- select ctx nextTick;;
    match ready with
    | TickerC =>
      isLeader <- lease.IsLeader newLease;;
      if negb isLeader then
        log Info "no longer a leader because lease has expired";;
        ret (Returned None)
      else
        t <- clock;;
        let etcdLeader := etcdLeaderGetter m t in
        if negb (etcdLeader =? ID m) then
          log Info "etcd leader changed and should re-assign the leadership";;
          ret (Returned None)
        else keep_leader fuel' m newLease ctx (nextTick + leaderCheckInterval)
    | CtxDone =>
      log Info "server is closed";;
      ret (Returned None)
    end
  end.

Definition CampaignAndKeepLeader (fuel : nat) (m : Member) (ctx : context.Context)
    (rawLease : lease.RawLease) (leaseTTLSec : Z) : M St (Outcome (option error)) :=
  match Marshal m with
  | inr err => ret (Returned (Some err))
  | inl leaderVal =>
    let newLease := lease.newLease rawLease leaseTTLSec in
    g <- lease.Grant newLease ctx;;
    match g with
    | inr err => ret (Returned (Some err))
    | inl newLease =>
      t <- clock;;
      let ctx := context.WithTimeout ctx (rpcTimeout m) t in
      (* The leader key must not exist, so the CreateRevision is 0. *)
      let cmp := Compare (CreateRevision (leaderKey m)) "=" 0 in
      r <- clusterKV_Txn_Commit ctx [cmp]
             [OpPut (leaderKey m) leaderVal [WithLease (lease.ID newLease)]];;
      match r with
      | inr err =>
        closeErr <- lease.Close newLease ctx;;
        match closeErr with
        | Some _ => log Error "close lease failed after txn put leader"
        | None => ret tt
        end;;
        ret (Returned (Some (WithCause ErrTxnPutLeader err)))
      | inl resp =>
        if negb (Succeeded resp) then
          closeErr <- lease.Close newLease ctx;;
          match closeErr with
          | Some _ => log Error "close lease failed after txn put leader"
          | None => ret tt
          end;;
          ret (Returned (Some (WithCausef ErrTxnPutLeader
                                 "txn put leader failed, resp:%v")))
        else
          log Info "succeed to set leader";;
          (* keep the leadership after success in campaigning leader. *)
          lease.KeepAlive newLease ctx;;
          (* check the leadership periodically and exit if it changes. *)
          start <- clock;;
          keep_leader fuel m newLease ctx (start + leaderCheckInterval)
      end
    end
  end.

(** The context the campaign's transaction runs under, the instant at
    which the store answers that transaction, and its reply, for a campaign
    entered in world [w] whose lease was granted as [id]. *)
Definition campaign_ctx (m : Member) (ctx : context.Context)
    (rawLease : lease.RawLease) (leaseTTLSec : Z) (w : World St) : context.Context :=
  context.WithTimeout ctx (rpcTimeout m)
    (now (snd (lease.Grant (lease.newLease rawLease leaseTTLSec) ctx w))).

Definition campaign_txn_at (ctx : context.Context) (rawLease : lease.RawLease)
    (leaseTTLSec : Z) (w : World St) : Z :=
  now (snd (block (snd (lease.Grant (lease.newLease rawLease leaseTTLSec) ctx w)))).

Definition campaign_txn_reply (m : Member) (ctx : context.Context)
    (rawLease : lease.RawLease) (leaseTTLSec : Z) (leaderVal : string) (id : Z)
    (w : World St) : TxnResponse + error :=
  fst (kvCommit (campaign_ctx m ctx rawLease leaseTTLSec w)
         [Compare (CreateRevision (leaderKey m)) "=" 0]
         [OpPut (leaderKey m) leaderVal [WithLease id]]
         (campaign_txn_at ctx rawLease leaseTTLSec w)
         (kv w)).

(** The instant at which the loop over the channel of a watch opened in
    world [w] is left: the instant of the [select] that follows it. *)
Definition watch_left_at (m : Member) (revision : Z) (wch : WatchChan)
    (w : World St) : Z :=
  now (snd (range_wch m revision (resps wch) (closed wch)
              (snd (record (CallWatch (leaderKey m) [WithRev revision]) w)))).

(** A campaign has won when it is monitoring or has returned nil. *)
Definition won (o : Outcome (option error)) : bool :=
  match o with
  | Returned (Some _) => false
  | _ => true
  end.

(** One campaign of a race: the member, its arguments, the rounds of
    monitoring it is followed for, and the world it runs in but for the
    store. *)
Record Attempt : Type := mkAttempt {
  attMember : Member;
  attCtx : context.Context;
  attLease : lease.RawLease;
  attTTL : Z;
  attRounds : nat;
  attWorld : World St
}.

(** Campaigns racing on one store, as the store serializes them: each runs
    on the store the one before it left. *)
Fixpoint campaign_all (race : list Attempt) (s : St)
  : list (Outcome (option error)) * St :=
  match race with
  | [] => ([], s)
  | a :: race' =>
    let w := attWorld a in
    let r := CampaignAndKeepLeader (attRounds a) (attMember a) (attCtx a)
               (attLease a) (attTTL a)
               (mkWorld (now w) (waits w) (tickFirst w) s (calls w)) in
    let (os, s') := campaign_all race' (kv (snd r)) in
    (fst r :: os, s')
  end.

End Methods.

End member.

(** ** server/storage/etcd_kv.go *)
Module storage.

Definition delimiter : string := "/".

Record etcdKVBase : Type := mketcdKVBase {
  client : clientv3.Client;
  rootPath : string
}.

Definition NewEtcdKVBase (client : clientv3.Client) (rootPath : string)
  : etcdKVBase := mketcdKVBase client rootPath.

(** What [Load] fails with: an error of the taxonomy, or
    [etcdutil.ErrEtcdKVGetResponse] with the pairs the read returned, for
    which the taxonomy of the specification has no kind. *)
Inductive LoadError : Type :=
| LoadFailed (err : error)
| ErrEtcdKVGetResponse (kvs : list mvccpb.KeyValue).

Definition Load (kv : etcdKVBase) (key : string) : string + LoadError :=
  let key := path.Join (rootPath kv) key in
  match clientv3.Get (client kv) key [] with
  | inr err => inr (LoadFailed (WithCause ErrEtcdKVGet err))
  | inl resp =>
    match clientv3.Kvs resp with
    | [] => inl EmptyString
    | [item] => inl (string_of_list_byte (mvccpb.Value item))
    | _ :: _ :: _ => inr (ErrEtcdKVGetResponse (clientv3.Kvs resp))
    end
  end.

(** [Save] and [Remove] return their error, the storage over the client
    as the call left it, and what they logged. *)
Definition Save (kv : etcdKVBase) (key value : string)
  : option error * etcdKVBase * list Call :=
  let key := strings.Join2 (rootPath kv) key delimiter in
  let (err, c) := clientv3.Put (client kv) key value in
  match err with
  | Some err =>
    let e := WithCause ErrEtcdKVPut err in
    (Some e, mketcdKVBase c (rootPath kv),
     [CallLog Error "save to etcd meet error"])
  | None => (None, mketcdKVBase c (rootPath kv), [])
  end.

Definition Remove (kv : etcdKVBase) (key : string)
  : option error * etcdKVBase * list Call :=
  let key := strings.Join2 (rootPath kv) key delimiter in
  let (r, c) := clientv3.Delete (client kv) key in
  match r with
  | inr err =>
    let err := WithCause ErrEtcdKVDelete err in
    (Some err, mketcdKVBase c (rootPath kv),
     [CallLog Error "remove from etcd meet error"])
  | inl _ => (None, mketcdKVBase c (rootPath kv), [])
  end.

Definition LoadRange (kv : etcdKVBase) (key endKey : string) (limit : Z)
  : (list string * list string) + error :=
  let key := strings.Join2 (rootPath kv) key delimiter in
  let endKey := strings.Join2 (rootPath kv) endKey delimiter in
  let withRange := clientv3.WithRange endKey in
  let withLimit := clientv3.WithLimit limit in
  match clientv3.Get (client kv) key [withRange; withLimit] with
  | inr err => inr (WithCause ErrEtcdKVGet err)
  | inl resp =>
    inl (fold_left
           (fun (acc : list string * list string) item =>
              let (keys, values) := acc in
              (keys ++ [strings.TrimPrefix
                          (strings.TrimPrefix
                             (string_of_list_byte (mvccpb.Key item))
                             (rootPath kv))
                          delimiter],
               values ++ [string_of_list_byte (mvccpb.Value item)]))
           (clientv3.Kvs resp) ([], []))
  end.

End storage.

(** ** Worlds and collaborators to run the code on *)
Module example.

(** [metapb.Member] with the name as field 1 and the id as field 2. *)
Definition nameNum : Z := 1.
Definition idNum : Z := 2.

(** Two managers of one cluster; the store's own leader is node 7
    throughout, and an RPC may take 100ms. *)
Definition node_a : member.Member :=
  member.NewMember "/ceres" 7 "node-a" (fun _ => 7) (100 * member.Millisecond).

Definition node_b : member.Member :=
  member.NewMember "/ceres" 8 "node-b" (fun _ => 7) (100 * member.Millisecond).

(** A lease service that grants lease 77 and keeps it alive for ever. *)
Definition alive : lease.RawLease :=
  lease.mkRawLease (inl 77) None (fun _ => true).

(** A lease service that grants lease 78 and fails to close it. *)
Definition stuck : lease.RawLease :=
  lease.mkRawLease (inl 78) (Some (LeaseError "revoke failed")) (fun _ => true).

(** A fresh cluster at revision 1, at instant 0, with calls that take no
    time. *)
Definition fresh : World clientv3.Client :=
  mkWorld 0 [] (fun _ => true) (clientv3.mkClient (mvcc.mkStore [] 1) None) [].

(** The record node-a writes when it wins on the fresh cluster. *)
Definition leader_record : mvccpb.KeyValue :=
  mvccpb.mkKeyValue (list_byte_of_string "/ceres/members/leader") 2 2 1
    [x0a; x06; x6e; x6f; x64; x65; x2d; x61; x10; x07] 77.

(** The cluster once node-a leads. *)
Definition led : World clientv3.Client :=
  mkWorld 0 [] (fun _ => true)
    (clientv3.mkClient (mvcc.mkStore [leader_record] 2) None) [].

(** The fresh cluster as it stands 20ms after instant 0. *)
Definition at_20ms : World clientv3.Client :=
  mkWorld (20 * member.Millisecond) [] (fun _ => true)
    (clientv3.mkClient (mvcc.mkStore [] 1) None) [].

(** A caller that cancels 10ms after instant 0. *)
Definition cancels_at_10ms : context.Context :=
  context.mkContext (Some (10 * member.Millisecond)) context.Canceled.

(** A facade stubbed to answer a read with two pairs. *)
Definition two_leaders : World Stub :=
  mkWorld 0 [] (fun _ => true)
    (mkStub (inl (clientv3.mkGetResponse [leader_record; leader_record]))
       (inl (clientv3.mkDeleteResponse 0))
       (inl (clientv3.mkTxnResponse false 2))) [].

(** A facade whose calls fail. *)
Definition unreachable : World Stub :=
  mkWorld 0 [] (fun _ => true)
    (mkStub (inr (ClientError "context deadline exceeded"))
       (inr (ClientError "context deadline exceeded"))
       (inr (ClientError "context deadline exceeded"))) [].

(** A watcher whose first watch meets a compaction at revision 10 and whose
    second watch sees the leader key deleted. *)
Definition compacted : clientv3.WatchResponse :=
  clientv3.mkWatchResponse [] 10 true.

Definition deleted : clientv3.WatchResponse :=
  clientv3.mkWatchResponse
    [mvccpb.mkEvent mvccpb.DELETE (list_byte_of_string "/ceres/members/leader")]
    0 false.

Definition watcher : Watcher :=
  mkWatcher [mkWatchChan [compacted] true; mkWatchChan [deleted] false] None.

(** A storage under the root path "/r" holding two keys. *)
Definition two_keys : storage.etcdKVBase :=
  storage.NewEtcdKVBase
    (clientv3.mkClient
       (mvcc.mkStore
          [mvccpb.mkKeyValue (list_byte_of_string "/r/a") 2 2 1
             (list_byte_of_string "1") 0;
           mvccpb.mkKeyValue (list_byte_of_string "/r/b") 3 3 1
             (list_byte_of_string "2") 0]
          3)
       None)
    "/r".

(** The same storage behind a client that cannot reach its cluster. *)
Definition cut_off : storage.etcdKVBase :=
  storage.NewEtcdKVBase
    (clientv3.mkClient (clientv3.cluster (storage.client two_keys))
       (Some (ClientError "context deadline exceeded")))
    "/r".

(** A manager whose name is the single byte 0xff, which is not UTF-8. *)
Definition node_bad : member.Member :=
  member.NewMember "/ceres" 9 (string_of_list_byte [xff]) (fun _ => 7)
    (100 * member.Millisecond).

(** A manager that allows a second for an RPC, on a store led by node 9. *)
Definition node_c : member.Member :=
  member.NewMember "/ceres" 9 "node-c" (fun _ => 9) (1000 * member.Millisecond).

(** A lease service that refuses to grant. *)
Definition refusing : lease.RawLease :=
  lease.mkRawLease (inr (LeaseError "grant failed")) None (fun _ => false).

(** A lease service that grants lease 79, which lapses 120ms after
    instant 0. *)
Definition lapsing : lease.RawLease :=
  lease.mkRawLease (inl 79) None (fun t => t <? 120 * member.Millisecond).

(** A watch that reports a put and is then cancelled, on a watcher that
    fails to close. *)
Definition put : clientv3.WatchResponse :=
  clientv3.mkWatchResponse
    [mvccpb.mkEvent mvccpb.PUT (list_byte_of_string "/ceres/members/leader")]
    0 false.

Definition cancelled : clientv3.WatchResponse :=
  clientv3.mkWatchResponse [] 0 true.

Definition cancelled_watcher : Watcher :=
  mkWatcher [mkWatchChan [put; cancelled] false]
    (Some (ClientError "watcher already closed")).

(** A watcher whose first channel is closed after a put. *)
Definition closing_watcher : Watcher :=
  mkWatcher [mkWatchChan [put] true; mkWatchChan [deleted] false] None.

(** node-a and node-b campaign for the leader key of the fresh cluster,
    node-a first. *)
Definition race_a_b : list (member.Attempt (St := clientv3.Client)) :=
  [member.mkAttempt node_a context.Background alive 5 1 fresh;
   member.mkAttempt node_b context.Background stuck 5 1 fresh].

End example.

(** * Properties *)

Local Open Scope go_scope.

(** Boolean comparisons of the hypotheses as propositions, then [lia]. *)
Ltac bool_to_prop :=
  repeat match goal with
  | H : (_ <? _) = true |- _ => apply Z.ltb_lt in H
  | H : (_ <? _) = false |- _ => apply Z.ltb_ge in H
  | H : (_ <=? _) = true |- _ => apply Z.leb_le in H
  | H : (_ <=? _) = false |- _ => apply Z.leb_gt in H
  | H : (_ =? _) = true |- _ => apply Z.eqb_eq in H
  | H : (_ =? _) = false |- _ => apply Z.eqb_neq in H
  end.

Ltac blia := bool_to_prop; lia.

(** ** Bytes and bit arithmetic *)

Lemma byte_val_range (b : byte) : 0 <= byte_val b < 256.
Proof.
  unfold byte_val. pose proof (Byte.to_N_bounded b). lia.
Qed.

Lemma byte_val_of (v : Z) : byte_val (byte_of v) = v mod 256.
Proof.
  unfold byte_val, byte_of.
  pose proof (Z.mod_pos_bound v 256 ltac:(lia)) as Hr.
  destruct (Byte.of_N (Z.to_N (v mod 256))) as [b|] eqn:E.
  - apply Byte.to_of_N in E. rewrite E. lia.
  - apply Byte.of_N_None_iff in E. lia.
Qed.

Lemma byte_val_of_small (v : Z) : 0 <= v < 256 -> byte_val (byte_of v) = v.
Proof.
  intros Hv. rewrite byte_val_of. apply Z.mod_small. exact Hv.
Qed.

Lemma byte_val_inj (a b : byte) : byte_val a = byte_val b -> a = b.
Proof.
  unfold byte_val. intros H. apply N2Z.inj in H.
  pose proof (Byte.of_to_N a) as Ha. rewrite H, Byte.of_to_N in Ha.
  congruence.
Qed.

Lemma land_shiftl_low (a k t : Z) :
  0 <= k -> 0 <= t < 2 ^ k -> Z.land (Z.shiftl a k) t = 0.
Proof.
  intros Hk Ht. apply Z.bits_inj'. intros n Hn.
  rewrite Z.land_spec, Z.bits_0.
  destruct (Z_lt_le_dec n k).
  - rewrite Z.shiftl_spec_low by lia. reflexivity.
  - replace t with (t mod 2 ^ k) by (apply Z.mod_small; lia).
    rewrite Z.mod_pow2_bits_high by lia. apply andb_false_r.
Qed.

Lemma lor_shiftl_low (a k t : Z) :
  0 <= k -> 0 <= t < 2 ^ k -> Z.lor (Z.shiftl a k) t = a * 2 ^ k + t.
Proof.
  intros Hk Ht. rewrite <- Z.lxor_lor by (apply land_shiftl_low; assumption).
  rewrite <- Z.add_nocarry_lxor by (apply land_shiftl_low; assumption).
  rewrite Z.shiftl_mul_pow2 by assumption. reflexivity.
Qed.

Lemma land_127 (v : Z) : Z.land v 0x7f = v mod 128.
Proof. exact (Z.land_ones v 7 ltac:(lia)). Qed.

Lemma land_7 (v : Z) : Z.land v 7 = v mod 8.
Proof. exact (Z.land_ones v 3 ltac:(lia)). Qed.

(** The continuation byte of a varint: the low seven bits and the flag. *)
Lemma continuation_byte (v : Z) :
  Z.lor (Z.land v 0x7f) 0x80 = v mod 128 + 128.
Proof.
  rewrite land_127, Z.lor_comm.
  pose proof (Z.mod_pos_bound v 128 ltac:(lia)).
  change (Z.lor 128 (v mod 128)) with (Z.lor (Z.shiftl 1 7) (v mod 128)).
  rewrite lor_shiftl_low by (change (2 ^ 7) with 128; lia).
  change (2 ^ 7) with 128. lia.
Qed.

(** ** protowire: a varint is read back as it was written *)

Lemma varint_bytes_cons (n : nat) (v : Z) :
  exists y l, protowire.varint_bytes n v = y :: l.
Proof.
  destruct n; simpl; [eauto|]. destruct (v <? 128); eauto.
Qed.

Lemma consume_varint_bytes (n : nat) :
  forall v rest,
    0 <= v < 2 ^ (7 * Z.of_nat n + 1) ->
    protowire.consume_varint n (protowire.varint_bytes n v ++ rest) = Some (v, rest).
Proof.
  induction n as [|n IH]; intros v rest Hv.
  - simpl in *. rewrite byte_val_of_small by lia.
    destruct (v <=? 1) eqn:E; [reflexivity | lia].
  - cbn [protowire.varint_bytes].
    destruct (v <? 128) eqn:E.
    + simpl. rewrite byte_val_of_small by lia. rewrite E. reflexivity.
    + cbn [app protowire.consume_varint].
      pose proof (Z.mod_pos_bound v 128 ltac:(lia)) as Hm.
      rewrite continuation_byte, byte_val_of_small by lia.
      destruct (v mod 128 + 128 <? 128) eqn:E'; [lia|].
      assert (Hq : 0 <= Z.shiftr v 7 < 2 ^ (7 * Z.of_nat n + 1)).
      { rewrite Z.shiftr_div_pow2 by lia.
        replace (7 * Z.of_nat (S n) + 1) with (7 + (7 * Z.of_nat n + 1)) in Hv by lia.
        rewrite Z.pow_add_r in Hv by lia.
        split; [apply Z.div_pos; lia | apply Z.div_lt_upper_bound; lia]. }
      rewrite (IH _ rest Hq). f_equal. f_equal.
      rewrite land_127, Z.shiftl_mul_pow2, Z.shiftr_div_pow2 by lia.
      change (2 ^ 7) with 128.
      rewrite <- Z.add_mod_idemp_r, Z.mod_same, Z.add_0_r, Z.mod_mod by lia.
      pose proof (Z.div_mod v 128 ltac:(lia)). lia.
Qed.

Lemma ConsumeVarint_AppendVarint (v : Z) (rest : bytes) :
  0 <= v < 2 ^ 64 ->
  protowire.ConsumeVarint (protowire.varint_bytes 9 v ++ rest) = Some (v, rest).
Proof.
  intros Hv. apply consume_varint_bytes. exact Hv.
Qed.

(** A tag splits back into its field number and wire type. *)
Lemma EncodeTag_split (num typ : Z) :
  0 <= num -> 0 <= typ < 8 ->
  Z.shiftr (protowire.EncodeTag num typ) 3 = num
  /\ Z.land (protowire.EncodeTag num typ) 7 = typ.
Proof.
  intros Hn Ht. unfold protowire.EncodeTag.
  rewrite (land_7 typ), (Z.mod_small typ 8) by lia.
  rewrite lor_shiftl_low by (change (2 ^ 3) with 8; lia).
  rewrite land_7, Z.shiftr_div_pow2 by lia. change (2 ^ 3) with 8.
  split.
  - rewrite Z.div_add_l by lia. rewrite Z.div_small by lia. lia.
  - rewrite Z.add_comm, Z.mod_add by lia. apply Z.mod_small. lia.
Qed.


Lemma EncodeTag_range (num typ : Z) :
  0 <= num <= protowire.MaxValidNumber -> 0 <= typ < 8 ->
  0 <= protowire.EncodeTag num typ < 2 ^ 64.
Proof.
  intros Hn Ht. unfold protowire.EncodeTag, protowire.MaxValidNumber in *.
  rewrite (land_7 typ), (Z.mod_small typ 8) by lia.
  rewrite lor_shiftl_low by (change (2 ^ 3) with 8; lia).
  change (2 ^ 3) with 8. change (2 ^ 29) with 536870912 in Hn.
  change (2 ^ 64) with 18446744073709551616. lia.
Qed.

Lemma take_app (v rest : bytes) :
  protowire.take (Z.of_nat (List.length v)) (v ++ rest) = Some (v, rest).
Proof.
  unfold protowire.take. rewrite length_app, Nat2Z.id.
  destruct (Z.of_nat (List.length v + List.length rest) <? Z.of_nat (List.length v)) eqn:E;
    [blia|].
  rewrite firstn_app, skipn_app, Nat.sub_diag, firstn_all, skipn_all.
  simpl. rewrite app_nil_r. reflexivity.
Qed.

Lemma ConsumeBytes_AppendBytes (v rest : bytes) :
  Z.of_nat (List.length v) < 2 ^ 64 ->
  protowire.ConsumeBytes
    (protowire.varint_bytes 9 (Z.of_nat (List.length v)) ++ v ++ rest)
  = Some (v, rest).
Proof.
  intros Hl. unfold protowire.ConsumeBytes.
  rewrite ConsumeVarint_AppendVarint by (split; [lia | assumption]).
  apply take_app.
Qed.

#[global] Arguments protowire.varint_bytes : simpl never.
#[global] Arguments protowire.consume_varint : simpl never.

Lemma length_list_byte_of_string (s : string) :
  List.length (list_byte_of_string s) = String.length s.
Proof.
  unfold list_byte_of_string. rewrite length_map.
  induction s as [|c s IH]; [reflexivity|].
  cbn [list_ascii_of_string List.length String.length]. rewrite IH. reflexivity.
Qed.

(** ** proto: the record of a member is read back as it was written *)
Section Codec.

Variables nameNum idNum : Z.

Hypothesis nameNum_valid :
  protowire.MinValidNumber <= nameNum <= protowire.MaxValidNumber.
Hypothesis idNum_valid :
  protowire.MinValidNumber <= idNum <= protowire.MaxValidNumber.
Hypothesis nums_distinct : nameNum <> idNum.

Lemma unmarshal_fields_nil (fuel : nat) (m : metapb.Member) :
  proto.unmarshal_fields nameNum idNum fuel [] m = inl m.
Proof. destruct fuel; reflexivity. Qed.

(** The iteration that meets the name field. *)
Lemma unmarshal_name_field (fuel : nat) (v rest : bytes) (m0 : metapb.Member) :
  Z.of_nat (List.length v) < 2 ^ 64 ->
  utf8.Valid v = true ->
  proto.unmarshal_fields nameNum idNum (S fuel)
    (protowire.varint_bytes 9 (protowire.EncodeTag nameNum protowire.BytesType)
       ++ protowire.varint_bytes 9 (Z.of_nat (List.length v)) ++ v ++ rest) m0
  = proto.unmarshal_fields nameNum idNum fuel rest
      (metapb.mkMember (string_of_list_byte v) (metapb.Id m0)).
Proof.
  intros Hlen Hutf.
  unfold protowire.MinValidNumber in *.
  remember (protowire.varint_bytes 9 _ ++ _) as buf eqn:Hbuf.
  destruct buf as [|y l].
  { destruct (varint_bytes_cons 9 (protowire.EncodeTag nameNum protowire.BytesType))
      as (y & l & E). rewrite E in Hbuf. discriminate. }
  cbn [proto.unmarshal_fields]. rewrite Hbuf.
  rewrite ConsumeVarint_AppendVarint
    by (apply EncodeTag_range; unfold protowire.BytesType; lia).
  destruct (EncodeTag_split nameNum protowire.BytesType) as [Hnum Htyp];
    [lia | unfold protowire.BytesType; lia |].
  cbv zeta. rewrite Hnum, Htyp. unfold protowire.MinValidNumber.
  replace (nameNum <? 1) with false by (symmetry; apply Z.ltb_ge; lia).
  replace (protowire.MaxValidNumber <? nameNum) with false
    by (symmetry; apply Z.ltb_ge; lia).
  rewrite Z.eqb_refl. cbn [orb andb].
  change (protowire.BytesType =? protowire.EndGroupType) with false.
  change (protowire.BytesType =? protowire.BytesType) with true.
  cbv iota. rewrite ConsumeBytes_AppendBytes by exact Hlen.
  rewrite Hutf. reflexivity.
Qed.

(** The iteration that meets the id field. *)
Lemma unmarshal_id_field (fuel : nat) (v : Z) (rest : bytes) (m0 : metapb.Member) :
  0 <= v < 2 ^ 64 ->
  proto.unmarshal_fields nameNum idNum (S fuel)
    (protowire.varint_bytes 9 (protowire.EncodeTag idNum protowire.VarintType)
       ++ protowire.varint_bytes 9 v ++ rest) m0
  = proto.unmarshal_fields nameNum idNum fuel rest
      (metapb.mkMember (metapb.Name m0) v).
Proof.
  intros Hv.
  unfold protowire.MinValidNumber in *.
  remember (protowire.varint_bytes 9 _ ++ _) as buf eqn:Hbuf.
  destruct buf as [|y l].
  { destruct (varint_bytes_cons 9 (protowire.EncodeTag idNum protowire.VarintType))
      as (y & l & E). rewrite E in Hbuf. discriminate. }
  cbn [proto.unmarshal_fields]. rewrite Hbuf.
  rewrite ConsumeVarint_AppendVarint
    by (apply EncodeTag_range; unfold protowire.VarintType; lia).
  destruct (EncodeTag_split idNum protowire.VarintType) as [Hnum Htyp];
    [lia | unfold protowire.VarintType; lia |].
  cbv zeta. rewrite Hnum, Htyp. unfold protowire.MinValidNumber.
  replace (idNum <? 1) with false by (symmetry; apply Z.ltb_ge; lia).
  replace (protowire.MaxValidNumber <? idNum) with false
    by (symmetry; apply Z.ltb_ge; lia).
  replace (idNum =? nameNum) with false by (symmetry; apply Z.eqb_neq; lia).
  rewrite Z.eqb_refl. cbn [orb andb].
  change (protowire.VarintType =? protowire.EndGroupType) with false.
  change (protowire.VarintType =? protowire.VarintType) with true.
  cbv iota. rewrite ConsumeVarint_AppendVarint by exact Hv.
  reflexivity.
Qed.

Lemma varint_bytes_length (n : nat) (v : Z) :
  (1 <= List.length (protowire.varint_bytes n v))%nat.
Proof.
  destruct (varint_bytes_cons n v) as (y & l & E). rewrite E. simpl. lia.
Qed.

Lemma appendName_app (b : bytes) (m : metapb.Member) :
  proto.appendName nameNum b m
  = match proto.appendName nameNum [] m with
    | inl e => inl (b ++ e)
    | inr err => inr err
    end.
Proof.
  unfold proto.appendName, protowire.AppendString, protowire.AppendBytes,
    protowire.AppendVarint.
  destruct (String.length (metapb.Name m) =? 0)%nat.
  - rewrite app_nil_r. reflexivity.
  - destruct (utf8.ValidString (metapb.Name m)); [|reflexivity].
    cbn [app]. rewrite <- !app_assoc. reflexivity.
Qed.

Lemma appendId_app (b : bytes) (m : metapb.Member) :
  proto.appendId idNum b m
  = match proto.appendId idNum [] m with
    | inl e => inl (b ++ e)
    | inr err => inr err
    end.
Proof.
  unfold proto.appendId, protowire.AppendVarint.
  destruct (metapb.Id m =? 0).
  - rewrite app_nil_r. reflexivity.
  - cbn [app]. rewrite <- !app_assoc. reflexivity.
Qed.

(** Decoding what [appendName] wrote: nothing for an empty name, one
    iteration otherwise. *)
Lemma unmarshal_appendName (fuel : nat) (m m0 : metapb.Member) (e rest : bytes) :
  Z.of_nat (String.length (metapb.Name m)) < 2 ^ 64 ->
  proto.appendName nameNum [] m = inl e ->
  exists fuel',
    (fuel <= fuel')%nat /\
    proto.unmarshal_fields nameNum idNum (S fuel) (e ++ rest) m0
    = proto.unmarshal_fields nameNum idNum fuel' rest
        (metapb.mkMember
           (if (String.length (metapb.Name m) =? 0)%nat
            then metapb.Name m0 else metapb.Name m)
           (metapb.Id m0)).
Proof.
  intros Hlen. unfold proto.appendName, protowire.AppendString,
    protowire.AppendBytes, protowire.AppendVarint, utf8.ValidString.
  destruct (String.length (metapb.Name m) =? 0)%nat eqn:E.
  - intros [= <-]. exists (S fuel). split; [lia|]. destruct m0. reflexivity.
  - destruct (utf8.Valid (list_byte_of_string (metapb.Name m))) eqn:V; [|discriminate].
    intros [= <-]. exists fuel. split; [lia|].
    cbn [app]. rewrite <- !app_assoc.
    rewrite unmarshal_name_field.
    + rewrite string_of_list_byte_of_string. reflexivity.
    + rewrite length_list_byte_of_string. exact Hlen.
    + exact V.
Qed.

Lemma unmarshal_appendId (fuel : nat) (m m0 : metapb.Member) (e rest : bytes) :
  0 <= metapb.Id m < 2 ^ 64 ->
  proto.appendId idNum [] m = inl e ->
  exists fuel',
    (fuel <= fuel')%nat /\
    proto.unmarshal_fields nameNum idNum (S fuel) (e ++ rest) m0
    = proto.unmarshal_fields nameNum idNum fuel' rest
        (metapb.mkMember (metapb.Name m0)
           (if metapb.Id m =? 0 then metapb.Id m0 else metapb.Id m)).
Proof.
  intros Hid. unfold proto.appendId, protowire.AppendVarint.
  destruct (metapb.Id m =? 0) eqn:E.
  - intros [= <-]. exists (S fuel). split; [lia|]. destruct m0. reflexivity.
  - intros [= <-]. exists fuel. split; [lia|].
    cbn [app]. rewrite <- !app_assoc.
    rewrite unmarshal_id_field by exact Hid. reflexivity.
Qed.

Lemma appendName_length (m : metapb.Member) (e : bytes) :
  proto.appendName nameNum [] m = inl e -> e = [] \/ (2 <= List.length e)%nat.
Proof.
  unfold proto.appendName, protowire.AppendString, protowire.AppendBytes,
    protowire.AppendVarint.
  destruct (String.length (metapb.Name m) =? 0)%nat; [intros [= <-]; auto|].
  destruct (utf8.ValidString (metapb.Name m)); [|discriminate].
  intros [= <-]. right. cbn [app]. rewrite !length_app.
  pose proof (varint_bytes_length 9 (protowire.EncodeTag nameNum protowire.BytesType)).
  pose proof (varint_bytes_length 9
                (Z.of_nat (List.length (list_byte_of_string (metapb.Name m))))).
  lia.
Qed.

Lemma appendId_length (m : metapb.Member) (e : bytes) :
  proto.appendId idNum [] m = inl e -> e = [] \/ (2 <= List.length e)%nat.
Proof.
  unfold proto.appendId, protowire.AppendVarint.
  destruct (metapb.Id m =? 0); [intros [= <-]; auto|].
  intros [= <-]. right. cbn [app]. rewrite !length_app.
  pose proof (varint_bytes_length 9 (protowire.EncodeTag idNum protowire.VarintType)).
  pose proof (varint_bytes_length 9 (metapb.Id m)).
  lia.
Qed.

(** A member whose fields are Go values: a [uint64] id and a name no
    longer than a Go string can be. *)
Lemma decoded_fields (m : metapb.Member) :
  metapb.mkMember
    (if (String.length (metapb.Name m) =? 0)%nat then EmptyString else metapb.Name m)
    (if metapb.Id m =? 0 then 0 else metapb.Id m) = m.
Proof.
  destruct m as [name id]. simpl. f_equal.
  - destruct name; reflexivity.
  - destruct (id =? 0) eqn:E; [blia | reflexivity].
Qed.

Lemma unmarshal_two_fields (fuel : nat) (m : metapb.Member) (e1 e2 : bytes) :
  0 <= metapb.Id m < 2 ^ 64 ->
  Z.of_nat (String.length (metapb.Name m)) < 2 ^ 64 ->
  (proto.appendName nameNum [] m = inl e1 /\ proto.appendId idNum [] m = inl e2)
  \/ (proto.appendId idNum [] m = inl e1 /\ proto.appendName nameNum [] m = inl e2) ->
  proto.unmarshal_fields nameNum idNum (S (S fuel)) (e1 ++ e2)
    (metapb.mkMember EmptyString 0) = inl m.
Proof.
  intros Hid Hlen [[E1 E2]|[E1 E2]].
  - destruct (unmarshal_appendName (S fuel) m (metapb.mkMember EmptyString 0)
                e1 e2 Hlen E1) as (f1 & Hf1 & ->).
    destruct f1 as [|f1]; [lia|].
    cbn [metapb.Name metapb.Id]. rewrite <- (app_nil_r e2).
    destruct (unmarshal_appendId f1 m
                (metapb.mkMember
                   (if (String.length (metapb.Name m) =? 0)%nat
                    then EmptyString else metapb.Name m) 0)
                e2 [] Hid E2) as (f2 & Hf2 & ->).
    rewrite unmarshal_fields_nil. cbn [metapb.Name metapb.Id].
    rewrite decoded_fields. reflexivity.
  - destruct (unmarshal_appendId (S fuel) m (metapb.mkMember EmptyString 0)
                e1 e2 Hid E1) as (f1 & Hf1 & ->).
    destruct f1 as [|f1]; [lia|].
    cbn [metapb.Name metapb.Id]. rewrite <- (app_nil_r e2).
    destruct (unmarshal_appendName f1 m
                (metapb.mkMember EmptyString
                   (if metapb.Id m =? 0 then 0 else metapb.Id m))
                e2 [] Hlen E2) as (f2 & Hf2 & ->).
    rewrite unmarshal_fields_nil. cbn [metapb.Name metapb.Id].
    rewrite decoded_fields. reflexivity.
Qed.

(** [proto.Unmarshal] inverts [proto.Marshal]. *)
Lemma Unmarshal_Marshal (m : metapb.Member) (b : bytes) :
  0 <= metapb.Id m < 2 ^ 64 ->
  Z.of_nat (String.length (metapb.Name m)) < 2 ^ 64 ->
  proto.Marshal nameNum idNum m = inl b ->
  proto.Unmarshal nameNum idNum b = inl m.
Proof.
  intros Hid Hlen. unfold proto.Marshal, proto.Unmarshal.
  assert (Hgo : forall e1 e2,
    (proto.appendName nameNum [] m = inl e1 /\ proto.appendId idNum [] m = inl e2)
    \/ (proto.appendId idNum [] m = inl e1 /\ proto.appendName nameNum [] m = inl e2) ->
    (e1 = [] \/ (2 <= List.length e1)%nat) ->
    (e2 = [] \/ (2 <= List.length e2)%nat) ->
    proto.unmarshal_fields nameNum idNum (List.length (e1 ++ e2)) (e1 ++ e2)
      (metapb.mkMember EmptyString 0) = inl m).
  { intros e1 e2 HE L1 L2.
    pose proof (unmarshal_two_fields 0 m e1 e2 Hid Hlen HE) as H2.
    destruct (List.length (e1 ++ e2)) as [|[|n]] eqn:EL.
    - apply length_zero_iff_nil in EL. rewrite EL in *.
      rewrite unmarshal_fields_nil in *. exact H2.
    - rewrite length_app in EL.
      destruct L1 as [->|L1], L2 as [->|L2]; cbn [List.length Nat.add] in EL; try lia.
    - apply unmarshal_two_fields; assumption. }
  destruct (nameNum <? idNum); cbv beta iota.
  - destruct (proto.appendName nameNum [] m) as [e1|] eqn:E1; [|discriminate].
    rewrite appendId_app.
    destruct (proto.appendId idNum [] m) as [e2|] eqn:E2; [|discriminate].
    intros [= <-]. apply Hgo; [left; auto | |].
    + eapply appendName_length; eassumption.
    + eapply appendId_length; eassumption.
  - destruct (proto.appendId idNum [] m) as [e1|] eqn:E1; [|discriminate].
    rewrite appendName_app.
    destruct (proto.appendName nameNum [] m) as [e2|] eqn:E2; [|discriminate].
    intros [= <-]. apply Hgo; [right; auto | |].
    + eapply appendId_length; eassumption.
    + eapply appendName_length; eassumption.
Qed.

(** [proto.Marshal] fails on a name that is not UTF-8, and only then. *)
Lemma Marshal_total (m : metapb.Member) :
  (exists b, proto.Marshal nameNum idNum m = inl b)
  <-> (metapb.Name m = EmptyString \/ utf8.ValidString (metapb.Name m) = true).
Proof.
  unfold proto.Marshal.
  assert (HI : exists e, proto.appendId idNum [] m = inl e).
  { unfold proto.appendId. destruct (metapb.Id m =? 0); eauto. }
  destruct HI as (eI & HI).
  assert (HN : (exists e, proto.appendName nameNum [] m = inl e)
               <-> (metapb.Name m = EmptyString
                    \/ utf8.ValidString (metapb.Name m) = true)).
  { unfold proto.appendName.
    destruct (metapb.Name m) as [|c s] eqn:En; cbn [String.length Nat.eqb].
    - split; eauto.
    - destruct (utf8.ValidString (String c s)); split; eauto.
      + intros (e & He). discriminate.
      + intros [H|H]; discriminate. }
  rewrite <- HN. destruct (nameNum <? idNum); cbv beta iota.
  - destruct (proto.appendName nameNum [] m) as [e|err].
    + rewrite appendId_app, HI. split; eauto.
    + split; intros (b & Hb); discriminate.
  - rewrite HI, appendName_app.
    destruct (proto.appendName nameNum [] m) as [e|err].
    + split; eauto.
    + split; intros (b & Hb); discriminate.
Qed.

End Codec.

(** The record of [{id: 7, name: "node-a"}], with the name as field 1 and
    the id as field 2, and its reading. *)
Example marshal_7_node_a :
  proto.Marshal 1 2 (metapb.mkMember "node-a" 7)
  = inl [x0a; x06; x6e; x6f; x64; x65; x2d; x61; x10; x07].
Proof. reflexivity. Qed.

Example unmarshal_7_node_a :
  proto.Unmarshal 1 2 [x0a; x06; x6e; x6f; x64; x65; x2d; x61; x10; x07]
  = inl (metapb.mkMember "node-a" 7).
Proof. reflexivity. Qed.

(** A record cut short does not deserialize; a name that is not UTF-8 does
    not serialize. *)
Example unmarshal_truncated :
  proto.Unmarshal 1 2 [x0a; x06; x6e; x6f] = inr ProtoDecode.
Proof. reflexivity. Qed.

Example marshal_invalid_utf8 :
  proto.Marshal 1 2 (metapb.mkMember (string_of_list_byte [xff]) 7)
  = inr ProtoInvalidUTF8.
Proof. reflexivity. Qed.

(** ** The member manager: reads and resets of the leader key *)

(** Unfolds the monad of the world. *)
Ltac run_world :=
  unfold log, bind, ret, clock, record, block, wait_until, tick_first,
    member.on_kv;
  cbn [fst snd now waits tickFirst kv calls].

Section Manager.

Context {St : Type} {clusterKV : ClusterKV St}.

Variables nameNum idNum : Z.

(** [GetLeader] as a function of the store's reply to its one read. *)
Lemma GetLeader_result (m : member.Member) (ctx : context.Context) (w : World St) :
  fst (member.GetLeader nameNum idNum m ctx w)
  = match fst (kvGet (context.WithTimeout ctx (member.rpcTimeout m) (now w))
                 (member.leaderKey m) (now (snd (block w))) (kv w)) with
    | inr err => inr (WithCause ErrGetLeader err)
    | inl resp =>
      match clientv3.Kvs resp with
      | _ :: _ :: _ => inr ErrMultipleLeader
      | [] => inl (member.mkGetLeaderResp None 0)
      | [leaderKv] =>
        match proto.Unmarshal nameNum idNum (mvccpb.Value leaderKv) with
        | inr err => inr (WithCause ErrInvalidLeaderValue err)
        | inl leader =>
          inl (member.mkGetLeaderResp (Some leader) (mvccpb.ModRevision leaderKv))
        end
      end
    end.
Proof.
  unfold member.GetLeader, member.clusterKV_Get. run_world.
  destruct (waits w); cbn [fst snd now waits tickFirst kv calls];
    destruct (kvGet _ _ _ (kv w)) as [[resp|err] s']; cbn [fst snd];
    try reflexivity;
    destruct (clientv3.Kvs resp) as [|leaderKv [|kv2 more]]; try reflexivity;
    destruct (proto.Unmarshal nameNum idNum (mvccpb.Value leaderKv));
    reflexivity.
Qed.

(** [GetLeader] makes one call: the read of the leader key. *)
Lemma GetLeader_calls (m : member.Member) (ctx : context.Context) (w : World St) :
  calls (snd (member.GetLeader nameNum idNum m ctx w))
  = calls w ++ [CallKVGet (member.leaderKey m)].
Proof.
  unfold member.GetLeader, member.clusterKV_Get. run_world.
  destruct (waits w); cbn [fst snd now waits tickFirst kv calls];
    destruct (kvGet _ _ _ (kv w)) as [[resp|err] s']; cbn [fst snd];
    try reflexivity;
    destruct (clientv3.Kvs resp) as [|leaderKv [|kv2 more]]; try reflexivity;
    destruct (proto.Unmarshal nameNum idNum (mvccpb.Value leaderKv));
    reflexivity.
Qed.

(** C4. On the success path of [GetLeader]: a read that yields no
    key-value pair gives the empty result (no leader, revision zero) and no
    error; a read that yields exactly one pair whose value deserializes
    gives that member with the pair's [ModRevision], and no error. *)
Theorem C4_GetLeader_success (m : member.Member) (ctx : context.Context)
    (w : World St) (resp : clientv3.GetResponse) :
  fst (kvGet (context.WithTimeout ctx (member.rpcTimeout m) (now w))
         (member.leaderKey m) (now (snd (block w))) (kv w)) = inl resp ->
  (clientv3.Kvs resp = [] ->
   fst (member.GetLeader nameNum idNum m ctx w)
   = inl (member.mkGetLeaderResp None 0))
  /\ (forall leaderKv leader,
        clientv3.Kvs resp = [leaderKv] ->
        proto.Unmarshal nameNum idNum (mvccpb.Value leaderKv) = inl leader ->
        fst (member.GetLeader nameNum idNum m ctx w)
        = inl (member.mkGetLeaderResp (Some leader)
                 (mvccpb.ModRevision leaderKv))).
Proof.
  intros Hreply. rewrite GetLeader_result, Hreply. split.
  - intros ->. reflexivity.
  - intros leaderKv leader -> ->. reflexivity.
Qed.

(** C5. [GetLeader] fails exactly when the store read errors
    ([GetLeaderFailed] wrapping the cause), when the read yields more than
    one pair ([MultipleLeaders]), or when the single stored value does not
    deserialize ([InvalidLeaderValue] wrapping the cause). *)
Theorem C5_GetLeader_failures (m : member.Member) (ctx : context.Context)
    (w : World St) (e : error) :
  fst (member.GetLeader nameNum idNum m ctx w) = inr e
  <-> (exists cause,
         fst (kvGet (context.WithTimeout ctx (member.rpcTimeout m) (now w))
                (member.leaderKey m) (now (snd (block w))) (kv w)) = inr cause
         /\ e = Caused GetLeaderFailed cause)
      \/ (exists resp,
            fst (kvGet (context.WithTimeout ctx (member.rpcTimeout m) (now w))
                   (member.leaderKey m) (now (snd (block w))) (kv w)) = inl resp
            /\ (1 < List.length (clientv3.Kvs resp))%nat
            /\ e = Coded MultipleLeaders)
      \/ (exists resp leaderKv cause,
            fst (kvGet (context.WithTimeout ctx (member.rpcTimeout m) (now w))
                   (member.leaderKey m) (now (snd (block w))) (kv w)) = inl resp
            /\ clientv3.Kvs resp = [leaderKv]
            /\ proto.Unmarshal nameNum idNum (mvccpb.Value leaderKv) = inr cause
            /\ e = Caused InvalidLeaderValue cause).
Proof.
  rewrite GetLeader_result.
  destruct (fst (kvGet _ _ _ (kv w))) as [resp|err].
  - destruct (clientv3.Kvs resp) as [|leaderKv [|kv2 more]] eqn:EK.
    + split; [discriminate|].
      intros [(c & H & _)|[(r & H & Hl & _)|(r & k & c & H & Hk & _)]].
      * discriminate.
      * injection H as <-. rewrite EK in Hl. simpl in Hl. lia.
      * injection H as <-. rewrite EK in Hk. discriminate.
    + destruct (proto.Unmarshal nameNum idNum (mvccpb.Value leaderKv))
        as [leader|cause] eqn:EU.
      * split; [discriminate|].
        intros [(c & H & _)|[(r & H & Hl & _)|(r & k & c & H & Hk & Hu & _)]].
        -- discriminate.
        -- injection H as <-. rewrite EK in Hl. simpl in Hl. lia.
        -- injection H as <-. rewrite EK in Hk. injection Hk as <-.
           rewrite EU in Hu. discriminate.
      * split.
        -- intros [= <-]. right. right. exists resp, leaderKv, cause. auto.
        -- intros [(c & H & _)|[(r & H & Hl & _)|(r & k & c & H & Hk & Hu & ->)]].
           ++ discriminate.
           ++ injection H as <-. rewrite EK in Hl. simpl in Hl. lia.
           ++ injection H as <-. rewrite EK in Hk. injection Hk as <-.
              rewrite EU in Hu. injection Hu as <-. reflexivity.
    + split.
      * intros [= <-]. right. left. exists resp.
        split; [reflexivity|]. split; [|reflexivity].
        rewrite EK. cbn [List.length]. lia.
      * intros [(c & H & _)|[(r & H & Hl & ->)|(r & k & c & H & Hk & _)]].
        -- discriminate.
        -- reflexivity.
        -- injection H as <-. rewrite EK in Hk. discriminate.
  - split.
    + intros [= <-]. left. exists err. auto.
    + intros [(c & H & ->)|[(r & H & _)|(r & k & c & H & _)]].
      * injection H as <-. reflexivity.
      * discriminate.
      * discriminate.
Qed.

(** [ResetLeader] as a function of the store's reply to its one delete. *)
Lemma ResetLeader_result (m : member.Member) (ctx : context.Context) (w : World St) :
  fst (member.ResetLeader m ctx w)
  = match fst (kvDelete (context.WithTimeout ctx (member.rpcTimeout m) (now w))
                 (member.leaderKey m) (now (snd (block w))) (kv w)) with
    | inr err => Some (WithCause ErrResetLeader err)
    | inl _ => None
    end.
Proof.
  unfold member.ResetLeader, member.clusterKV_Delete. run_world.
  destruct (waits w); cbn [fst snd now waits tickFirst kv calls];
    destruct (kvDelete _ _ _ (kv w)) as [[resp|err] s']; reflexivity.
Qed.

Lemma ResetLeader_calls (m : member.Member) (ctx : context.Context) (w : World St) :
  calls (snd (member.ResetLeader m ctx w))
  = calls w ++ [CallKVDelete (member.leaderKey m)].
Proof.
  unfold member.ResetLeader, member.clusterKV_Delete. run_world.
  destruct (waits w); cbn [fst snd now waits tickFirst kv calls];
    destruct (kvDelete _ _ _ (kv w)) as [[resp|err] s']; reflexivity.
Qed.

(** The store after [ResetLeader] is the one its delete left. *)
Lemma ResetLeader_store (m : member.Member) (ctx : context.Context) (w : World St) :
  kv (snd (member.ResetLeader m ctx w))
  = snd (kvDelete (context.WithTimeout ctx (member.rpcTimeout m) (now w))
           (member.leaderKey m) (now (snd (block w))) (kv w)).
Proof.
  unfold member.ResetLeader, member.clusterKV_Delete. run_world.
  destruct (waits w); cbn [fst snd now waits tickFirst kv calls];
    destruct (kvDelete _ _ _ (kv w)) as [[resp|err] s']; reflexivity.
Qed.

End Manager.
(** ** The member record through the manager *)

Section ManagerCodec.

Context {St : Type} {clusterKV : ClusterKV St}.

Variables nameNum idNum : Z.

Hypothesis nameNum_valid :
  protowire.MinValidNumber <= nameNum <= protowire.MaxValidNumber.
Hypothesis idNum_valid :
  protowire.MinValidNumber <= idNum <= protowire.MaxValidNumber.
Hypothesis nums_distinct : nameNum <> idNum.

(** C9. A member identity whose name is valid UTF-8 serializes; whatever
    [Marshal] returns deserializes, as [GetLeader] does it, to a member of
    the same id and name; and there is a byte sequence on which the
    deserialization fails, so that [GetLeader] reports [InvalidLeaderValue]. *)
Theorem C9_Marshal_round_trip (m : member.Member) :
  0 <= member.ID m < 2 ^ 64 ->
  Z.of_nat (String.length (member.Name m)) < 2 ^ 63 ->
  (utf8.ValidString (member.Name m) = true ->
   exists leaderVal, member.Marshal nameNum idNum m = inl leaderVal)
  /\ (forall leaderVal,
        member.Marshal nameNum idNum m = inl leaderVal ->
        proto.Unmarshal nameNum idNum (list_byte_of_string leaderVal)
        = inl (metapb.mkMember (member.Name m) (member.ID m))
        /\ forall (reader : member.Member) (ctx : context.Context) (w : World St)
                  (resp : clientv3.GetResponse) (leaderKv : mvccpb.KeyValue),
            fst (kvGet (context.WithTimeout ctx (member.rpcTimeout reader) (now w))
                   (member.leaderKey reader) (now (snd (block w))) (kv w)) = inl resp ->
            clientv3.Kvs resp = [leaderKv] ->
            mvccpb.Value leaderKv = list_byte_of_string leaderVal ->
            fst (member.GetLeader nameNum idNum reader ctx w)
            = inl (member.mkGetLeaderResp
                     (Some (metapb.mkMember (member.Name m) (member.ID m)))
                     (mvccpb.ModRevision leaderKv)))
  /\ (exists corrupted : bytes,
        forall (reader : member.Member) (ctx : context.Context) (w : World St)
               (resp : clientv3.GetResponse) (leaderKv : mvccpb.KeyValue),
          fst (kvGet (context.WithTimeout ctx (member.rpcTimeout reader) (now w))
                 (member.leaderKey reader) (now (snd (block w))) (kv w)) = inl resp ->
          clientv3.Kvs resp = [leaderKv] ->
          mvccpb.Value leaderKv = corrupted ->
          exists cause,
            fst (member.GetLeader nameNum idNum reader ctx w)
            = inr (Caused InvalidLeaderValue cause)).
Proof.
  intros Hid Hlen.
  assert (Hlen64 : Z.of_nat (String.length (member.Name m)) < 2 ^ 64).
  { eapply Z.lt_trans; [exact Hlen | reflexivity]. }
  assert (Hrt : forall leaderVal,
    member.Marshal nameNum idNum m = inl leaderVal ->
    proto.Unmarshal nameNum idNum (list_byte_of_string leaderVal)
    = inl (metapb.mkMember (member.Name m) (member.ID m))).
  { intros leaderVal. unfold member.Marshal.
    destruct (proto.Marshal nameNum idNum
                (metapb.mkMember (member.Name m) (member.ID m))) as [bs|err] eqn:EM;
      [|discriminate].
    intros [= <-]. rewrite list_byte_of_string_of_list_byte.
    apply (Unmarshal_Marshal nameNum idNum nameNum_valid idNum_valid nums_distinct
             (metapb.mkMember (member.Name m) (member.ID m)) bs Hid Hlen64 EM). }
  split; [|split].
  - intros Hutf. unfold member.Marshal.
    destruct (proj2 (Marshal_total nameNum idNum
                       (metapb.mkMember (member.Name m) (member.ID m)))
                (or_intror Hutf)) as (b & ->).
    eauto.
  - intros leaderVal HM. split; [apply Hrt; exact HM|].
    intros reader ctx w resp leaderKv Hreply Hk Hv.
    rewrite GetLeader_result, Hreply, Hk, Hv, (Hrt _ HM). reflexivity.
  - exists [x80]. intros reader ctx w resp leaderKv Hreply Hk Hv.
    rewrite GetLeader_result, Hreply, Hk, Hv. exists ProtoDecode. reflexivity.
Qed.

End ManagerCodec.

(** ** The campaign *)

Section Campaign.

Context {St : Type} {clusterKV : ClusterKV St}.

Variables nameNum idNum : Z.

(** A [select] moves the clock and nothing else. *)
Lemma select_frame (ctx : context.Context) (nextTick : Z) (w : World St) :
  calls (snd (member.select ctx nextTick w)) = calls w
  /\ kv (snd (member.select ctx nextTick w)) = kv w
  /\ now w <= now (snd (member.select ctx nextTick w)).
Proof.
  unfold member.select. run_world.
  destruct (context.doneAt ctx) as [d|]; [destruct (d <? nextTick)|];
    [ | destruct (nextTick <? d) | ];
    cbn [fst snd now waits tickFirst kv calls]; repeat split; try lia;
    destruct (tickFirst w nextTick);
    cbn [fst snd now waits tickFirst kv calls]; lia.
Qed.

(** The context's case is taken only once the context is done: strictly
    before the tick, or at the tick's instant if the scheduler says so. *)
Lemma select_done (ctx : context.Context) (nextTick : Z) (w : World St) :
  fst (member.select ctx nextTick w) = member.CtxDone
  <-> exists d, context.doneAt ctx = Some d
                /\ (d < nextTick \/ (d = nextTick /\ tickFirst w nextTick = false)).
Proof.
  unfold member.select. run_world.
  destruct (context.doneAt ctx) as [d|].
  - destruct (d <? nextTick) eqn:E1; cbn [fst].
    + split; [|reflexivity]. intros _. exists d. split; [reflexivity|]. left. blia.
    + destruct (nextTick <? d) eqn:E2; cbn [fst].
      * split; [discriminate|]. intros (d' & [= <-] & [H|[H _]]); blia.
      * destruct (tickFirst w nextTick) eqn:E3; cbn [fst].
        -- split; [discriminate|].
           intros (d' & [= <-] & [H|[_ H]]); [blia | discriminate].
        -- split; [|reflexivity]. intros _. exists d. split; [reflexivity|].
           right. split; [blia | reflexivity].
  - cbn [fst]. split; [discriminate|]. intros (d & H & _). discriminate.
Qed.

(** A tick is handled at its instant. *)
Lemma select_tick_now (ctx : context.Context) (nextTick : Z) (w : World St) :
  fst (member.select ctx nextTick w) = member.TickerC ->
  now (snd (member.select ctx nextTick w)) = Z.max (now w) nextTick.
Proof.
  unfold member.select. run_world.
  destruct (context.doneAt ctx) as [d|]; [|reflexivity].
  destruct (d <? nextTick); cbn [fst snd now]; [discriminate|].
  destruct (nextTick <? d); cbn [fst snd now]; [reflexivity|].
  destruct (tickFirst w nextTick); cbn [fst snd now]; [reflexivity|discriminate].
Qed.

(** One round of the monitoring loop. *)
Lemma keep_leader_S (fuel : nat) (m : member.Member) (l : lease.lease)
    (ctx : context.Context) (nextTick : Z) (w : World St) :
  member.keep_leader (S fuel) m l ctx nextTick w
  = match fst (member.select ctx nextTick w) with
    | member.TickerC =>
      let w1 := snd (member.select ctx nextTick w) in
      if negb (lease.aliveAt (lease.rawLease l) (now w1)) then
        (Returned None,
         snd (log Info "no longer a leader because lease has expired" w1))
      else if negb (member.etcdLeaderGetter m (now w1) =? member.ID m) then
        (Returned None,
         snd (log Info "etcd leader changed and should re-assign the leadership" w1))
      else
        member.keep_leader fuel m l ctx (nextTick + member.leaderCheckInterval) w1
    | member.CtxDone =>
      (Returned None,
       snd (log Info "server is closed" (snd (member.select ctx nextTick w))))
    end.
Proof.
  cbn [member.keep_leader]. unfold bind.
  destruct (member.select ctx nextTick w) as [[|] w1]; cbn [fst snd]; [|reflexivity].
  unfold lease.IsLeader, clock, ret, log, record. cbn [fst snd].
  destruct (lease.aliveAt (lease.rawLease l) (now w1)); cbn [negb]; [|reflexivity].
  destruct (member.etcdLeaderGetter m (now w1) =? member.ID m); reflexivity.
Qed.

(** Whatever the monitoring loop does, its calls are the log line of its
    exit, the key space is untouched, and if it returns it returns nil. *)
Lemma keep_leader_calls (fuel : nat) (m : member.Member) (l : lease.lease)
    (ctx : context.Context) :
  forall (nextTick : Z) (w : World St),
    (exists logs,
       calls (snd (member.keep_leader fuel m l ctx nextTick w)) = calls w ++ logs
       /\ Forall (fun c => exists msg, c = CallLog Info msg) logs)
    /\ kv (snd (member.keep_leader fuel m l ctx nextTick w)) = kv w
    /\ (fst (member.keep_leader fuel m l ctx nextTick w) = Blocked
        \/ fst (member.keep_leader fuel m l ctx nextTick w) = Returned None).
Proof.
  induction fuel as [|fuel IH]; intros nextTick w.
  - cbn. split; [exists []; rewrite app_nil_r; auto | auto].
  - rewrite keep_leader_S.
    destruct (select_frame ctx nextTick w) as (Hc & Hk & _).
    assert (Hlog : forall msg,
      (exists logs,
         calls (snd (log Info msg (snd (member.select ctx nextTick w))))
         = calls w ++ logs
         /\ Forall (fun c => exists msg, c = CallLog Info msg) logs)
      /\ kv (snd (log Info msg (snd (member.select ctx nextTick w)))) = kv w).
    { intros msg. unfold log, record. cbn [snd calls kv]. rewrite Hc, Hk.
      split; [|reflexivity]. exists [CallLog Info msg].
      split; [reflexivity|]. constructor; [eauto | constructor]. }
    destruct (fst (member.select ctx nextTick w)).
    + cbv zeta.
      destruct (lease.aliveAt _ _); cbn [negb fst snd];
        [|destruct (Hlog "no longer a leader because lease has expired"%string);
          auto].
      destruct (_ =? _); cbn [negb fst snd];
        [|destruct (Hlog
             "etcd leader changed and should re-assign the leadership"%string);
          auto].
      rewrite <- Hc, <- Hk. apply IH.
    + cbn [fst snd]. destruct (Hlog "server is closed"%string). auto.
Qed.

(** The loop runs on a context with a deadline: it is over by the first
    tick that comes after it. *)
Lemma keep_leader_returns (m : member.Member) (l : lease.lease)
    (ctx : context.Context) (d : Z) :
  context.doneAt ctx = Some d ->
  forall (fuel : nat) (nextTick : Z) (w : World St),
    d < nextTick + Z.of_nat fuel * member.leaderCheckInterval ->
    fst (member.keep_leader (S fuel) m l ctx nextTick w) = Returned None.
Proof.
  intros Hd. induction fuel as [|fuel IH]; intros nextTick w Hlt.
  - rewrite keep_leader_S.
    destruct (fst (member.select ctx nextTick w)) eqn:E; [|reflexivity].
    assert (Hn : fst (member.select ctx nextTick w) <> member.CtxDone)
      by (rewrite E; discriminate).
    exfalso. apply Hn. apply select_done. exists d. split; [exact Hd|]. lia.
  - rewrite keep_leader_S.
    destruct (fst (member.select ctx nextTick w)) eqn:E; [|reflexivity].
    cbv zeta.
    destruct (lease.aliveAt _ _); cbn [negb]; [|reflexivity].
    destruct (_ =? _); cbn [negb]; [|reflexivity].
    apply IH. unfold member.leaderCheckInterval in *. lia.
Qed.

(** Unfolds a campaign up to the reply of its transaction. *)
Ltac campaign_unfold HM Hg :=
  unfold member.CampaignAndKeepLeader, member.campaign_txn_reply,
    member.campaign_txn_at, member.campaign_ctx in *;
  rewrite HM in *;
  unfold lease.Grant, lease.newLease, member.clusterKV_Txn_Commit, lease.Close,
    lease.KeepAlive in *;
  run_world; cbn [lease.rawLease lease.ttlSec lease.ID] in *;
  rewrite Hg in *.

(** The calls of a campaign whose transaction failed, or did not
    succeed: the lease is closed after the transaction. *)
Lemma Campaign_lost_calls (fuel : nat) (m : member.Member)
    (ctx : context.Context) (rawLease : lease.RawLease) (leaseTTLSec : Z)
    (w : World St) (leaderVal : string) (id : Z) :
  member.Marshal nameNum idNum m = inl leaderVal ->
  lease.grantReply rawLease = inl id ->
  clientv3.succeeded
    (member.campaign_txn_reply m ctx rawLease leaseTTLSec leaderVal id w) = false ->
  calls (snd (member.CampaignAndKeepLeader nameNum idNum fuel m ctx rawLease
                leaseTTLSec w))
  = calls w
    ++ [CallLeaseGrant leaseTTLSec;
        CallKVTxn
          [clientv3.Compare (clientv3.CreateRevision (member.leaderKey m)) "=" 0]
          [clientv3.OpPut (member.leaderKey m) leaderVal [clientv3.WithLease id]];
        CallLeaseClose id]
    ++ match lease.closeReply rawLease with
       | Some _ => [CallLog Error "close lease failed after txn put leader"]
       | None => []
       end.
Proof.
  intros HM Hg.
  campaign_unfold HM Hg.
  destruct (waits w) as [|d1 [|d2 [|d3 ws]]];
    cbn [fst snd now waits tickFirst kv calls] in *;
    destruct (kvCommit _ _ _ _ (kv w)) as [[resp|err] s'];
    cbn [fst snd now waits tickFirst kv calls clientv3.succeeded] in *.
  all: intros Hs; try rewrite Hs; cbn [negb lease.rawLease lease.ttlSec lease.ID].
  all: destruct (lease.closeReply rawLease);
    cbn [fst snd now waits tickFirst kv calls];
    rewrite <- ?app_assoc; reflexivity.
Qed.

(** C3. When the campaign's transaction returns an error, or commits with
    [Succeeded = false], the lease just granted is closed before the call
    returns, the call returns [TxnPutLeaderFailed] wrapping the cause, and a
    failure of the close is logged without replacing that error. *)
Theorem C3_lost_campaign_closes_lease (fuel : nat) (m : member.Member)
    (ctx : context.Context) (rawLease : lease.RawLease) (leaseTTLSec : Z)
    (w : World St) (leaderVal : string) (id : Z) :
  member.Marshal nameNum idNum m = inl leaderVal ->
  lease.grantReply rawLease = inl id ->
  clientv3.succeeded
    (member.campaign_txn_reply m ctx rawLease leaseTTLSec leaderVal id w) = false ->
  fst (member.CampaignAndKeepLeader nameNum idNum fuel m ctx rawLease leaseTTLSec w)
  = Returned
      (Some (Caused TxnPutLeaderFailed
               match member.campaign_txn_reply m ctx rawLease leaseTTLSec
                       leaderVal id w with
               | inr err => err
               | inl _ => Formatted "txn put leader failed, resp:%v"
               end))
  /\ calls (snd (member.CampaignAndKeepLeader nameNum idNum fuel m ctx rawLease
                   leaseTTLSec w))
     = calls w
       ++ [CallLeaseGrant leaseTTLSec;
           CallKVTxn
             [clientv3.Compare (clientv3.CreateRevision (member.leaderKey m)) "=" 0]
             [clientv3.OpPut (member.leaderKey m) leaderVal [clientv3.WithLease id]];
           CallLeaseClose id]
       ++ match lease.closeReply rawLease with
          | Some _ => [CallLog Error "close lease failed after txn put leader"]
          | None => []
          end.
Proof.
  intros HM Hg Hlost.
  split; [|exact (Campaign_lost_calls fuel m ctx rawLease leaseTTLSec w leaderVal
                    id HM Hg Hlost)].
  revert Hlost. campaign_unfold HM Hg.
  destruct (waits w) as [|d1 [|d2 [|d3 ws]]];
    cbn [fst snd now waits tickFirst kv calls] in *;
    destruct (kvCommit _ _ _ _ (kv w)) as [[resp|err] s'];
    cbn [fst snd now waits tickFirst kv calls clientv3.succeeded] in *.
  all: intros Hs; try rewrite Hs; cbn [negb lease.rawLease lease.ttlSec lease.ID].
  (* the close's outcome only decides whether a line is logged *)
  all: destruct (lease.closeReply rawLease); reflexivity.
Qed.

(** The context of the transaction has a deadline, whatever the caller's
    context is. *)
Lemma campaign_ctx_deadline (m : member.Member) (ctx : context.Context)
    (rawLease : lease.RawLease) (leaseTTLSec : Z) (w : World St) :
  exists d, context.doneAt (member.campaign_ctx m ctx rawLease leaseTTLSec w) = Some d.
Proof.
  unfold member.campaign_ctx, context.WithTimeout.
  destruct (context.doneAt ctx); cbn [context.doneAt]; eauto.
Qed.

(** A campaign whose transaction succeeded goes on as the monitoring loop,
    under the context of the transaction. *)
Lemma Campaign_won (m : member.Member)
    (ctx : context.Context) (rawLease : lease.RawLease) (leaseTTLSec : Z)
    (w : World St) (leaderVal : string) (id : Z) :
  member.Marshal nameNum idNum m = inl leaderVal ->
  lease.grantReply rawLease = inl id ->
  clientv3.succeeded
    (member.campaign_txn_reply m ctx rawLease leaseTTLSec leaderVal id w) = true ->
  exists w3,
    calls w3
    = calls w
      ++ [CallLeaseGrant leaseTTLSec;
          CallKVTxn
            [clientv3.Compare (clientv3.CreateRevision (member.leaderKey m)) "=" 0]
            [clientv3.OpPut (member.leaderKey m) leaderVal [clientv3.WithLease id]];
          CallLog Info "succeed to set leader";
          CallLeaseKeepAlive id]
    /\ forall fuel,
        member.CampaignAndKeepLeader nameNum idNum fuel m ctx rawLease leaseTTLSec w
        = member.keep_leader fuel m (lease.mklease rawLease leaseTTLSec id)
            (member.campaign_ctx m ctx rawLease leaseTTLSec w)
            (now w3 + member.leaderCheckInterval) w3.
Proof.
  intros HM Hg.
  campaign_unfold HM Hg.
  destruct (waits w) as [|d1 [|d2 ws]];
    cbn [fst snd now waits tickFirst kv calls] in *;
    destruct (kvCommit _ _ _ _ (kv w)) as [[resp|err] s'];
    cbn [fst snd now waits tickFirst kv calls clientv3.succeeded] in *.
  all: intros Hs; try discriminate; rewrite Hs;
    cbn [negb lease.rawLease lease.ttlSec lease.ID].
  all: cbn [fst snd now waits tickFirst kv calls].
  all: match goal with
       | |- context [member.keep_leader _ _ _ _ _ ?W] => exists W
       end;
    split; [|intros fuel; reflexivity]; cbn [calls];
    rewrite <- ?app_assoc; reflexivity.
Qed.

(** The calls of a campaign that won. *)
Lemma Campaign_won_calls (fuel : nat) (m : member.Member)
    (ctx : context.Context) (rawLease : lease.RawLease) (leaseTTLSec : Z)
    (w : World St) (leaderVal : string) (id : Z) :
  member.Marshal nameNum idNum m = inl leaderVal ->
  lease.grantReply rawLease = inl id ->
  clientv3.succeeded
    (member.campaign_txn_reply m ctx rawLease leaseTTLSec leaderVal id w) = true ->
  exists logs,
    calls (snd (member.CampaignAndKeepLeader nameNum idNum fuel m ctx
                  rawLease leaseTTLSec w))
    = calls w
      ++ [CallLeaseGrant leaseTTLSec;
          CallKVTxn
            [clientv3.Compare (clientv3.CreateRevision (member.leaderKey m)) "=" 0]
            [clientv3.OpPut (member.leaderKey m) leaderVal [clientv3.WithLease id]];
          CallLog Info "succeed to set leader";
          CallLeaseKeepAlive id]
      ++ logs
    /\ Forall (fun c => exists msg, c = CallLog Info msg) logs.
Proof.
  intros HM Hg Hs.
  destruct (Campaign_won m ctx rawLease leaseTTLSec w leaderVal id HM Hg Hs)
    as (w3 & Hc & Hrun).
  rewrite Hrun.
  destruct (keep_leader_calls fuel m (lease.mklease rawLease leaseTTLSec id)
              (member.campaign_ctx m ctx rawLease leaseTTLSec w)
              (now w3 + member.leaderCheckInterval) w3)
    as ((logs & Hl & HF) & _ & _).
  exists logs. rewrite Hl, Hc, <- app_assoc. auto.
Qed.

(** C8. A campaign that won returns nil whenever it returns, the calls of
    its monitoring loop are log lines only, so that no exit, the caller's
    cancellation included, closes or revokes the lease, and it does return:
    some number of rounds is enough. *)
Theorem C8_monitoring_exits_return_nil (m : member.Member)
    (ctx : context.Context) (rawLease : lease.RawLease) (leaseTTLSec : Z)
    (w : World St) (leaderVal : string) (id : Z) :
  member.Marshal nameNum idNum m = inl leaderVal ->
  lease.grantReply rawLease = inl id ->
  clientv3.succeeded
    (member.campaign_txn_reply m ctx rawLease leaseTTLSec leaderVal id w) = true ->
  (forall fuel,
      (fst (member.CampaignAndKeepLeader nameNum idNum fuel m ctx rawLease
              leaseTTLSec w) = Blocked
       \/ fst (member.CampaignAndKeepLeader nameNum idNum fuel m ctx rawLease
                 leaseTTLSec w) = Returned None)
      /\ exists logs,
          calls (snd (member.CampaignAndKeepLeader nameNum idNum fuel m ctx
                        rawLease leaseTTLSec w))
          = calls w
            ++ [CallLeaseGrant leaseTTLSec;
                CallKVTxn
                  [clientv3.Compare
                     (clientv3.CreateRevision (member.leaderKey m)) "=" 0]
                  [clientv3.OpPut (member.leaderKey m) leaderVal
                     [clientv3.WithLease id]];
                CallLog Info "succeed to set leader";
                CallLeaseKeepAlive id]
            ++ logs
          /\ Forall (fun c => exists msg, c = CallLog Info msg) logs
          /\ forallb (fun c => negb (is_lease_close c)) logs = true)
  /\ exists rounds, forall fuel,
       (rounds <= fuel)%nat ->
       fst (member.CampaignAndKeepLeader nameNum idNum fuel m ctx rawLease
              leaseTTLSec w) = Returned None.
Proof.
  intros HM Hg Hs.
  destruct (Campaign_won m ctx rawLease leaseTTLSec w leaderVal id HM Hg Hs)
    as (w3 & Hc & Hrun).
  split.
  - intros fuel. rewrite Hrun.
    destruct (keep_leader_calls fuel m (lease.mklease rawLease leaseTTLSec id)
                (member.campaign_ctx m ctx rawLease leaseTTLSec w)
                (now w3 + member.leaderCheckInterval) w3)
      as ((logs & Hl & HF) & _ & Hr).
    split; [exact Hr|]. exists logs. rewrite Hl, Hc, <- app_assoc.
    split; [reflexivity|]. split; [exact HF|].
    apply forallb_forall. intros c Hin.
    rewrite Forall_forall in HF. destruct (HF c Hin) as (msg & ->). reflexivity.
  - destruct (campaign_ctx_deadline m ctx rawLease leaseTTLSec w) as (d & Hd).
    exists (S (Z.to_nat (d - now w3))). intros fuel Hf. rewrite Hrun.
    destruct fuel as [|fuel]; [lia|].
    apply (keep_leader_returns m _ _ d Hd).
    unfold member.leaderCheckInterval, member.Millisecond. lia.
Qed.

(** With the lease alive and the store's leader in place at every tick,
    the loop is left through the case of the context, at its deadline. *)
Lemma keep_leader_deadline (m : member.Member) (l : lease.lease)
    (ctx : context.Context) (d : Z) :
  context.doneAt ctx = Some d ->
  (forall t, lease.aliveAt (lease.rawLease l) t = true) ->
  (forall t, member.etcdLeaderGetter m t = member.ID m) ->
  forall (fuel : nat) (nextTick : Z) (w : World St),
    d < nextTick + Z.of_nat fuel * member.leaderCheckInterval ->
    fst (member.keep_leader (S fuel) m l ctx nextTick w) = Returned None
    /\ calls (snd (member.keep_leader (S fuel) m l ctx nextTick w))
       = calls w ++ [CallLog Info "server is closed"].
Proof.
  intros Hd Halive Hetcd. induction fuel as [|fuel IH]; intros nextTick w Hlt.
  - rewrite keep_leader_S.
    destruct (select_frame ctx nextTick w) as (Hc & _ & _).
    destruct (fst (member.select ctx nextTick w)) eqn:E.
    + assert (Hn : fst (member.select ctx nextTick w) <> member.CtxDone)
        by (rewrite E; discriminate).
      exfalso. apply Hn. apply select_done. exists d. split; [exact Hd|]. lia.
    + unfold log, record. cbn [fst snd calls]. rewrite Hc. auto.
  - rewrite keep_leader_S.
    destruct (select_frame ctx nextTick w) as (Hc & _ & _).
    destruct (fst (member.select ctx nextTick w)) eqn:E.
    + cbv zeta. rewrite Halive, Hetcd, Z.eqb_refl. cbn [negb].
      rewrite <- Hc. apply IH. unfold member.leaderCheckInterval in *. lia.
    + unfold log, record. cbn [fst snd calls]. rewrite Hc. auto.
Qed.

(** C1, as the code has it. A campaign that won returns nil through the
    case of the context although the caller never cancels, the lease handle's
    flag is true at every instant and the store's own leader is this member
    throughout: the loop selects on the context of the transaction, which
    ends when [rpcTimeout] has elapsed. *)
Theorem C1_returns_when_rpcTimeout_elapses (m : member.Member)
    (ctx : context.Context) (rawLease : lease.RawLease) (leaseTTLSec : Z)
    (w : World St) (leaderVal : string) (id : Z) :
  member.Marshal nameNum idNum m = inl leaderVal ->
  lease.grantReply rawLease = inl id ->
  clientv3.succeeded
    (member.campaign_txn_reply m ctx rawLease leaseTTLSec leaderVal id w) = true ->
  context.doneAt ctx = None ->
  (forall t, lease.aliveAt rawLease t = true) ->
  (forall t, member.etcdLeaderGetter m t = member.ID m) ->
  exists rounds, forall fuel,
    (rounds <= fuel)%nat ->
    fst (member.CampaignAndKeepLeader nameNum idNum fuel m ctx rawLease
           leaseTTLSec w) = Returned None
    /\ calls (snd (member.CampaignAndKeepLeader nameNum idNum fuel m ctx rawLease
                     leaseTTLSec w))
       = calls w
         ++ [CallLeaseGrant leaseTTLSec;
             CallKVTxn
               [clientv3.Compare (clientv3.CreateRevision (member.leaderKey m)) "=" 0]
               [clientv3.OpPut (member.leaderKey m) leaderVal
                  [clientv3.WithLease id]];
             CallLog Info "succeed to set leader";
             CallLeaseKeepAlive id;
             CallLog Info "server is closed"].
Proof.
  intros HM Hg Hs Hctx Halive Hetcd.
  destruct (Campaign_won m ctx rawLease leaseTTLSec w leaderVal id HM Hg Hs)
    as (w3 & Hc & Hrun).
  destruct (campaign_ctx_deadline m ctx rawLease leaseTTLSec w) as (d & Hd).
  exists (S (Z.to_nat (d - now w3))). intros fuel Hf. rewrite Hrun.
  destruct fuel as [|fuel]; [lia|].
  destruct (keep_leader_deadline m (lease.mklease rawLease leaseTTLSec id)
              (member.campaign_ctx m ctx rawLease leaseTTLSec w) d Hd
              Halive Hetcd fuel (now w3 + member.leaderCheckInterval) w3)
    as (Hr & Hl).
  { unfold member.leaderCheckInterval, member.Millisecond. lia. }
  split; [exact Hr|]. rewrite Hl, Hc, <- app_assoc. reflexivity.
Qed.

(** The calls of a campaign, whichever way it goes: its only call on the
    key space is the transaction. *)
Lemma Campaign_calls (fuel : nat) (m : member.Member)
    (ctx : context.Context) (rawLease : lease.RawLease) (leaseTTLSec : Z)
    (w : World St) :
  exists tr,
    calls (snd (member.CampaignAndKeepLeader nameNum idNum fuel m ctx rawLease
                  leaseTTLSec w)) = calls w ++ tr
    /\ filter is_kv_call tr
       = match member.Marshal nameNum idNum m, lease.grantReply rawLease with
         | inl leaderVal, inl id =>
           [CallKVTxn
              [clientv3.Compare (clientv3.CreateRevision (member.leaderKey m)) "=" 0]
              [clientv3.OpPut (member.leaderKey m) leaderVal [clientv3.WithLease id]]]
         | _, _ => []
         end.
Proof.
  destruct (member.Marshal nameNum idNum m) as [leaderVal|err] eqn:HM.
  - destruct (lease.grantReply rawLease) as [id|err] eqn:Hg.
    + destruct (clientv3.succeeded
                  (member.campaign_txn_reply m ctx rawLease leaseTTLSec leaderVal id w))
        eqn:Hs.
      * destruct (Campaign_won_calls fuel m ctx rawLease leaseTTLSec w
                    leaderVal id HM Hg Hs) as (logs & -> & HF).
        eexists. split; [reflexivity|].
        cbn [app filter is_kv_call]. f_equal.
        induction HF as [|c logs (msg & ->)]; [reflexivity | exact IHHF].
      * rewrite (Campaign_lost_calls fuel m ctx rawLease leaseTTLSec w
                   leaderVal id HM Hg Hs).
        eexists. split; [reflexivity|].
        destruct (lease.closeReply rawLease); reflexivity.
    + unfold member.CampaignAndKeepLeader. rewrite HM.
      unfold lease.Grant, lease.newLease. run_world.
      cbn [lease.rawLease lease.ttlSec lease.ID]. rewrite Hg.
      destruct (waits w); cbn [fst snd calls]; eexists; split; reflexivity.
  - unfold member.CampaignAndKeepLeader. rewrite HM. cbn.
    exists []. rewrite app_nil_r. auto.
Qed.

End Campaign.

(** ** The key space: a campaign's transaction succeeds at most once *)

Lemma bytes_compare_eq (a b : bytes) : bytes_compare a b = Eq <-> a = b.
Proof.
  revert b. induction a as [|x a IH]; intros [|y b]; cbn [bytes_compare];
    try (split; [discriminate | discriminate]); [tauto|].
  destruct (byte_val x ?= byte_val y) eqn:E.
  - apply Z.compare_eq in E. apply byte_val_inj in E. subst y.
    rewrite IH. split; [intros ->; reflexivity | intros [= ->]; reflexivity].
  - split; [discriminate|]. intros [= -> ->]. rewrite Z.compare_refl in E.
    discriminate.
  - split; [discriminate|]. intros [= -> ->]. rewrite Z.compare_refl in E.
    discriminate.
Qed.

Lemma bytes_eqb_eq (a b : bytes) : bytes_eqb a b = true <-> a = b.
Proof.
  unfold bytes_eqb. rewrite <- bytes_compare_eq.
  destruct (bytes_compare a b); split; congruence.
Qed.

Lemma bytes_eqb_refl (a : bytes) : bytes_eqb a a = true.
Proof. apply bytes_eqb_eq. reflexivity. Qed.

(** A record is found under its key once it is put there. *)
Lemma lookup_upsert (kv0 : mvccpb.KeyValue) (l : list mvccpb.KeyValue) :
  mvcc.lookup (mvccpb.Key kv0) (mvcc.upsert kv0 l) = Some kv0.
Proof.
  unfold mvcc.lookup. induction l as [|x l IH]; cbn [mvcc.upsert find].
  - rewrite bytes_eqb_refl. reflexivity.
  - destruct (bytes_compare (mvccpb.Key kv0) (mvccpb.Key x)) eqn:E; cbn [find].
    + rewrite bytes_eqb_refl. reflexivity.
    + rewrite bytes_eqb_refl. reflexivity.
    + destruct (bytes_eqb (mvccpb.Key x) (mvccpb.Key kv0)) eqn:E'; [|exact IH].
      apply bytes_eqb_eq in E'. rewrite E' in E.
      rewrite (proj2 (bytes_compare_eq _ _) eq_refl) in E. discriminate.
Qed.

Section Race.

Variable key : string.

(** The condition of the campaign holds exactly when the key is absent. *)
Lemma campaign_cmp_holds (s : mvcc.Store) :
  mvcc.sound_at (list_byte_of_string key) s ->
  clientv3.holds (mvcc.kvs s)
    (clientv3.Compare (clientv3.CreateRevision key) "=" 0) = true
  <-> mvcc.lookup (list_byte_of_string key) (mvcc.kvs s) = None.
Proof.
  intros (_ & Hpos).
  unfold clientv3.holds, clientv3.target_value, clientv3.Compare,
    clientv3.CreateRevision.
  cbn [clientv3.Result clientv3.TargetValue clientv3.CmpKey clientv3.Target].
  change (String.eqb "=" "=") with true. cbv iota.
  destruct (mvcc.lookup (list_byte_of_string key) (mvcc.kvs s)) as [kv0|] eqn:E.
  - specialize (Hpos kv0 eq_refl). split; [intros H; blia | discriminate].
  - split; reflexivity.
Qed.

(** One campaign's transaction on the key space. *)
Lemma campaign_commit (c : clientv3.Client) (val : string) (id : Z) :
  mvcc.sound_at (list_byte_of_string key) (clientv3.cluster c) ->
  let r := clientv3.Commit c
             [clientv3.Compare (clientv3.CreateRevision key) "=" 0]
             [clientv3.OpPut key val [clientv3.WithLease id]] in
  mvcc.sound_at (list_byte_of_string key) (clientv3.cluster (snd r))
  /\ (clientv3.succeeded (fst r) = true ->
      mvcc.lookup (list_byte_of_string key) (mvcc.kvs (clientv3.cluster c)) = None
      /\ exists kv0,
          mvcc.lookup (list_byte_of_string key)
            (mvcc.kvs (clientv3.cluster (snd r))) = Some kv0)
  /\ (clientv3.succeeded (fst r) = false -> snd r = c).
Proof.
  intros Hs. pose proof (campaign_cmp_holds _ Hs) as Hh.
  destruct Hs as (Hrev & Hpos).
  unfold clientv3.Commit, mvcc.sound_at. destruct c as [s u].
  cbn [clientv3.cluster] in *.
  cbn [clientv3.unavailable].
  destruct u as [err|]; cbn [fst snd clientv3.succeeded clientv3.cluster].
  { split; [split; assumption|]. split; [discriminate | reflexivity]. }
  unfold clientv3.commit. cbn [forallb]. rewrite andb_true_r.
  destruct (clientv3.holds (mvcc.kvs s) _) eqn:E.
  - apply proj1 in Hh. specialize (Hh eq_refl).
    cbn [fold_left clientv3.apply_op]. unfold mvcc.put_at. rewrite Hh.
    cbn [fst snd clientv3.succeeded clientv3.cluster clientv3.Succeeded
           mvcc.kvs mvcc.rev].
    split; [split; [lia|] |].
    + intros kv0.
      pose proof (lookup_upsert
        (mvccpb.mkKeyValue (list_byte_of_string key) (mvcc.rev s + 1)
           (mvcc.rev s + 1) 1 (list_byte_of_string val)
           (clientv3.lease_of [clientv3.WithLease id])) (mvcc.kvs s)) as Hl.
      cbn [mvccpb.Key] in Hl. rewrite Hl. intros [= <-].
      cbn [mvccpb.CreateRevision]. lia.
    + split; [|discriminate]. intros _. split; [reflexivity|].
      eexists.
      exact (lookup_upsert
        (mvccpb.mkKeyValue (list_byte_of_string key) (mvcc.rev s + 1)
           (mvcc.rev s + 1) 1 (list_byte_of_string val)
           (clientv3.lease_of [clientv3.WithLease id])) (mvcc.kvs s)).
  - cbn [fold_left fst snd clientv3.succeeded clientv3.cluster clientv3.Succeeded].
    split; [split; assumption|]. split; [discriminate|]. destruct s. reflexivity.
Qed.

(** Once the leader key is there, no campaign's transaction succeeds. *)
Lemma race_after_leader (campaigns : list (string * Z)) :
  forall (c : clientv3.Client) (kv0 : mvccpb.KeyValue),
    mvcc.sound_at (list_byte_of_string key) (clientv3.cluster c) ->
    mvcc.lookup (list_byte_of_string key) (mvcc.kvs (clientv3.cluster c)) = Some kv0 ->
    filter clientv3.succeeded
      (fst (clientv3.commit_all c
              (map (fun p : string * Z =>
                      ([clientv3.Compare (clientv3.CreateRevision key) "=" 0],
                       [clientv3.OpPut key (fst p) [clientv3.WithLease (snd p)]]))
                 campaigns))) = [].
Proof.
  induction campaigns as [|[val id] campaigns IH]; intros c kv0 Hs Hk;
    [reflexivity|].
  cbn [map clientv3.commit_all fst snd].
  destruct (campaign_commit c val id Hs) as (_ & Hwin & Hlose).
  destruct (clientv3.Commit c _ _) as [r c1]. cbn [fst snd] in *.
  destruct (clientv3.succeeded r) eqn:E.
  - destruct (Hwin eq_refl) as (Habs & _). congruence.
  - rewrite (Hlose eq_refl) in *.
    specialize (IH c kv0 Hs Hk).
    destruct (clientv3.commit_all c _) as [rs c2]. cbn [fst filter] in *.
    rewrite E. exact IH.
Qed.

(** Of the transactions of any number of campaigns on one key space, at
    most one succeeds. *)
Lemma race_at_most_one (campaigns : list (string * Z)) :
  forall (c : clientv3.Client),
    mvcc.sound_at (list_byte_of_string key) (clientv3.cluster c) ->
    (List.length
       (filter clientv3.succeeded
          (fst (clientv3.commit_all c
                  (map (fun p : string * Z =>
                          ([clientv3.Compare (clientv3.CreateRevision key) "=" 0],
                           [clientv3.OpPut key (fst p) [clientv3.WithLease (snd p)]]))
                     campaigns)))) <= 1)%nat.
Proof.
  induction campaigns as [|[val id] campaigns IH]; intros c Hs; [cbn; lia|].
  cbn [map clientv3.commit_all fst snd].
  destruct (campaign_commit c val id Hs) as (Hs1 & Hwin & Hlose).
  destruct (clientv3.Commit c _ _) as [r c1]. cbn [fst snd] in *.
  destruct (clientv3.succeeded r) eqn:E.
  - destruct (Hwin eq_refl) as (_ & kv0 & Hk).
    pose proof (race_after_leader campaigns c1 kv0 Hs1 Hk) as Hnone.
    destruct (clientv3.commit_all c1 _) as [rs c2]. cbn [fst filter] in *.
    rewrite E, Hnone. cbn. lia.
  - specialize (IH c1 Hs1).
    destruct (clientv3.commit_all c1 _) as [rs c2]. cbn [fst filter] in *.
    rewrite E. exact IH.
Qed.

End Race.

(** ** Waiting for the leader to change *)

Section Watch.

Context {St : Type} {clusterKV : ClusterKV St}.

Lemma block_frame (w : World St) :
  calls (snd (block w)) = calls w /\ kv (snd (block w)) = kv w.
Proof.
  unfold block. destruct (waits w); cbn [snd calls kv]; auto.
Qed.

(** One round of the outer loop of [WaitForLeaderChange]. *)
Lemma watch_loop_cons (m : member.Member) (ctx : context.Context)
    (wch : WatchChan) (chs : list WatchChan) (revision : Z) (w : World St) :
  member.watch_loop m ctx (wch :: chs) revision w
  = let r := member.range_wch m revision (resps wch) (closed wch)
               (snd (record (CallWatch (member.leaderKey m)
                               [clientv3.WithRev revision]) w)) in
    match fst r with
    | member.ExitReturn => (Returned tt, snd r)
    | member.ExitSilent => (Blocked, snd r)
    | member.ExitBreak compact =>
      if context.Done ctx (now (snd r)) then (Returned tt, snd r)
      else member.watch_loop m ctx chs compact (snd r)
    | member.ExitClosed =>
      if context.Done ctx (now (snd r)) then (Returned tt, snd r)
      else member.watch_loop m ctx chs revision (snd r)
    end.
Proof.
  cbn [member.watch_loop]. unfold bind. cbn [record snd].
  destruct (member.range_wch m revision (resps wch) (closed wch) _) as [e w1].
  cbn [fst snd]. unfold clock, ret.
  destruct e; try reflexivity; destruct (context.Done ctx (now w1)); reflexivity.
Qed.

(** The loop over a channel passes over the responses that carry no
    compaction, no cancellation and no delete event. *)
Lemma range_wch_quiet (m : member.Member) (revision : Z)
    (pre rs : list clientv3.WatchResponse) (closed : bool) :
  Forall (fun r => clientv3.quiet r = true) pre ->
  forall w : World St,
  exists w',
    calls w' = calls w /\ kv w' = kv w
    /\ member.range_wch m revision (pre ++ rs) closed w
       = member.range_wch m revision rs closed w'.
Proof.
  induction 1 as [|resp pre Hq _ IH]; intros w.
  - exists w. auto.
  - cbn [app member.range_wch]. unfold bind at 1.
    destruct (block w) as [[] w1] eqn:Eb.
    destruct (block_frame w) as (Hc & Hk). rewrite Eb in Hc, Hk. cbn [snd] in *.
    unfold clientv3.quiet in Hq.
    apply andb_prop in Hq. destruct Hq as (Hq & Hd).
    apply andb_prop in Hq. destruct Hq as (Hz & Hcan).
    rewrite Hz. cbn [negb].
    destruct (clientv3.Canceled resp); [discriminate|].
    destruct (existsb mvccpb.is_delete (clientv3.Events resp)); [discriminate|].
    destruct (IH w1) as (w' & Hc' & Hk' & ->).
    exists w'. rewrite Hc', Hk'. auto.
Qed.

(** A compaction notice ends the loop over the channel with the compact
    revision; what the channel holds after it is not read. *)
Lemma range_wch_compact (m : member.Member) (revision : Z)
    (resp : clientv3.WatchResponse) (rs : list clientv3.WatchResponse)
    (closed : bool) (w : World St) :
  clientv3.CompactRevision resp <> 0 ->
  fst (member.range_wch m revision (resp :: rs) closed w)
  = member.ExitBreak (clientv3.CompactRevision resp)
  /\ calls (snd (member.range_wch m revision (resp :: rs) closed w))
     = calls w
       ++ [CallLog Warn
             "required revision has been compacted, use the compact revision"]
  /\ kv (snd (member.range_wch m revision (resp :: rs) closed w)) = kv w.
Proof.
  intros Hc. cbn [member.range_wch]. unfold bind.
  destruct (block_frame w) as (Hcs & Hk).
  destruct (block w) as [[] w1]. cbn [snd] in *.
  destruct (clientv3.CompactRevision resp =? 0) eqn:E; [blia|].
  cbn [negb]. unfold log, record, bind, ret. cbn [fst snd calls kv].
  rewrite Hcs, Hk. auto.
Qed.

(** A delete event ends the call. *)
Lemma range_wch_delete (m : member.Member) (revision : Z)
    (resp : clientv3.WatchResponse) (rs : list clientv3.WatchResponse)
    (closed : bool) (w : World St) :
  clientv3.CompactRevision resp = 0 ->
  clientv3.Canceled resp = false ->
  existsb mvccpb.is_delete (clientv3.Events resp) = true ->
  fst (member.range_wch m revision (resp :: rs) closed w) = member.ExitReturn
  /\ calls (snd (member.range_wch m revision (resp :: rs) closed w))
     = calls w ++ [CallLog Info "current leader is deleted"].
Proof.
  intros Hc Hcan Hdel. cbn [member.range_wch]. unfold bind.
  destruct (block_frame w) as (Hcs & Hk).
  destruct (block w) as [[] w1]. cbn [snd] in *.
  rewrite Hc, Hcan, Hdel. cbn [Z.eqb negb].
  unfold log, record, bind, ret. cbn [fst snd calls kv].
  rewrite Hcs. auto.
Qed.

(** The loop over a channel that delivers a compaction notice after
    responses to pass over. *)
Lemma range_wch_compacted (m : member.Member) (revision : Z)
    (pre rest : list clientv3.WatchResponse) (compact : clientv3.WatchResponse)
    (cl : bool) (w : World St) :
  Forall (fun r => clientv3.quiet r = true) pre ->
  clientv3.CompactRevision compact <> 0 ->
  fst (member.range_wch m revision (pre ++ compact :: rest) cl w)
  = member.ExitBreak (clientv3.CompactRevision compact)
  /\ calls (snd (member.range_wch m revision (pre ++ compact :: rest) cl w))
     = calls w
       ++ [CallLog Warn
             "required revision has been compacted, use the compact revision"]
  /\ kv (snd (member.range_wch m revision (pre ++ compact :: rest) cl w)) = kv w.
Proof.
  intros Hpre Hc.
  destruct (range_wch_quiet m revision pre (compact :: rest) cl Hpre w)
    as (w' & Hc' & Hk' & ->).
  destruct (range_wch_compact m revision compact rest cl w' Hc)
    as (He & Hcs & Hk).
  rewrite He, Hcs, Hk, Hc', Hk'. auto.
Qed.

(** On a compaction notice the outer loop goes on to the next [Watch],
    from the compact revision, when the context is not done at the [select]
    that follows the loop over the channel; when it is, the loop returns. *)
Lemma watch_loop_restart (m : member.Member) (ctx : context.Context)
    (pre rest : list clientv3.WatchResponse) (compact : clientv3.WatchResponse)
    (cl : bool) (chs : list WatchChan) (revision : Z) (w : World St) :
  Forall (fun r => clientv3.quiet r = true) pre ->
  clientv3.CompactRevision compact <> 0 ->
  exists w1,
    calls w1
    = calls w
      ++ [CallWatch (member.leaderKey m) [clientv3.WithRev revision];
          CallLog Warn
            "required revision has been compacted, use the compact revision"]
    /\ kv w1 = kv w
    /\ member.watch_loop m ctx
         (mkWatchChan (pre ++ compact :: rest) cl :: chs) revision w
       = if context.Done ctx
              (member.watch_left_at m revision
                 (mkWatchChan (pre ++ compact :: rest) cl) w)
         then (Returned tt, w1)
         else member.watch_loop m ctx chs (clientv3.CompactRevision compact) w1.
Proof.
  intros Hpre Hc. rewrite watch_loop_cons. cbv zeta.
  unfold member.watch_left_at. cbn [resps closed].
  destruct (range_wch_compacted m revision pre rest compact cl
              (snd (record (CallWatch (member.leaderKey m)
                              [clientv3.WithRev revision]) w)) Hpre Hc)
    as (He & Hcs & Hk).
  rewrite He.
  eexists. split; [|split; [|reflexivity]].
  - rewrite Hcs. cbn [record snd calls]. rewrite <- app_assoc. reflexivity.
  - rewrite Hk. reflexivity.
Qed.

(** On a delete event the outer loop returns. *)
Lemma watch_loop_delete (m : member.Member) (ctx : context.Context)
    (pre rest : list clientv3.WatchResponse) (del : clientv3.WatchResponse)
    (cl : bool) (chs : list WatchChan) (revision : Z) (w : World St) :
  Forall (fun r => clientv3.quiet r = true) pre ->
  clientv3.CompactRevision del = 0 ->
  clientv3.Canceled del = false ->
  existsb mvccpb.is_delete (clientv3.Events del) = true ->
  fst (member.watch_loop m ctx
         (mkWatchChan (pre ++ del :: rest) cl :: chs) revision w)
  = Returned tt
  /\ calls (snd (member.watch_loop m ctx
                   (mkWatchChan (pre ++ del :: rest) cl :: chs) revision w))
     = calls w
       ++ [CallWatch (member.leaderKey m) [clientv3.WithRev revision];
           CallLog Info "current leader is deleted"].
Proof.
  intros Hpre Hc Hcan Hdel. rewrite watch_loop_cons. cbv zeta. cbn [resps closed].
  destruct (range_wch_quiet m revision pre (del :: rest) cl Hpre
              (snd (record (CallWatch (member.leaderKey m)
                              [clientv3.WithRev revision]) w)))
    as (w' & Hc' & Hk' & ->).
  destruct (range_wch_delete m revision del rest cl w' Hc Hcan Hdel)
    as (He & Hcs).
  rewrite He. cbn [fst snd]. split; [reflexivity|].
  rewrite Hcs, Hc'. cbn [record snd calls]. rewrite <- app_assoc. reflexivity.
Qed.

(** [WaitForLeaderChange] is its outer loop, and on return the deferred
    close of the watcher. *)
Lemma WaitForLeaderChange_loop (m : member.Member) (ctx : context.Context)
    (watcher : Watcher) (revision : Z) (w : World St) :
  fst (member.WaitForLeaderChange m ctx watcher revision w)
  = fst (member.watch_loop m ctx (chans watcher) revision w)
  /\ calls (snd (member.WaitForLeaderChange m ctx watcher revision w))
     = calls (snd (member.watch_loop m ctx (chans watcher) revision w))
       ++ match fst (member.watch_loop m ctx (chans watcher) revision w) with
          | Blocked => []
          | Returned _ =>
            CallWatcherClose
            :: match closeErr watcher with
               | Some _ => [CallLog Error "close watcher failed"]
               | None => []
               end
          end.
Proof.
  unfold member.WaitForLeaderChange, context.WithCancel, bind.
  destruct (member.watch_loop m ctx (chans watcher) revision w) as [[[]|] w1];
    cbn [fst snd].
  - run_world. destruct (closeErr watcher); cbn [fst snd calls];
      rewrite <- ?app_assoc; auto.
  - unfold ret. cbn [fst snd]. rewrite app_nil_r. auto.
Qed.

(** C7, as the code has it. [WaitForLeaderChange] has no error result. On
    a compaction notice, when the caller's context is not done at the
    [select] that follows, it goes on as a wait on the rest of the watcher
    from the compact revision, and when the notice is followed, on the watch
    it then opens, by a delete event, it returns, after the delete, having
    closed the watcher once. When the caller's context is done at that
    [select], it returns after the notice, the watcher closed, without
    watching again. *)
Theorem C7_WaitForLeaderChange_compaction (m : member.Member)
    (ctx : context.Context) (watcher : Watcher) (revision : Z) (w : World St)
    (pre1 rest1 : list clientv3.WatchResponse) (compact : clientv3.WatchResponse)
    (closed1 : bool) (chs : list WatchChan) :
  Forall (fun r => clientv3.quiet r = true) pre1 ->
  clientv3.CompactRevision compact <> 0 ->
  chans watcher = mkWatchChan (pre1 ++ compact :: rest1) closed1 :: chs ->
  (fst (member.WaitForLeaderChange m ctx watcher revision w) = Blocked
   \/ fst (member.WaitForLeaderChange m ctx watcher revision w) = Returned tt)
  /\ (context.Done ctx
         (member.watch_left_at m revision
            (mkWatchChan (pre1 ++ compact :: rest1) closed1) w) = false ->
      (exists w1,
         calls w1
         = calls w
           ++ [CallWatch (member.leaderKey m) [clientv3.WithRev revision];
               CallLog Warn
                 "required revision has been compacted, use the compact revision"]
         /\ kv w1 = kv w
         /\ member.WaitForLeaderChange m ctx watcher revision w
            = member.WaitForLeaderChange m ctx (mkWatcher chs (closeErr watcher))
                (clientv3.CompactRevision compact) w1)
      /\ (forall (pre2 rest2 : list clientv3.WatchResponse)
                 (del : clientv3.WatchResponse) (closed2 : bool)
                 (chs' : list WatchChan),
            Forall (fun r => clientv3.quiet r = true) pre2 ->
            clientv3.CompactRevision del = 0 ->
            clientv3.Canceled del = false ->
            existsb mvccpb.is_delete (clientv3.Events del) = true ->
            chs = mkWatchChan (pre2 ++ del :: rest2) closed2 :: chs' ->
            fst (member.WaitForLeaderChange m ctx watcher revision w)
            = Returned tt
            /\ calls (snd (member.WaitForLeaderChange m ctx watcher revision w))
               = calls w
                 ++ [CallWatch (member.leaderKey m) [clientv3.WithRev revision];
                     CallLog Warn
                       "required revision has been compacted, use the compact revision";
                     CallWatch (member.leaderKey m)
                       [clientv3.WithRev (clientv3.CompactRevision compact)];
                     CallLog Info "current leader is deleted";
                     CallWatcherClose]
                 ++ match closeErr watcher with
                    | Some _ => [CallLog Error "close watcher failed"]
                    | None => []
                    end))
  /\ (context.Done ctx
         (member.watch_left_at m revision
            (mkWatchChan (pre1 ++ compact :: rest1) closed1) w) = true ->
      fst (member.WaitForLeaderChange m ctx watcher revision w) = Returned tt
      /\ calls (snd (member.WaitForLeaderChange m ctx watcher revision w))
         = calls w
           ++ [CallWatch (member.leaderKey m) [clientv3.WithRev revision];
               CallLog Warn
                 "required revision has been compacted, use the compact revision";
               CallWatcherClose]
           ++ match closeErr watcher with
              | Some _ => [CallLog Error "close watcher failed"]
              | None => []
              end).
Proof.
  intros Hpre Hc Hch.
  destruct (watch_loop_restart m ctx pre1 rest1 compact closed1 chs revision w
              Hpre Hc) as (w1 & Hc1 & Hk1 & Hloop).
  destruct (WaitForLeaderChange_loop m ctx watcher revision w) as (Hf & Hcs).
  rewrite Hch, Hloop in Hf, Hcs.
  split; [|split].
  - destruct (fst (member.WaitForLeaderChange m ctx watcher revision w)) as [[]|];
      auto.
  - intros Hlive. rewrite Hlive in Hloop, Hf, Hcs. split.
    + exists w1. split; [exact Hc1|]. split; [exact Hk1|].
      unfold member.WaitForLeaderChange, context.WithCancel, bind.
      cbn [chans closeErr]. rewrite Hch, Hloop. reflexivity.
    + intros pre2 rest2 del closed2 chs' Hpre2 Hd0 Hcan Hdel ->.
      destruct (watch_loop_delete m ctx pre2 rest2 del closed2 chs'
                  (clientv3.CompactRevision compact) w1 Hpre2 Hd0 Hcan Hdel)
        as (Hr & Hcd).
      rewrite Hr in Hf, Hcs. rewrite Hcd, Hc1 in Hcs. split.
      * exact Hf.
      * rewrite Hcs, <- !app_assoc. reflexivity.
  - intros Hdone. rewrite Hdone in Hf, Hcs. cbn [fst snd] in Hf, Hcs.
    split; [exact Hf|]. rewrite Hcs, Hc1, <- !app_assoc. reflexivity.
Qed.

End Watch.

(** ** The KV storage: range reads *)

Lemma list_byte_of_string_app (a b : string) :
  list_byte_of_string (a ++ b) = list_byte_of_string a ++ list_byte_of_string b.
Proof.
  unfold list_byte_of_string. rewrite <- map_app. f_equal.
  induction a as [|c a IH]; [reflexivity|].
  cbn [String.append list_ascii_of_string app]. rewrite IH. reflexivity.
Qed.

Lemma string_of_list_byte_app (a b : bytes) :
  string_of_list_byte (a ++ b)
  = (string_of_list_byte a ++ string_of_list_byte b)%string.
Proof.
  rewrite <- (string_of_list_byte_of_string
                (string_of_list_byte a ++ string_of_list_byte b)).
  rewrite list_byte_of_string_app, !list_byte_of_string_of_list_byte.
  reflexivity.
Qed.

Lemma cut_prefix_app (p s : string) : strings.cut_prefix (p ++ s) p = Some s.
Proof.
  induction p as [|c p IH]; [reflexivity|].
  cbn [String.append strings.cut_prefix]. rewrite Ascii.eqb_refl. exact IH.
Qed.

Lemma TrimPrefix_app (p s : string) : strings.TrimPrefix (p ++ s) p = s.
Proof. unfold strings.TrimPrefix. rewrite cut_prefix_app. reflexivity. Qed.

Lemma In_firstn {A : Type} (n : nat) (l : list A) (x : A) :
  In x (firstn n l) -> In x l.
Proof.
  intros H. rewrite <- (firstn_skipn n l). apply in_or_app. left. exact H.
Qed.

(** Between two keys that share a prefix lie only keys with that prefix. *)
Lemma between_prefix (p : bytes) :
  forall a b k : bytes,
    bytes_leb (p ++ a) k = true ->
    bytes_ltb k (p ++ b) = true ->
    exists r, k = p ++ r.
Proof.
  induction p as [|x p IH]; intros a b k Hle Hlt; [exists k; reflexivity|].
  destruct k as [|y k].
  - unfold bytes_leb in Hle. cbn in Hle. discriminate.
  - unfold bytes_leb, bytes_ltb in *.
    cbn [app bytes_compare] in Hle, Hlt.
    rewrite (Z.compare_antisym (byte_val x) (byte_val y)) in Hlt.
    destruct (byte_val x ?= byte_val y) eqn:E; cbn [CompOpp] in Hlt;
      try discriminate.
    apply Z.compare_eq in E. apply byte_val_inj in E. subst y.
    destruct (IH a b k Hle Hlt) as (r & ->). exists r. reflexivity.
Qed.

(** What the loop of [LoadRange] builds. *)
Lemma LoadRange_fold (root : string) (items : list mvccpb.KeyValue) :
  forall keys values : list string,
    fold_left
      (fun (acc : list string * list string) item =>
         let (keys, values) := acc in
         (keys ++ [strings.TrimPrefix
                     (strings.TrimPrefix (string_of_list_byte (mvccpb.Key item)) root)
                     storage.delimiter],
          values ++ [string_of_list_byte (mvccpb.Value item)]))
      items (keys, values)
    = (keys ++ map (fun item =>
                      strings.TrimPrefix
                        (strings.TrimPrefix (string_of_list_byte (mvccpb.Key item)) root)
                        storage.delimiter) items,
       values ++ map (fun item => string_of_list_byte (mvccpb.Value item)) items).
Proof.
  induction items as [|item items IH]; intros keys values; cbn [fold_left map].
  - rewrite !app_nil_r. reflexivity.
  - rewrite IH, <- !app_assoc. reflexivity.
Qed.

(** The records of a range read under a root path have keys under it. *)
Lemma range_under_root (s : mvcc.Store) (root key endKey : string) (limit : Z)
    (item : mvccpb.KeyValue) :
  In item (mvcc.range s
             (list_byte_of_string (strings.Join2 root key storage.delimiter))
             (list_byte_of_string (strings.Join2 root endKey storage.delimiter))
             limit) ->
  In item (mvcc.kvs s)
  /\ exists rel,
      string_of_list_byte (mvccpb.Key item) = (root ++ "/" ++ rel)%string.
Proof.
  unfold mvcc.range, strings.Join2, storage.delimiter.
  intros Hin.
  assert (Hf : In item
    (filter (fun kv0 =>
               mvcc.selected (list_byte_of_string (root ++ "/" ++ key))
                 (list_byte_of_string (root ++ "/" ++ endKey)) (mvccpb.Key kv0))
       (mvcc.kvs s))).
  { destruct (0 <? limit); [eapply In_firstn; exact Hin | exact Hin]. }
  apply filter_In in Hf. destruct Hf as (Hs & Hsel). split; [exact Hs|].
  unfold mvcc.selected in Hsel.
  rewrite !list_byte_of_string_app in Hsel.
  change (list_byte_of_string "/") with ["/"%byte] in Hsel.
  destruct (list_byte_of_string root ++ ["/"%byte] ++ list_byte_of_string endKey)
    as [|e0 es] eqn:Ee.
  { apply (f_equal (@List.length byte)) in Ee. rewrite !length_app in Ee.
    cbn in Ee. lia. }
  rewrite <- Ee in Hsel. apply andb_prop in Hsel. destruct Hsel as (Hle & Hlt).
  assert (Hne : bytes_eqb
    (list_byte_of_string root ++ ["/"%byte] ++ list_byte_of_string endKey) [x00]
    = false).
  { destruct (bytes_eqb _ [x00]) eqn:E0; [|reflexivity].
    apply bytes_eqb_eq in E0.
    assert (Hi : In "/"%byte
      (list_byte_of_string root ++ ["/"%byte] ++ list_byte_of_string endKey)).
    { apply in_or_app. right. left. reflexivity. }
    rewrite E0 in Hi. destruct Hi as [Hi|[]]. discriminate. }
  rewrite Hne in Hlt. cbn [orb] in Hlt.
  rewrite !app_assoc in Hle, Hlt.
  destruct (between_prefix _ _ _ _ Hle Hlt) as (r & Hr).
  exists (string_of_list_byte r). rewrite Hr, <- app_assoc.
  rewrite !string_of_list_byte_app, string_of_list_byte_of_string.
  reflexivity.
Qed.

(** C10, as the code has it. For every call of [LoadRange] that returns:
    the keys and the values come one pair per record of the range read, in
    its order; each record lies in the store under the root path, and the
    key returned for it is its key without the root path and the delimiter
    after it; when [limit] is positive at most [limit] entries are returned,
    and when it is zero or less the store applies no limit. *)
Theorem C10_LoadRange_relative_keys (kv : storage.etcdKVBase)
    (key endKey : string) (limit : Z) (keys values : list string) :
  storage.LoadRange kv key endKey limit = inl (keys, values) ->
  let items :=
    mvcc.range (clientv3.cluster (storage.client kv))
      (list_byte_of_string (strings.Join2 (storage.rootPath kv) key storage.delimiter))
      (list_byte_of_string (strings.Join2 (storage.rootPath kv) endKey storage.delimiter))
      limit in
  List.length keys = List.length items
  /\ List.length values = List.length items
  /\ (forall i item,
        nth_error items i = Some item ->
        In item (mvcc.kvs (clientv3.cluster (storage.client kv)))
        /\ exists k,
            nth_error keys i = Some k
            /\ string_of_list_byte (mvccpb.Key item)
               = (storage.rootPath kv ++ "/" ++ k)%string
            /\ nth_error values i = Some (string_of_list_byte (mvccpb.Value item)))
  /\ (0 < limit -> Z.of_nat (List.length keys) <= limit)
  /\ (limit <= 0 ->
      items
      = filter
          (fun r =>
             mvcc.selected
               (list_byte_of_string
                  (strings.Join2 (storage.rootPath kv) key storage.delimiter))
               (list_byte_of_string
                  (strings.Join2 (storage.rootPath kv) endKey storage.delimiter))
               (mvccpb.Key r))
          (mvcc.kvs (clientv3.cluster (storage.client kv)))).
Proof.
  unfold storage.LoadRange, clientv3.Get.
  destruct (clientv3.unavailable (storage.client kv)); [discriminate|].
  cbn [clientv3.Kvs clientv3.range_end_of clientv3.limit_of fold_left].
  rewrite LoadRange_fold. cbn [app]. intros [= <- <-].
  rewrite !length_map.
  split; [reflexivity|]. split; [reflexivity|]. split; [|split].
  - intros i item Hi.
    destruct (range_under_root _ _ _ _ _ item (nth_error_In _ _ Hi))
      as (Hin & rel & Hrel).
    split; [exact Hin|]. exists rel.
    rewrite !nth_error_map, Hi. cbn [option_map].
    rewrite Hrel, TrimPrefix_app. unfold storage.delimiter.
    rewrite TrimPrefix_app. auto.
  - intros Hpos. unfold mvcc.range.
    destruct (0 <? limit) eqn:E; [|blia].
    pose proof (firstn_le_length (Z.to_nat limit)
      (filter
         (fun r =>
            mvcc.selected
              (list_byte_of_string
                 (strings.Join2 (storage.rootPath kv) key storage.delimiter))
              (list_byte_of_string
                 (strings.Join2 (storage.rootPath kv) endKey storage.delimiter))
              (mvccpb.Key r))
         (mvcc.kvs (clientv3.cluster (storage.client kv))))).
    lia.
  - intros Hneg. unfold mvcc.range.
    destruct (0 <? limit) eqn:E; [blia|]. reflexivity.
Qed.

(** * Further properties of the code *)

(** ** The order of keys *)

Lemma bytes_compare_antisym (a : bytes) :
  forall b, bytes_compare b a = CompOpp (bytes_compare a b).
Proof.
  induction a as [|x a IH]; intros [|y b]; cbn [bytes_compare CompOpp];
    try reflexivity.
  rewrite (Z.compare_antisym (byte_val x) (byte_val y)).
  destruct (byte_val x ?= byte_val y); cbn [CompOpp]; auto.
Qed.

Lemma bytes_compare_refl (a : bytes) : bytes_compare a a = Eq.
Proof. apply bytes_compare_eq. reflexivity. Qed.

Lemma bytes_compare_lt_trans (a : bytes) :
  forall b c,
    bytes_compare a b = Lt -> bytes_compare b c = Lt -> bytes_compare a c = Lt.
Proof.
  induction a as [|x a IH]; intros [|y b] [|z c]; cbn [bytes_compare];
    try discriminate; try reflexivity.
  destruct (byte_val x ?= byte_val y) eqn:Exy; try discriminate;
    destruct (byte_val y ?= byte_val z) eqn:Eyz; try discriminate; intros H1 H2.
  - apply Z.compare_eq in Exy, Eyz. rewrite Exy, Eyz, Z.compare_refl.
    eapply IH; eassumption.
  - apply Z.compare_eq in Exy. rewrite Exy, Eyz. reflexivity.
  - apply Z.compare_eq in Eyz. rewrite <- Eyz, Exy. reflexivity.
  - rewrite Z.compare_lt_iff in Exy, Eyz.
    assert (H : byte_val x < byte_val z) by lia.
    rewrite <- Z.compare_lt_iff in H. rewrite H. reflexivity.
Qed.

Lemma bytes_ltb_trans (a b c : bytes) :
  bytes_ltb a b = true -> bytes_ltb b c = true -> bytes_ltb a c = true.
Proof.
  unfold bytes_ltb. intros H1 H2.
  destruct (bytes_compare a b) eqn:E1; try discriminate.
  destruct (bytes_compare b c) eqn:E2; try discriminate.
  rewrite (bytes_compare_lt_trans a b c E1 E2). reflexivity.
Qed.

Lemma bytes_leb_ltb_trans (a b c : bytes) :
  bytes_leb a b = true -> bytes_ltb b c = true -> bytes_ltb a c = true.
Proof.
  unfold bytes_leb. intros H1 H2.
  destruct (bytes_compare a b) eqn:E1; try discriminate.
  - apply bytes_compare_eq in E1. subst b. exact H2.
  - apply (bytes_ltb_trans a b c); [|exact H2].
    unfold bytes_ltb. rewrite E1. reflexivity.
Qed.

Lemma bytes_ltb_not_leb (a b : bytes) :
  bytes_ltb a b = true -> bytes_leb b a = false.
Proof.
  unfold bytes_ltb, bytes_leb. rewrite (bytes_compare_antisym a b).
  destruct (bytes_compare a b); cbn [CompOpp]; congruence.
Qed.

Lemma bytes_ltb_neq (a b : bytes) : bytes_ltb a b = true -> bytes_eqb b a = false.
Proof.
  unfold bytes_ltb, bytes_eqb. rewrite (bytes_compare_antisym a b).
  destruct (bytes_compare a b); cbn [CompOpp]; congruence.
Qed.

Lemma bytes_compare_app (p a b : bytes) :
  bytes_compare (p ++ a) (p ++ b) = bytes_compare a b.
Proof.
  induction p as [|x p IH]; [reflexivity|].
  cbn [app bytes_compare]. rewrite Z.compare_refl. exact IH.
Qed.

Lemma bytes_eqb_sym (a b : bytes) : bytes_eqb a b = bytes_eqb b a.
Proof.
  unfold bytes_eqb. rewrite (bytes_compare_antisym b a).
  destruct (bytes_compare b a); reflexivity.
Qed.

Lemma list_byte_of_string_inj (a b : string) :
  list_byte_of_string a = list_byte_of_string b -> a = b.
Proof.
  intros H. rewrite <- (string_of_list_byte_of_string a), H.
  apply string_of_list_byte_of_string.
Qed.

(** ** The key space: puts and deletes *)

Lemma lookup_upsert_other (kv0 : mvccpb.KeyValue) (key : bytes)
    (l : list mvccpb.KeyValue) :
  mvccpb.Key kv0 <> key ->
  mvcc.lookup key (mvcc.upsert kv0 l) = mvcc.lookup key l.
Proof.
  intros Hne. unfold mvcc.lookup.
  assert (Hk : bytes_eqb (mvccpb.Key kv0) key = false).
  { destruct (bytes_eqb (mvccpb.Key kv0) key) eqn:E; [|reflexivity].
    apply bytes_eqb_eq in E. contradiction. }
  induction l as [|x l IH]; cbn [mvcc.upsert find].
  - rewrite Hk. reflexivity.
  - destruct (bytes_compare (mvccpb.Key kv0) (mvccpb.Key x)) eqn:E; cbn [find].
    + apply bytes_compare_eq in E. rewrite <- E, Hk. reflexivity.
    + rewrite Hk. reflexivity.
    + rewrite IH. reflexivity.
Qed.

Lemma Forall_upsert (P : mvccpb.KeyValue -> Prop) (kv0 : mvccpb.KeyValue)
    (l : list mvccpb.KeyValue) :
  P kv0 -> Forall P l -> Forall P (mvcc.upsert kv0 l).
Proof.
  intros H0 Hl. induction Hl as [|x l Hx Hl IH]; cbn [mvcc.upsert].
  - constructor; [exact H0 | constructor].
  - destruct (bytes_compare (mvccpb.Key kv0) (mvccpb.Key x)); auto.
Qed.

Lemma ascending_upsert (kv0 : mvccpb.KeyValue) (l : list mvccpb.KeyValue) :
  mvcc.ascending l -> mvcc.ascending (mvcc.upsert kv0 l).
Proof.
  induction l as [|x l IH]; cbn [mvcc.upsert mvcc.ascending].
  - intros _. split; [constructor | exact I].
  - intros (Hx & Hl).
    destruct (bytes_compare (mvccpb.Key kv0) (mvccpb.Key x)) eqn:E;
      cbn [mvcc.ascending].
    + apply bytes_compare_eq in E. rewrite E. auto.
    + assert (Hlt : bytes_ltb (mvccpb.Key kv0) (mvccpb.Key x) = true)
        by (unfold bytes_ltb; rewrite E; reflexivity).
      split; [|auto]. constructor; [exact Hlt|].
      eapply Forall_impl; [|exact Hx]. intros y Hy.
      eapply bytes_ltb_trans; eassumption.
    + split; [|auto]. apply Forall_upsert; [|exact Hx].
      unfold bytes_ltb. rewrite (bytes_compare_antisym (mvccpb.Key kv0)), E.
      reflexivity.
Qed.

(** In an ascending key space a read of one key yields the record found
    under it, and nothing else. *)
Lemma filter_key_ascending (key : bytes) (l : list mvccpb.KeyValue) :
  mvcc.ascending l ->
  filter (fun kv0 => bytes_eqb (mvccpb.Key kv0) key) l
  = match mvcc.lookup key l with
    | Some kv0 => [kv0]
    | None => []
    end.
Proof.
  unfold mvcc.lookup.
  induction l as [|x l IH]; cbn [mvcc.ascending filter find]; [reflexivity|].
  intros (Hx & Hl).
  destruct (bytes_eqb (mvccpb.Key x) key) eqn:E; [|auto].
  f_equal. apply bytes_eqb_eq in E. subst key.
  clear IH Hl. induction Hx as [|y l Hy _ IH]; cbn [filter]; [reflexivity|].
  rewrite (bytes_ltb_neq _ _ Hy). exact IH.
Qed.

Lemma lookup_remove (key : bytes) (l : list mvccpb.KeyValue) :
  mvcc.lookup key (mvcc.remove key l) = None.
Proof.
  unfold mvcc.lookup, mvcc.remove.
  induction l as [|x l IH]; cbn [filter find]; [reflexivity|].
  destruct (bytes_eqb (mvccpb.Key x) key) eqn:E; cbn [negb find]; [exact IH|].
  rewrite E. exact IH.
Qed.

Lemma lookup_remove_other (key key' : bytes) (l : list mvccpb.KeyValue) :
  key' <> key ->
  mvcc.lookup key' (mvcc.remove key l) = mvcc.lookup key' l.
Proof.
  intros Hne. unfold mvcc.lookup, mvcc.remove.
  induction l as [|x l IH]; cbn [filter find]; [reflexivity|].
  destruct (bytes_eqb (mvccpb.Key x) key) eqn:E; cbn [negb find].
  - apply bytes_eqb_eq in E.
    destruct (bytes_eqb (mvccpb.Key x) key') eqn:E'; [|exact IH].
    apply bytes_eqb_eq in E'. congruence.
  - rewrite IH. reflexivity.
Qed.

Lemma ascending_remove (key : bytes) (l : list mvccpb.KeyValue) :
  mvcc.ascending l -> mvcc.ascending (mvcc.remove key l).
Proof.
  unfold mvcc.remove.
  induction l as [|x l IH]; cbn [mvcc.ascending filter]; [auto|].
  intros (Hx & Hl).
  destruct (negb (bytes_eqb (mvccpb.Key x) key)); cbn [mvcc.ascending]; [|auto].
  split; [|auto]. apply Forall_forall. intros y Hy.
  apply filter_In in Hy. rewrite Forall_forall in Hx. apply Hx. tauto.
Qed.


(** What a put leaves under its key, and under the others. *)
Lemma lookup_put_at (r : Z) (key value : bytes) (lease : Z)
    (l : list mvccpb.KeyValue) :
  exists kv0,
    mvcc.lookup key (mvcc.put_at r key value lease l) = Some kv0
    /\ mvccpb.Key kv0 = key /\ mvccpb.Value kv0 = value
    /\ mvccpb.ModRevision kv0 = r /\ mvccpb.Lease kv0 = lease
    /\ mvccpb.CreateRevision kv0
       = match mvcc.lookup key l with
         | Some old => mvccpb.CreateRevision old
         | None => r
         end.
Proof.
  unfold mvcc.put_at.
  destruct (mvcc.lookup key l) as [old|]; eexists;
    (split; [apply (lookup_upsert (mvccpb.mkKeyValue key _ _ _ value lease)) |]);
    repeat split.
Qed.

Lemma lookup_put_at_other (r : Z) (key key' value : bytes) (lease : Z)
    (l : list mvccpb.KeyValue) :
  key' <> key ->
  mvcc.lookup key' (mvcc.put_at r key value lease l) = mvcc.lookup key' l.
Proof.
  intros Hne. unfold mvcc.put_at.
  destruct (mvcc.lookup key l); apply lookup_upsert_other; cbn [mvccpb.Key];
    congruence.
Qed.

Lemma ascending_put_at (r : Z) (key value : bytes) (lease : Z)
    (l : list mvccpb.KeyValue) :
  mvcc.ascending l -> mvcc.ascending (mvcc.put_at r key value lease l).
Proof.
  intros H. unfold mvcc.put_at.
  destruct (mvcc.lookup key l); apply ascending_upsert; exact H.
Qed.

(** ** The KV storage: single keys *)

(** [Load] on a cluster that answers, as a lookup in its key space. *)
Lemma Load_lookup (kv : storage.etcdKVBase) (key : string) :
  clientv3.unavailable (storage.client kv) = None ->
  mvcc.ascending (mvcc.kvs (clientv3.cluster (storage.client kv))) ->
  storage.Load kv key
  = inl match mvcc.lookup
                (list_byte_of_string (path.Join (storage.rootPath kv) key))
                (mvcc.kvs (clientv3.cluster (storage.client kv))) with
        | Some item => string_of_list_byte (mvccpb.Value item)
        | None => EmptyString
        end.
Proof.
  intros Hav Hasc. unfold storage.Load, clientv3.Get. rewrite Hav.
  cbn [clientv3.Kvs clientv3.range_end_of clientv3.limit_of fold_left].
  unfold mvcc.range, mvcc.selected. change (0 <? 0) with false. cbv iota.
  rewrite (filter_key_ascending _ _ Hasc).
  destruct (mvcc.lookup _ _); reflexivity.
Qed.

(** X1. On a cluster that answers, whose key space holds no key twice,
    [Load] never fails: it returns the value stored under the cleaned path of
    the root path and the key, and the empty string, with no error, when
    nothing is stored there. *)
Theorem Load_returns_value_or_empty (kv : storage.etcdKVBase) (key : string) :
  clientv3.unavailable (storage.client kv) = None ->
  mvcc.ascending (mvcc.kvs (clientv3.cluster (storage.client kv))) ->
  (forall item,
     mvcc.lookup (list_byte_of_string (path.Join (storage.rootPath kv) key))
       (mvcc.kvs (clientv3.cluster (storage.client kv))) = Some item ->
     storage.Load kv key = inl (string_of_list_byte (mvccpb.Value item)))
  /\ (mvcc.lookup (list_byte_of_string (path.Join (storage.rootPath kv) key))
        (mvcc.kvs (clientv3.cluster (storage.client kv))) = None ->
      storage.Load kv key = inl EmptyString)
  /\ exists value, storage.Load kv key = inl value.
Proof.
  intros Hav Hasc. rewrite (Load_lookup kv key Hav Hasc).
  split; [|split].
  - intros item ->. reflexivity.
  - intros ->. reflexivity.
  - eauto.
Qed.

(** X2. [Save] on a cluster that answers returns no error and logs
    nothing, commits at the next revision and keeps the key space free of
    repeated keys. Afterwards [Load] of a key returns the saved value when
    its cleaned path is the path [Save] wrote ([rootPath], a slash and the
    key, not cleaned), and what it returned before otherwise. *)
Theorem Save_then_Load (kv : storage.etcdKVBase) (key value : string) :
  clientv3.unavailable (storage.client kv) = None ->
  mvcc.ascending (mvcc.kvs (clientv3.cluster (storage.client kv))) ->
  exists kv1,
    storage.Save kv key value = (None, kv1, [])
    /\ storage.rootPath kv1 = storage.rootPath kv
    /\ clientv3.unavailable (storage.client kv1) = None
    /\ mvcc.ascending (mvcc.kvs (clientv3.cluster (storage.client kv1)))
    /\ mvcc.rev (clientv3.cluster (storage.client kv1))
       = mvcc.rev (clientv3.cluster (storage.client kv)) + 1
    /\ forall key',
         storage.Load kv1 key'
         = if String.eqb (path.Join (storage.rootPath kv) key')
                (strings.Join2 (storage.rootPath kv) key storage.delimiter)
           then inl value
           else storage.Load kv key'.
Proof.
  intros Hav Hasc. unfold storage.Save, clientv3.Put. rewrite Hav.
  eexists. split; [reflexivity|].
  cbn [storage.rootPath storage.client clientv3.unavailable clientv3.cluster
         mvcc.kvs mvcc.rev].
  pose proof (ascending_put_at
    (mvcc.rev (clientv3.cluster (storage.client kv)) + 1)
    (list_byte_of_string
       (strings.Join2 (storage.rootPath kv) key storage.delimiter))
    (list_byte_of_string value) 0
    (mvcc.kvs (clientv3.cluster (storage.client kv))) Hasc) as Hasc1.
  repeat (split; [first [reflexivity | exact Hasc1]|]).
  intros key'. rewrite (Load_lookup kv key' Hav Hasc).
  rewrite Load_lookup by first [reflexivity | exact Hasc1].
  cbn [storage.rootPath storage.client clientv3.cluster mvcc.kvs].
  destruct (String.eqb_spec (path.Join (storage.rootPath kv) key')
              (strings.Join2 (storage.rootPath kv) key storage.delimiter))
    as [->|Hne].
  - destruct (lookup_put_at
                (mvcc.rev (clientv3.cluster (storage.client kv)) + 1)
                (list_byte_of_string
                   (strings.Join2 (storage.rootPath kv) key storage.delimiter))
                (list_byte_of_string value) 0
                (mvcc.kvs (clientv3.cluster (storage.client kv))))
      as (kv0 & -> & _ & -> & _).
    rewrite string_of_list_byte_of_string. reflexivity.
  - rewrite lookup_put_at_other; [reflexivity|].
    intros H. apply Hne. apply list_byte_of_string_inj. exact H.
Qed.

(** X3. [Remove] on a cluster that answers returns no error and logs
    nothing, whether the key is there or not; when it is not, the storage
    is left as it was. Afterwards [Load] of a key returns the empty string
    when its cleaned path is the path [Remove] deleted, and what it returned
    before otherwise. *)
Theorem Remove_then_Load (kv : storage.etcdKVBase) (key : string) :
  clientv3.unavailable (storage.client kv) = None ->
  mvcc.ascending (mvcc.kvs (clientv3.cluster (storage.client kv))) ->
  exists kv1,
    storage.Remove kv key = (None, kv1, [])
    /\ storage.rootPath kv1 = storage.rootPath kv
    /\ clientv3.unavailable (storage.client kv1) = None
    /\ mvcc.ascending (mvcc.kvs (clientv3.cluster (storage.client kv1)))
    /\ (mvcc.lookup
          (list_byte_of_string
             (strings.Join2 (storage.rootPath kv) key storage.delimiter))
          (mvcc.kvs (clientv3.cluster (storage.client kv))) = None ->
        kv1 = kv)
    /\ forall key',
         storage.Load kv1 key'
         = if String.eqb (path.Join (storage.rootPath kv) key')
                (strings.Join2 (storage.rootPath kv) key storage.delimiter)
           then inl EmptyString
           else storage.Load kv key'.
Proof.
  intros Hav Hasc. unfold storage.Remove, clientv3.Delete, mvcc.delete.
  rewrite Hav.
  destruct (mvcc.lookup
              (list_byte_of_string
                 (strings.Join2 (storage.rootPath kv) key storage.delimiter))
              (mvcc.kvs (clientv3.cluster (storage.client kv))))
    as [old|] eqn:Eold.
  - eexists. split; [reflexivity|].
    cbn [storage.rootPath storage.client clientv3.unavailable clientv3.cluster
           mvcc.kvs mvcc.rev].
    pose proof (ascending_remove
      (list_byte_of_string
         (strings.Join2 (storage.rootPath kv) key storage.delimiter))
      _ Hasc) as Hasc1.
    repeat (split; [first [reflexivity | exact Hasc1 | discriminate]|]).
    intros key'. rewrite (Load_lookup kv key' Hav Hasc).
    rewrite Load_lookup by first [reflexivity | exact Hasc1].
    cbn [storage.rootPath storage.client clientv3.cluster mvcc.kvs].
    destruct (String.eqb_spec (path.Join (storage.rootPath kv) key')
                (strings.Join2 (storage.rootPath kv) key storage.delimiter))
      as [->|Hne].
    + rewrite lookup_remove. reflexivity.
    + rewrite lookup_remove_other; [reflexivity|].
      intros H. apply Hne. apply list_byte_of_string_inj. exact H.
  - exists kv. destruct kv as [[s u] root].
    cbn [storage.rootPath storage.client clientv3.unavailable clientv3.cluster]
      in *.
    subst u. split; [reflexivity|].
    repeat (split; [first [reflexivity | exact Hasc]|]).
    intros key'. rewrite Load_lookup by first [reflexivity | exact Hasc].
    cbn [storage.rootPath storage.client clientv3.cluster mvcc.kvs].
    destruct (String.eqb_spec (path.Join root key')
                (strings.Join2 root key storage.delimiter)) as [->|Hne];
      [rewrite Eold|]; reflexivity.
Qed.

(** X4. While the cluster cannot be reached every operation of the
    storage fails with its own kind of error wrapping the client's error, the
    writes log it, and the storage is left as it was. *)
Theorem storage_fails_when_unreachable (kv : storage.etcdKVBase)
    (key endKey value : string) (limit : Z) (err : error) :
  clientv3.unavailable (storage.client kv) = Some err ->
  storage.Load kv key = inr (storage.LoadFailed (Caused KVGetFailed err))
  /\ storage.LoadRange kv key endKey limit = inr (Caused KVGetFailed err)
  /\ storage.Save kv key value
     = (Some (Caused KVPutFailed err), kv,
        [CallLog Error "save to etcd meet error"])
  /\ storage.Remove kv key
     = (Some (Caused KVDeleteFailed err), kv,
        [CallLog Error "remove from etcd meet error"]).
Proof.
  intros Hun. destruct kv as [c root]. cbn [storage.client] in Hun.
  unfold storage.Load, storage.LoadRange, storage.Save, storage.Remove,
    clientv3.Get, clientv3.Put, clientv3.Delete.
  cbn [storage.client storage.rootPath]. rewrite Hun. repeat split.
Qed.

(** ** The KV storage: ranges after writes *)

(** The range end [LoadRange] asks for is never the one that means "every
    key from here on". *)
Lemma range_end_not_nul (root endKey : string) :
  bytes_eqb (list_byte_of_string (strings.Join2 root endKey storage.delimiter))
    [x00] = false.
Proof.
  unfold strings.Join2, storage.delimiter.
  destruct (bytes_eqb _ [x00]) eqn:E0; [|reflexivity].
  apply bytes_eqb_eq in E0.
  assert (Hi : In "/"%byte (list_byte_of_string (root ++ "/" ++ endKey))).
  { rewrite !list_byte_of_string_app. apply in_or_app. right. left. reflexivity. }
  rewrite E0 in Hi. destruct Hi as [Hi|[]]. discriminate.
Qed.

Lemma join_bytes (root key : string) :
  list_byte_of_string (strings.Join2 root key storage.delimiter)
  = (list_byte_of_string root ++ ["/"%byte]) ++ list_byte_of_string key.
Proof.
  unfold strings.Join2, storage.delimiter.
  rewrite !list_byte_of_string_app, <- app_assoc. reflexivity.
Qed.

(** Whether a key lies in the range [LoadRange] asks for. *)
Lemma selected_range (root key endKey : string) (k : bytes) :
  mvcc.selected
    (list_byte_of_string (strings.Join2 root key storage.delimiter))
    (list_byte_of_string (strings.Join2 root endKey storage.delimiter)) k
  = bytes_leb (list_byte_of_string (strings.Join2 root key storage.delimiter)) k
    && bytes_ltb k
         (list_byte_of_string (strings.Join2 root endKey storage.delimiter)).
Proof.
  unfold mvcc.selected.
  pose proof (range_end_not_nul root endKey) as Hn.
  destruct (list_byte_of_string (strings.Join2 root endKey storage.delimiter))
    as [|e es] eqn:Ee.
  - rewrite join_bytes in Ee. apply (f_equal (@List.length byte)) in Ee.
    rewrite !length_app in Ee. cbn in Ee. lia.
  - rewrite Hn. reflexivity.
Qed.

(** X5. A range whose end key is not above its start key is empty:
    [LoadRange] returns no entry, and no error, whatever the store holds and
    whatever the limit. *)
Theorem LoadRange_of_empty_range (kv : storage.etcdKVBase)
    (key endKey : string) (limit : Z) :
  clientv3.unavailable (storage.client kv) = None ->
  bytes_leb (list_byte_of_string endKey) (list_byte_of_string key) = true ->
  storage.LoadRange kv key endKey limit = inl ([], []).
Proof.
  intros Hav Hle. unfold storage.LoadRange, clientv3.Get. rewrite Hav.
  cbn [clientv3.Kvs clientv3.range_end_of clientv3.limit_of fold_left].
  assert (Hnone :
    filter (fun r =>
              mvcc.selected
                (list_byte_of_string
                   (strings.Join2 (storage.rootPath kv) key storage.delimiter))
                (list_byte_of_string
                   (strings.Join2 (storage.rootPath kv) endKey storage.delimiter))
                (mvccpb.Key r))
      (mvcc.kvs (clientv3.cluster (storage.client kv))) = []).
  { induction (mvcc.kvs (clientv3.cluster (storage.client kv))) as [|x l IH];
      [reflexivity|].
    cbn [filter]. rewrite selected_range.
    destruct (bytes_leb _ (mvccpb.Key x)) eqn:E1; [|exact IH].
    destruct (bytes_ltb (mvccpb.Key x) _) eqn:E2; [|exact IH].
    pose proof (bytes_leb_ltb_trans _ _ _ E1 E2) as Hlt.
    apply bytes_ltb_not_leb in Hlt.
    rewrite !join_bytes in Hlt. unfold bytes_leb in Hlt, Hle.
    rewrite bytes_compare_app in Hlt.
    destruct (bytes_compare (list_byte_of_string endKey) (list_byte_of_string key));
      discriminate. }
  unfold mvcc.range. rewrite Hnone.
  destruct (0 <? limit); [rewrite firstn_nil|]; reflexivity.
Qed.

(** A record put under the start key of a range is the first of the
    range. *)
Lemma filter_selected_upsert (lo hi : bytes) (kv0 : mvccpb.KeyValue)
    (l : list mvccpb.KeyValue) :
  mvccpb.Key kv0 = lo ->
  (forall k, mvcc.selected lo hi k = bytes_leb lo k && bytes_ltb k hi) ->
  bytes_ltb lo hi = true ->
  exists rest,
    filter (fun r => mvcc.selected lo hi (mvccpb.Key r)) (mvcc.upsert kv0 l)
    = kv0 :: rest.
Proof.
  intros Hk Hsel Hlt. subst lo.
  assert (H0 : mvcc.selected (mvccpb.Key kv0) hi (mvccpb.Key kv0) = true).
  { rewrite Hsel, Hlt. unfold bytes_leb. rewrite bytes_compare_refl.
    reflexivity. }
  induction l as [|x l IH]; cbn [mvcc.upsert].
  - cbn [filter]. rewrite H0. eauto.
  - destruct (bytes_compare (mvccpb.Key kv0) (mvccpb.Key x)) eqn:E.
    + cbn [filter]. rewrite H0. eauto.
    + cbn [filter]. rewrite H0. eauto.
    + cbn [filter]. rewrite Hsel. unfold bytes_leb at 1. rewrite E.
      cbn [andb]. exact IH.
Qed.

(** X6. After [Save] of a key, a [LoadRange] that starts at that key and
    ends above it returns the key, relative to the root path, and the saved
    value as its first entry, whatever else the store holds and whatever the
    limit. *)
Theorem Save_then_LoadRange (kv : storage.etcdKVBase)
    (key endKey value : string) (limit : Z) :
  clientv3.unavailable (storage.client kv) = None ->
  bytes_ltb (list_byte_of_string key) (list_byte_of_string endKey) = true ->
  exists kv1 keys values,
    storage.Save kv key value = (None, kv1, [])
    /\ storage.LoadRange kv1 key endKey limit = inl (key :: keys, value :: values).
Proof.
  intros Hav Hlt.
  assert (Hhead : exists rest,
    mvcc.range
      (mvcc.mkStore
         (mvcc.put_at (mvcc.rev (clientv3.cluster (storage.client kv)) + 1)
            (list_byte_of_string
               (strings.Join2 (storage.rootPath kv) key storage.delimiter))
            (list_byte_of_string value) 0
            (mvcc.kvs (clientv3.cluster (storage.client kv))))
         (mvcc.rev (clientv3.cluster (storage.client kv)) + 1))
      (list_byte_of_string
         (strings.Join2 (storage.rootPath kv) key storage.delimiter))
      (list_byte_of_string
         (strings.Join2 (storage.rootPath kv) endKey storage.delimiter))
      limit
    = mvccpb.mkKeyValue
        (list_byte_of_string
           (strings.Join2 (storage.rootPath kv) key storage.delimiter))
        match mvcc.lookup
                (list_byte_of_string
                   (strings.Join2 (storage.rootPath kv) key storage.delimiter))
                (mvcc.kvs (clientv3.cluster (storage.client kv))) with
        | Some old => mvccpb.CreateRevision old
        | None => mvcc.rev (clientv3.cluster (storage.client kv)) + 1
        end
        (mvcc.rev (clientv3.cluster (storage.client kv)) + 1)
        match mvcc.lookup
                (list_byte_of_string
                   (strings.Join2 (storage.rootPath kv) key storage.delimiter))
                (mvcc.kvs (clientv3.cluster (storage.client kv))) with
        | Some old => mvccpb.Version old + 1
        | None => 1
        end
        (list_byte_of_string value) 0 :: rest).
  { unfold mvcc.range, mvcc.put_at. cbn [mvcc.kvs].
    assert (Hlt' : bytes_ltb
      (list_byte_of_string
         (strings.Join2 (storage.rootPath kv) key storage.delimiter))
      (list_byte_of_string
         (strings.Join2 (storage.rootPath kv) endKey storage.delimiter)) = true).
    { rewrite !join_bytes. unfold bytes_ltb. rewrite bytes_compare_app.
      exact Hlt. }
    destruct (mvcc.lookup _ (mvcc.kvs (clientv3.cluster (storage.client kv))))
      as [old|];
      (match goal with
       | |- context [mvcc.upsert ?k ?l] =>
         destruct (filter_selected_upsert
                     (list_byte_of_string
                        (strings.Join2 (storage.rootPath kv) key
                           storage.delimiter)) _ k l eq_refl
                     (selected_range (storage.rootPath kv) key endKey) Hlt')
           as (rest & ->)
       end);
      (destruct (0 <? limit) eqn:El;
       [ destruct (Z.to_nat limit) as [|n] eqn:En; [blia|];
         cbn [firstn]; eauto
       | eauto ]). }
  destruct Hhead as (rest & Hhead).
  eexists. eexists. eexists. split.
  { unfold storage.Save, clientv3.Put. rewrite Hav. reflexivity. }
  unfold storage.LoadRange, clientv3.Get.
  cbn [storage.rootPath storage.client clientv3.unavailable clientv3.cluster
         clientv3.Kvs clientv3.range_end_of clientv3.limit_of].
  rewrite LoadRange_fold.
  change (clientv3.range_end_of _)
    with (list_byte_of_string
            (strings.Join2 (storage.rootPath kv) endKey storage.delimiter)).
  change (clientv3.limit_of _) with limit.
  rewrite Hhead. cbn [app map mvccpb.Key mvccpb.Value].
  rewrite !string_of_list_byte_of_string.
  unfold strings.Join2 at 1. rewrite TrimPrefix_app.
  unfold storage.delimiter at 1 2. rewrite TrimPrefix_app.
  reflexivity.
Qed.

(** X7. After [Remove] of a key on a cluster that answers, no range read
    returns that key, whatever the range and the limit. *)
Theorem Remove_then_LoadRange (kv : storage.etcdKVBase)
    (key lo hi : string) (limit : Z) :
  clientv3.unavailable (storage.client kv) = None ->
  exists kv1,
    storage.Remove kv key = (None, kv1, [])
    /\ forall keys values,
         storage.LoadRange kv1 lo hi limit = inl (keys, values) ->
         ~ In key keys.
Proof.
  intros Hav.
  assert (Hgone : forall kv1,
    storage.rootPath kv1 = storage.rootPath kv ->
    (forall item,
       In item (mvcc.kvs (clientv3.cluster (storage.client kv1))) ->
       bytes_eqb (mvccpb.Key item)
         (list_byte_of_string
            (strings.Join2 (storage.rootPath kv) key storage.delimiter))
       = false) ->
    forall keys values,
      storage.LoadRange kv1 lo hi limit = inl (keys, values) ->
      ~ In key keys).
  { intros kv1 Hroot Hnone keys values.
    unfold storage.LoadRange, clientv3.Get.
    destruct (clientv3.unavailable (storage.client kv1)); [discriminate|].
    cbn [clientv3.Kvs].
    change (clientv3.range_end_of _)
      with (list_byte_of_string
              (strings.Join2 (storage.rootPath kv1) hi storage.delimiter)).
    change (clientv3.limit_of _) with limit.
    rewrite LoadRange_fold. cbn [app]. intros [= <- _] Hin.
    apply in_map_iff in Hin. destruct Hin as (item & Hrel & Hitem).
    destruct (range_under_root _ _ _ _ _ item Hitem) as (Hstore & rel & Hk).
    rewrite Hk, TrimPrefix_app in Hrel. unfold storage.delimiter in Hrel.
    rewrite TrimPrefix_app in Hrel. subst rel.
    specialize (Hnone item Hstore).
    rewrite <- (list_byte_of_string_of_list_byte (mvccpb.Key item)) in Hnone.
    rewrite Hk, Hroot in Hnone. unfold strings.Join2, storage.delimiter in Hnone.
    rewrite bytes_eqb_refl in Hnone. discriminate. }
  unfold storage.Remove, clientv3.Delete, mvcc.delete. rewrite Hav.
  destruct (mvcc.lookup
              (list_byte_of_string
                 (strings.Join2 (storage.rootPath kv) key storage.delimiter))
              (mvcc.kvs (clientv3.cluster (storage.client kv))))
    as [old|] eqn:Eold.
  - eexists. split; [reflexivity|]. apply Hgone; [reflexivity|].
    cbn [storage.client clientv3.cluster mvcc.kvs]. intros item Hin.
    unfold mvcc.remove in Hin. apply filter_In in Hin.
    destruct Hin as (_ & Hne). destruct (bytes_eqb _ _); [discriminate|].
    reflexivity.
  - eexists. split; [reflexivity|]. apply Hgone; [reflexivity|].
    cbn [storage.client clientv3.cluster mvcc.kvs]. intros item Hin.
    unfold mvcc.lookup in Eold.
    exact (find_none _ _ Eold item Hin).
Qed.

(** ** The KV storage: keys that read back *)

Lemma elements_not_nil (p : string) : path.elements p <> [].
Proof.
  destruct p as [|c p]; cbn [path.elements]; [discriminate|].
  destruct (Ascii.eqb c "/"); [discriminate|].
  destruct (path.elements p); discriminate.
Qed.

(** A path is its elements joined by slashes. *)
Lemma concat_elements (p : string) : String.concat "/" (path.elements p) = p.
Proof.
  induction p as [|c p IH]; [reflexivity|].
  cbn [path.elements].
  pose proof (elements_not_nil p) as Hne.
  destruct (Ascii.eqb_spec c "/") as [->|Hc].
  - destruct (path.elements p) as [|e es]; [contradiction|].
    change (String.concat "/" (EmptyString :: e :: es))
      with (String "/" (String.concat "/" (e :: es))).
    rewrite IH. reflexivity.
  - destruct (path.elements p) as [|e es]; [contradiction|].
    rewrite <- IH. destruct es; reflexivity.
Qed.

(** The elements of two paths joined by a slash. *)
Lemma elements_join (a b : string) :
  path.elements (a ++ "/" ++ b) = path.elements a ++ path.elements b.
Proof.
  induction a as [|c a IH]; [reflexivity|].
  cbn [String.append path.elements].
  change (a ++ String "/" b)%string with (a ++ "/" ++ b)%string.
  rewrite IH.
  destruct (Ascii.eqb c "/"); [reflexivity|].
  pose proof (elements_not_nil a) as Hne.
  destruct (path.elements a) as [|e es]; [contradiction | reflexivity].
Qed.

(** [Clean] keeps a run of names. *)
Lemma clean_names (rooted : bool) (names : list string) :
  Forall (fun e => path.is_name e = true) names ->
  forall out,
    fold_left (path.clean_step rooted) names out = rev names ++ out.
Proof.
  induction 1 as [|e names He _ IH]; intros out; [reflexivity|].
  cbn [fold_left rev]. rewrite IH, <- app_assoc. cbn [app].
  unfold path.clean_step, path.is_name in *.
  destruct (String.eqb e ""); [discriminate|].
  destruct (String.eqb e "."); [discriminate|].
  destruct (String.eqb e ".."); [discriminate|].
  reflexivity.
Qed.

(** A rooted path made of names is clean. *)
Lemma Clean_rooted_names (p : string) (names : list string) :
  path.elements p = EmptyString :: names ->
  names <> [] ->
  Forall (fun e => path.is_name e = true) names ->
  path.Clean p = p.
Proof.
  intros He Hne Hnames. destruct p as [|c p]; [cbn in He; congruence|].
  cbn [path.elements] in He. unfold path.Clean.
  destruct (Ascii.eqb_spec c "/") as [->|Hc].
  - injection He as He.
    cbn [path.elements]. change (Ascii.eqb "/" "/") with true. cbv iota.
    cbn [fold_left]. change (path.clean_step true [] "") with (@nil string).
    rewrite He, (clean_names true names Hnames), app_nil_r, rev_involutive.
    rewrite <- He, concat_elements. reflexivity.
  - destruct (path.elements p); discriminate.
Qed.

(** [path.Join] of a rooted root path made of names and a key made of
    names is the two joined by a slash, as [Save] writes it. *)
Lemma Join_names (root key : string) (rnames : list string) :
  path.elements root = EmptyString :: rnames ->
  rnames <> [] ->
  Forall (fun e => path.is_name e = true) rnames ->
  Forall (fun e => path.is_name e = true) (path.elements key) ->
  path.Join root key = strings.Join2 root key storage.delimiter.
Proof.
  intros He Hne Hr Hk. unfold strings.Join2, storage.delimiter, path.Join.
  destruct root as [|c root]; [cbn in He; congruence|].
  apply (Clean_rooted_names _ (rnames ++ path.elements key)).
  - rewrite elements_join, He. reflexivity.
  - destruct rnames; [contradiction | discriminate].
  - apply Forall_app. auto.
Qed.

Lemma Join2_inj (root key key' : string) :
  strings.Join2 root key storage.delimiter
  = strings.Join2 root key' storage.delimiter ->
  key = key'.
Proof.
  unfold strings.Join2. induction root as [|c root IH]; cbn [String.append].
  - intros [= H]. exact H.
  - intros [= H]. exact (IH H).
Qed.

(** X8. Under a rooted root path made of names ([/a/b]), on a cluster
    that answers, a key made of names separated by single slashes reads back:
    after [Save] of the key, [Load] of the same key returns the saved value,
    and [Load] of any other such key returns what it returned before. *)
Theorem Save_Load_round_trip (kv : storage.etcdKVBase) (key value : string)
    (rnames : list string) :
  clientv3.unavailable (storage.client kv) = None ->
  mvcc.ascending (mvcc.kvs (clientv3.cluster (storage.client kv))) ->
  path.elements (storage.rootPath kv) = EmptyString :: rnames ->
  rnames <> [] ->
  Forall (fun e => path.is_name e = true) rnames ->
  Forall (fun e => path.is_name e = true) (path.elements key) ->
  exists kv1,
    storage.Save kv key value = (None, kv1, [])
    /\ storage.Load kv1 key = inl value
    /\ forall key',
         Forall (fun e => path.is_name e = true) (path.elements key') ->
         key' <> key ->
         storage.Load kv1 key' = storage.Load kv key'.
Proof.
  intros Hav Hasc He Hne Hr Hk. unfold storage.Save, clientv3.Put. rewrite Hav.
  eexists. split; [reflexivity|].
  pose proof (ascending_put_at
    (mvcc.rev (clientv3.cluster (storage.client kv)) + 1)
    (list_byte_of_string
       (strings.Join2 (storage.rootPath kv) key storage.delimiter))
    (list_byte_of_string value) 0
    (mvcc.kvs (clientv3.cluster (storage.client kv))) Hasc) as Hasc1.
  split.
  - rewrite Load_lookup by first [reflexivity | exact Hasc1].
    cbn [storage.rootPath storage.client clientv3.cluster mvcc.kvs].
    rewrite (Join_names _ key rnames He Hne Hr Hk).
    destruct (lookup_put_at
                (mvcc.rev (clientv3.cluster (storage.client kv)) + 1)
                (list_byte_of_string
                   (strings.Join2 (storage.rootPath kv) key storage.delimiter))
                (list_byte_of_string value) 0
                (mvcc.kvs (clientv3.cluster (storage.client kv))))
      as (kv0 & -> & _ & -> & _).
    rewrite string_of_list_byte_of_string. reflexivity.
  - intros key' Hk' Hdiff. rewrite (Load_lookup kv key' Hav Hasc).
    rewrite Load_lookup by first [reflexivity | exact Hasc1].
    cbn [storage.rootPath storage.client clientv3.cluster mvcc.kvs].
    rewrite (Join_names _ key' rnames He Hne Hr Hk').
    rewrite lookup_put_at_other; [reflexivity|].
    intros H. apply Hdiff. apply list_byte_of_string_inj in H.
    exact (Join2_inj _ _ _ H).
Qed.

(** ** The campaign: what it leaves in the store *)

Section CampaignStore.

Context {St : Type} {clusterKV : ClusterKV St}.

Variables nameNum idNum : Z.

(** A name that is not valid UTF-8 does not serialize. *)
Lemma Marshal_invalid_name (m : member.Member) :
  utf8.ValidString (member.Name m) = false ->
  member.Marshal nameNum idNum m
  = inr (Caused MarshalMemberFailed ProtoInvalidUTF8).
Proof.
  intros Hbad. unfold member.Marshal, proto.Marshal.
  assert (HN : forall b,
    proto.appendName nameNum b (metapb.mkMember (member.Name m) (member.ID m))
    = inr ProtoInvalidUTF8).
  { intros b. unfold proto.appendName. cbn [metapb.Name].
    destruct (member.Name m) as [|c s]; [discriminate Hbad|].
    cbn [String.length Nat.eqb]. rewrite Hbad. reflexivity. }
  destruct (nameNum <? idNum).
  - rewrite HN. reflexivity.
  - unfold proto.appendId.
    destruct (metapb.Id _ =? 0); rewrite HN; reflexivity.
Qed.

(** X9. A member whose name is not valid UTF-8 cannot campaign: the call
    returns [MarshalMemberFailed] caused by the encoder's error before it
    asks for a lease, so that nothing is granted, written, logged or waited
    for. *)
Theorem Campaign_invalid_name (fuel : nat) (m : member.Member)
    (ctx : context.Context) (rawLease : lease.RawLease) (leaseTTLSec : Z)
    (w : World St) :
  utf8.ValidString (member.Name m) = false ->
  member.CampaignAndKeepLeader nameNum idNum fuel m ctx rawLease leaseTTLSec w
  = (Returned (Some (Caused MarshalMemberFailed ProtoInvalidUTF8)), w).
Proof.
  intros Hbad. unfold member.CampaignAndKeepLeader.
  rewrite (Marshal_invalid_name m Hbad). reflexivity.
Qed.

(** A campaign whose lease is not granted leaves the store alone. *)
Lemma Campaign_grant_fails_kv (fuel : nat) (m : member.Member)
    (ctx : context.Context) (rawLease : lease.RawLease) (leaseTTLSec : Z)
    (w : World St) (leaderVal : string) (err : error) :
  member.Marshal nameNum idNum m = inl leaderVal ->
  lease.grantReply rawLease = inr err ->
  kv (snd (member.CampaignAndKeepLeader nameNum idNum fuel m ctx rawLease
             leaseTTLSec w)) = kv w.
Proof.
  intros HM Hg. unfold member.CampaignAndKeepLeader. rewrite HM.
  unfold lease.Grant, lease.newLease. run_world.
  cbn [lease.rawLease lease.ttlSec lease.ID]. rewrite Hg.
  destruct (waits w); reflexivity.
Qed.

(** X10. When the lease is not granted the campaign returns the error of
    the lease handle as it is, [LeaseGrantFailed] wrapping the cause, and the
    grant is its only call: no transaction is sent, the store is as it was
    and there is no lease to close. *)
Theorem Campaign_grant_fails (fuel : nat) (m : member.Member)
    (ctx : context.Context) (rawLease : lease.RawLease) (leaseTTLSec : Z)
    (w : World St) (leaderVal : string) (cause : error) :
  member.Marshal nameNum idNum m = inl leaderVal ->
  lease.grantReply rawLease = inr cause ->
  fst (member.CampaignAndKeepLeader nameNum idNum fuel m ctx rawLease
         leaseTTLSec w) = Returned (Some (Caused LeaseGrantFailed cause))
  /\ calls (snd (member.CampaignAndKeepLeader nameNum idNum fuel m ctx rawLease
                   leaseTTLSec w))
     = calls w ++ [CallLeaseGrant leaseTTLSec]
  /\ kv (snd (member.CampaignAndKeepLeader nameNum idNum fuel m ctx rawLease
                leaseTTLSec w)) = kv w.
Proof.
  intros HM Hg. unfold member.CampaignAndKeepLeader. rewrite HM.
  unfold lease.Grant, lease.newLease. run_world.
  cbn [lease.rawLease lease.ttlSec lease.ID]. rewrite Hg.
  destruct (waits w); cbn [fst snd calls kv]; auto.
Qed.

(** Whichever way the transaction of a campaign goes, the store is left as
    the transaction left it, neither the close of the lease nor the
    monitoring loop writing; and the campaign has won exactly when the
    transaction succeeded. *)
Lemma Campaign_effect (fuel : nat) (m : member.Member)
    (ctx : context.Context) (rawLease : lease.RawLease) (leaseTTLSec : Z)
    (w : World St) (leaderVal : string) (id : Z) :
  member.Marshal nameNum idNum m = inl leaderVal ->
  lease.grantReply rawLease = inl id ->
  kv (snd (member.CampaignAndKeepLeader nameNum idNum fuel m ctx rawLease
             leaseTTLSec w))
  = snd (kvCommit (member.campaign_ctx m ctx rawLease leaseTTLSec w)
           [clientv3.Compare (clientv3.CreateRevision (member.leaderKey m)) "=" 0]
           [clientv3.OpPut (member.leaderKey m) leaderVal [clientv3.WithLease id]]
           (member.campaign_txn_at ctx rawLease leaseTTLSec w)
           (kv w))
  /\ member.won
       (fst (member.CampaignAndKeepLeader nameNum idNum fuel m ctx rawLease
               leaseTTLSec w))
     = clientv3.succeeded
         (member.campaign_txn_reply m ctx rawLease leaseTTLSec leaderVal id w).
Proof.
  intros HM Hg.
  unfold member.CampaignAndKeepLeader, member.campaign_txn_reply,
    member.campaign_txn_at, member.campaign_ctx.
  rewrite HM.
  unfold lease.Grant, lease.newLease, member.clusterKV_Txn_Commit, lease.Close,
    lease.KeepAlive.
  run_world. cbn [lease.rawLease lease.ttlSec lease.ID]. rewrite Hg.
  destruct (waits w) as [|d1 [|d2 [|d3 ws]]];
    cbn [fst snd now waits tickFirst kv calls];
    destruct (kvCommit _ _ _ _ (kv w)) as [[resp|err] s'];
    cbn [fst snd now waits tickFirst kv calls clientv3.succeeded].
  all: try (destruct (clientv3.Succeeded resp);
            cbn [negb lease.rawLease lease.ttlSec lease.ID]).
  all: cbn [fst snd now waits tickFirst kv calls lease.rawLease lease.ttlSec
              lease.ID].
  all: try (destruct (lease.closeReply rawLease); split; reflexivity).
  all: match goal with
       | |- kv (snd (member.keep_leader ?f ?m ?l ?c ?n ?W)) = _ /\ _ =>
         destruct (keep_leader_calls f m l c n W) as (_ & -> & [-> | ->])
       end; split; reflexivity.
Qed.

Lemma Campaign_kv (fuel : nat) (m : member.Member)
    (ctx : context.Context) (rawLease : lease.RawLease) (leaseTTLSec : Z)
    (w : World St) (leaderVal : string) (id : Z) :
  member.Marshal nameNum idNum m = inl leaderVal ->
  lease.grantReply rawLease = inl id ->
  kv (snd (member.CampaignAndKeepLeader nameNum idNum fuel m ctx rawLease
             leaseTTLSec w))
  = snd (kvCommit (member.campaign_ctx m ctx rawLease leaseTTLSec w)
           [clientv3.Compare (clientv3.CreateRevision (member.leaderKey m)) "=" 0]
           [clientv3.OpPut (member.leaderKey m) leaderVal [clientv3.WithLease id]]
           (member.campaign_txn_at ctx rawLease leaseTTLSec w)
           (kv w)).
Proof.
  intros HM Hg.
  exact (proj1 (Campaign_effect fuel m ctx rawLease leaseTTLSec w leaderVal id
                  HM Hg)).
Qed.

(** A campaign that stops at [Marshal] or at the grant has not won and
    leaves the store alone. *)
Lemma Campaign_early (fuel : nat) (m : member.Member)
    (ctx : context.Context) (rawLease : lease.RawLease) (leaseTTLSec : Z)
    (w : World St) :
  (forall leaderVal id,
     member.Marshal nameNum idNum m = inl leaderVal ->
     lease.grantReply rawLease = inl id -> False) ->
  kv (snd (member.CampaignAndKeepLeader nameNum idNum fuel m ctx rawLease
             leaseTTLSec w)) = kv w
  /\ member.won
       (fst (member.CampaignAndKeepLeader nameNum idNum fuel m ctx rawLease
               leaseTTLSec w)) = false.
Proof.
  intros Hno. unfold member.CampaignAndKeepLeader.
  destruct (member.Marshal nameNum idNum m) as [leaderVal|err] eqn:HM;
    [|split; reflexivity].
  unfold lease.Grant, lease.newLease. run_world.
  cbn [lease.rawLease lease.ttlSec lease.ID].
  destruct (lease.grantReply rawLease) as [id|err] eqn:Hg.
  - exfalso. exact (Hno leaderVal id eq_refl eq_refl).
  - destruct (waits w); split; reflexivity.
Qed.

End CampaignStore.

(** ** The member manager on the etcd key space *)

(** A context that is not done returns no error. *)
Lemma Err_live (ctx : context.Context) (t : Z) :
  context.Done ctx t = false -> context.Err ctx t = None.
Proof. unfold context.Err. intros ->. reflexivity. Qed.

Lemma Err_done (ctx : context.Context) (t : Z) :
  context.Done ctx t = true -> context.Err ctx t = Some (context.cause ctx).
Proof. unfold context.Err. intros ->. reflexivity. Qed.


(** The same transaction on a key space that holds the leader key: it
    writes nothing, and its reply is the context's error when the context is
    done and a response that did not succeed otherwise. *)
Lemma campaign_commit_present (ctx : context.Context) (t : Z)
    (c : clientv3.Client) (key val : string) (id : Z) (kv0 : mvccpb.KeyValue) :
  clientv3.unavailable c = None ->
  mvcc.lookup (list_byte_of_string key) (mvcc.kvs (clientv3.cluster c)) = Some kv0 ->
  mvccpb.CreateRevision kv0 <> 0 ->
  kvCommit ctx
    [clientv3.Compare (clientv3.CreateRevision key) "=" 0]
    [clientv3.OpPut key val [clientv3.WithLease id]] t c
  = (match context.Err ctx t with
     | Some err => inr err
     | None =>
       inl (clientv3.mkTxnResponse false (mvcc.rev (clientv3.cluster c)))
     end, c).
Proof.
  intros Hav Hk Hne. cbn [kvCommit etcdKV].
  destruct (context.Err ctx t); [reflexivity|].
  unfold clientv3.Commit, clientv3.commit. rewrite Hav.
  cbn [forallb]. unfold clientv3.holds, clientv3.target_value, clientv3.Compare,
    clientv3.CreateRevision.
  cbn [clientv3.Result clientv3.TargetValue clientv3.CmpKey clientv3.Target].
  rewrite Hk. change (String.eqb "=" "=") with true. cbv iota.
  destruct (mvccpb.CreateRevision kv0 =? 0) eqn:E; [blia|].
  cbn [andb fold_left]. destruct c as [s u]. cbn in Hav. subst u. reflexivity.
Qed.

Section ManagerOnEtcd.

Variables nameNum idNum : Z.

(** [GetLeader] on a cluster that answers, as a lookup in its key space,
    when its context is not done as the read is answered. *)
Lemma GetLeader_lookup (m : member.Member) (ctx : context.Context)
    (w : World clientv3.Client) :
  clientv3.unavailable (kv w) = None ->
  mvcc.ascending (mvcc.kvs (clientv3.cluster (kv w))) ->
  context.Done (context.WithTimeout ctx (member.rpcTimeout m) (now w))
    (now (snd (block w))) = false ->
  fst (member.GetLeader nameNum idNum m ctx w)
  = match mvcc.lookup (list_byte_of_string (member.leaderKey m))
            (mvcc.kvs (clientv3.cluster (kv w))) with
    | None => inl (member.mkGetLeaderResp None 0)
    | Some leaderKv =>
      match proto.Unmarshal nameNum idNum (mvccpb.Value leaderKv) with
      | inr err => inr (Caused InvalidLeaderValue err)
      | inl leader =>
        inl (member.mkGetLeaderResp (Some leader) (mvccpb.ModRevision leaderKv))
      end
    end.
Proof.
  intros Hav Hasc Hlive. rewrite GetLeader_result.
  cbn [kvGet etcdKV]. rewrite (Err_live _ _ Hlive). cbn [fst].
  unfold clientv3.Get. rewrite Hav.
  cbn [clientv3.Kvs clientv3.range_end_of clientv3.limit_of fold_left].
  unfold mvcc.range, mvcc.selected. change (0 <? 0) with false. cbv iota.
  rewrite (filter_key_ascending _ _ Hasc).
  destruct (mvcc.lookup _ _) as [leaderKv|]; reflexivity.
Qed.

(** [GetLeader] leaves the store of the etcd client as it was. *)
Lemma GetLeader_kv (m : member.Member) (ctx : context.Context)
    (w : World clientv3.Client) :
  kv (snd (member.GetLeader nameNum idNum m ctx w)) = kv w.
Proof.
  unfold member.GetLeader, member.clusterKV_Get. run_world.
  cbn [kvGet etcdKV].
  destruct (waits w); cbn [fst snd now waits tickFirst kv calls];
    destruct (context.Err _ _); cbn [fst snd]; try reflexivity;
    destruct (clientv3.Get (kv w) _ _) as [resp|err]; cbn [fst snd];
    try reflexivity;
    destruct (clientv3.Kvs resp) as [|leaderKv [|kv2 more]]; try reflexivity;
    destruct (proto.Unmarshal nameNum idNum (mvccpb.Value leaderKv));
    reflexivity.
Qed.

(** X11. On an etcd cluster that answers, whose key space holds no key
    twice, [GetLeader] reads only, and its result is decided by its context
    and the leader key. When its context, the caller's bounded by
    [rpcTimeout], is done as the read is answered, it fails with
    [GetLeaderFailed] wrapping the context's error, although the cluster is
    up. Otherwise it never reports [MultipleLeaders] or [GetLeaderFailed]: it
    returns no leader with revision 0 when the leader key is absent, and
    otherwise the decoded record with the revision of its last write, or
    [InvalidLeaderValue] when the value does not decode. *)
Theorem GetLeader_on_etcd (m : member.Member) (ctx : context.Context)
    (w : World clientv3.Client) :
  clientv3.unavailable (kv w) = None ->
  mvcc.ascending (mvcc.kvs (clientv3.cluster (kv w))) ->
  kv (snd (member.GetLeader nameNum idNum m ctx w)) = kv w
  /\ (context.Done (context.WithTimeout ctx (member.rpcTimeout m) (now w))
         (now (snd (block w))) = true ->
      fst (member.GetLeader nameNum idNum m ctx w)
      = inr (Caused GetLeaderFailed
               (context.cause
                  (context.WithTimeout ctx (member.rpcTimeout m) (now w)))))
  /\ (context.Done (context.WithTimeout ctx (member.rpcTimeout m) (now w))
         (now (snd (block w))) = false ->
      fst (member.GetLeader nameNum idNum m ctx w) <> inr ErrMultipleLeader
      /\ (forall cause,
            fst (member.GetLeader nameNum idNum m ctx w)
            <> inr (Caused GetLeaderFailed cause))
      /\ (mvcc.lookup (list_byte_of_string (member.leaderKey m))
            (mvcc.kvs (clientv3.cluster (kv w))) = None ->
          fst (member.GetLeader nameNum idNum m ctx w)
          = inl (member.mkGetLeaderResp None 0))
      /\ (forall leaderKv,
            mvcc.lookup (list_byte_of_string (member.leaderKey m))
              (mvcc.kvs (clientv3.cluster (kv w))) = Some leaderKv ->
            fst (member.GetLeader nameNum idNum m ctx w)
            = match proto.Unmarshal nameNum idNum (mvccpb.Value leaderKv) with
              | inr err => inr (Caused InvalidLeaderValue err)
              | inl leader =>
                inl (member.mkGetLeaderResp (Some leader)
                       (mvccpb.ModRevision leaderKv))
              end)).
Proof.
  intros Hav Hasc. split; [apply GetLeader_kv|]. split.
  - intros Hdone. rewrite GetLeader_result. cbn [kvGet etcdKV].
    rewrite (Err_done _ _ Hdone). reflexivity.
  - intros Hlive. rewrite (GetLeader_lookup m ctx w Hav Hasc Hlive).
    repeat split.
    + destruct (mvcc.lookup _ _) as [leaderKv|]; [|discriminate].
      destruct (proto.Unmarshal _ _ _); discriminate.
    + intros cause. destruct (mvcc.lookup _ _) as [leaderKv|]; [|discriminate].
      destruct (proto.Unmarshal _ _ _); discriminate.
    + intros ->. reflexivity.
    + intros leaderKv ->. reflexivity.
Qed.

Hypothesis nameNum_valid :
  protowire.MinValidNumber <= nameNum <= protowire.MaxValidNumber.
Hypothesis idNum_valid :
  protowire.MinValidNumber <= idNum <= protowire.MaxValidNumber.
Hypothesis nums_distinct : nameNum <> idNum.


End ManagerOnEtcd.

(** ** Elections on the etcd key space *)

(** C6. [ResetLeader] makes one call, the delete of the leader key, with
    no read before it, and leaves the store as that delete left it; it
    succeeds whenever the delete does, and fails with [ResetLeaderFailed]
    wrapping the cause exactly when the delete errors. On an etcd cluster
    that answers, under a context that is not done as the delete is
    answered, it returns nil whatever the leader key held, present or
    absent: afterwards the leader key is absent and every other key is as it
    was, and when the key was absent the key space is as it was. *)
Theorem C6_ResetLeader_unconditional :
  (forall (St : Type) (clusterKV : ClusterKV St) (m : member.Member)
          (ctx : context.Context) (w : World St),
      calls (snd (member.ResetLeader m ctx w))
      = calls w ++ [CallKVDelete (member.leaderKey m)]
      /\ kv (snd (member.ResetLeader m ctx w))
         = snd (kvDelete (context.WithTimeout ctx (member.rpcTimeout m) (now w))
                  (member.leaderKey m) (now (snd (block w))) (kv w))
      /\ (forall resp,
            fst (kvDelete (context.WithTimeout ctx (member.rpcTimeout m) (now w))
                   (member.leaderKey m) (now (snd (block w))) (kv w))
            = inl resp ->
            fst (member.ResetLeader m ctx w) = None)
      /\ (forall e,
            fst (member.ResetLeader m ctx w) = Some e
            <-> exists cause,
                fst (kvDelete
                       (context.WithTimeout ctx (member.rpcTimeout m) (now w))
                       (member.leaderKey m) (now (snd (block w))) (kv w))
                = inr cause
                /\ e = Caused ResetLeaderFailed cause))
  /\ (forall (m : member.Member) (ctx : context.Context)
             (w : World clientv3.Client),
        clientv3.unavailable (kv w) = None ->
        context.Done (context.WithTimeout ctx (member.rpcTimeout m) (now w))
          (now (snd (block w))) = false ->
        fst (member.ResetLeader m ctx w) = None
        /\ mvcc.lookup (list_byte_of_string (member.leaderKey m))
             (mvcc.kvs (clientv3.cluster
                          (kv (snd (member.ResetLeader m ctx w))))) = None
        /\ (forall key,
              key <> list_byte_of_string (member.leaderKey m) ->
              mvcc.lookup key
                (mvcc.kvs (clientv3.cluster
                             (kv (snd (member.ResetLeader m ctx w)))))
              = mvcc.lookup key (mvcc.kvs (clientv3.cluster (kv w))))
        /\ (mvcc.lookup (list_byte_of_string (member.leaderKey m))
               (mvcc.kvs (clientv3.cluster (kv w))) = None ->
            clientv3.cluster (kv (snd (member.ResetLeader m ctx w)))
            = clientv3.cluster (kv w))).
Proof.
  split.
  - intros St clusterKV m ctx w. split; [apply ResetLeader_calls|].
    split; [apply ResetLeader_store|].
    rewrite ResetLeader_result.
    destruct (fst (kvDelete _ _ _ (kv w))) as [resp|err].
    + split; [reflexivity|]. intros e. split; [discriminate|].
      intros (cause & H & _). discriminate.
    + split; [discriminate|]. intros e. split.
      * intros [= <-]. exists err. auto.
      * intros (cause & [= <-] & ->). reflexivity.
  - intros m ctx w Hav Hlive.
    rewrite ResetLeader_result, ResetLeader_store. cbn [kvDelete etcdKV].
    rewrite (Err_live _ _ Hlive).
    unfold clientv3.Delete, mvcc.delete. rewrite Hav.
    destruct (mvcc.lookup (list_byte_of_string (member.leaderKey m))
                (mvcc.kvs (clientv3.cluster (kv w)))) as [old|] eqn:Eold;
      cbn [fst snd clientv3.cluster mvcc.kvs].
    + split; [reflexivity|]. split; [apply lookup_remove|].
      split; [|discriminate].
      intros key Hne. apply lookup_remove_other. exact Hne.
    + split; [reflexivity|]. split; [exact Eold|]. split; reflexivity.
Qed.

Section ElectionOnEtcd.

Variables nameNum idNum : Z.

(** X13. A campaign on an etcd cluster that answers and already holds a
    leader key loses at once, whatever the number of monitoring rounds
    allowed: it returns [TxnPutLeaderFailed], caused by the context's error
    when the context of the transaction is done as the transaction is
    answered and by the formatted response otherwise, and the store is
    exactly as it was, so that the leader in place is not overwritten. *)
Theorem Campaign_against_leader (fuel : nat) (m : member.Member)
    (ctx : context.Context) (rawLease : lease.RawLease) (leaseTTLSec : Z)
    (w : World clientv3.Client) (leaderVal : string) (id : Z)
    (leaderKv : mvccpb.KeyValue) :
  member.Marshal nameNum idNum m = inl leaderVal ->
  lease.grantReply rawLease = inl id ->
  clientv3.unavailable (kv w) = None ->
  mvcc.lookup (list_byte_of_string (member.leaderKey m))
    (mvcc.kvs (clientv3.cluster (kv w))) = Some leaderKv ->
  mvccpb.CreateRevision leaderKv <> 0 ->
  fst (member.CampaignAndKeepLeader nameNum idNum fuel m ctx rawLease
         leaseTTLSec w)
  = Returned
      (Some (Caused TxnPutLeaderFailed
               match context.Err
                       (member.campaign_ctx m ctx rawLease leaseTTLSec w)
                       (member.campaign_txn_at ctx rawLease leaseTTLSec w) with
               | Some err => err
               | None => Formatted "txn put leader failed, resp:%v"
               end))
  /\ kv (snd (member.CampaignAndKeepLeader nameNum idNum fuel m ctx rawLease
                leaseTTLSec w)) = kv w.
Proof.
  intros HM Hg Hav Hk Hne.
  split.
  - unfold member.CampaignAndKeepLeader, member.campaign_ctx,
      member.campaign_txn_at.
    rewrite HM.
    unfold lease.Grant, lease.newLease, member.clusterKV_Txn_Commit,
      lease.Close, lease.KeepAlive.
    run_world. cbn [lease.rawLease lease.ttlSec lease.ID]. rewrite Hg.
    destruct (waits w) as [|d1 [|d2 [|d3 ws]]];
      cbn [fst snd now waits tickFirst kv calls lease.rawLease lease.ttlSec
             lease.ID];
      rewrite (campaign_commit_present _ _ (kv w) (member.leaderKey m)
                 leaderVal id leaderKv Hav Hk Hne);
      destruct (context.Err _ _);
      cbn [clientv3.Succeeded negb lease.rawLease lease.ttlSec lease.ID];
      destruct (lease.closeReply rawLease); reflexivity.
  - rewrite (Campaign_kv nameNum idNum fuel m ctx rawLease leaseTTLSec w
               leaderVal id HM Hg).
    rewrite (campaign_commit_present _ _ (kv w) (member.leaderKey m) leaderVal
               id leaderKv Hav Hk Hne).
    reflexivity.
Qed.


(** Different root paths have different leader keys. *)
Lemma formatLeaderKey_inj (root root' : string) :
  member.formatLeaderKey root = member.formatLeaderKey root' -> root = root'.
Proof.
  unfold member.formatLeaderKey. intros H.
  apply (f_equal list_byte_of_string) in H.
  rewrite !list_byte_of_string_app in H. apply app_inv_tail in H.
  apply list_byte_of_string_inj. exact H.
Qed.

(** The transaction of a campaign leaves every key but its own alone. *)
Lemma campaign_commit_other (ctx : context.Context) (t : Z)
    (c : clientv3.Client) (key val : string) (id : Z) (k : bytes) :
  k <> list_byte_of_string key ->
  mvcc.lookup k
    (mvcc.kvs (clientv3.cluster
                 (snd (kvCommit ctx
                         [clientv3.Compare (clientv3.CreateRevision key) "=" 0]
                         [clientv3.OpPut key val [clientv3.WithLease id]] t c))))
  = mvcc.lookup k (mvcc.kvs (clientv3.cluster c)).
Proof.
  intros Hne. cbn [kvCommit etcdKV].
  destruct (context.Err ctx t); [reflexivity|].
  unfold clientv3.Commit, clientv3.commit.
  destruct (clientv3.unavailable c); [reflexivity|].
  destruct (forallb _ _); cbn [fold_left clientv3.apply_op snd clientv3.cluster
                                 mvcc.kvs]; [|reflexivity].
  apply lookup_put_at_other. exact Hne.
Qed.

(** X15. A campaign, whichever way it goes, writes no key but the leader
    key of its own root path: every other key of the store, and so the
    leader key of every other root path, holds what it held before. *)
Theorem Campaign_keeps_other_keys (fuel : nat) (root root' : string) (id : Z)
    (name : string) (etcdLeaderGetter : Z -> Z) (rpcTimeout : Z)
    (ctx : context.Context) (rawLease : lease.RawLease) (leaseTTLSec : Z)
    (w : World clientv3.Client) :
  root' <> root ->
  let m := member.NewMember root id name etcdLeaderGetter rpcTimeout in
  let w' := snd (member.CampaignAndKeepLeader nameNum idNum fuel m ctx rawLease
                   leaseTTLSec w) in
  (forall key,
     key <> list_byte_of_string (member.formatLeaderKey root) ->
     mvcc.lookup key (mvcc.kvs (clientv3.cluster (kv w')))
     = mvcc.lookup key (mvcc.kvs (clientv3.cluster (kv w))))
  /\ mvcc.lookup (list_byte_of_string (member.formatLeaderKey root'))
       (mvcc.kvs (clientv3.cluster (kv w')))
     = mvcc.lookup (list_byte_of_string (member.formatLeaderKey root'))
         (mvcc.kvs (clientv3.cluster (kv w))).
Proof.
  intros Hroot m w'.
  assert (Hother : forall key,
    key <> list_byte_of_string (member.formatLeaderKey root) ->
    mvcc.lookup key (mvcc.kvs (clientv3.cluster (kv w')))
    = mvcc.lookup key (mvcc.kvs (clientv3.cluster (kv w)))).
  { intros key Hne. unfold w'.
    destruct (member.Marshal nameNum idNum m) as [leaderVal|err] eqn:HM.
    - destruct (lease.grantReply rawLease) as [lid|err] eqn:Hg.
      + rewrite (Campaign_kv nameNum idNum fuel m ctx rawLease leaseTTLSec w
                   leaderVal lid HM Hg).
        apply campaign_commit_other. exact Hne.
      + rewrite (Campaign_grant_fails_kv nameNum idNum fuel m ctx rawLease
                   leaseTTLSec w leaderVal err HM Hg).
        reflexivity.
    - unfold member.CampaignAndKeepLeader. rewrite HM. reflexivity. }
  split; [exact Hother|]. apply Hother.
  intros H. apply list_byte_of_string_inj, formatLeaderKey_inj in H.
  contradiction.
Qed.

(** One campaign of a race on the etcd key space: the key space stays
    sound; the campaign wins only when the leader key was absent, and then
    the key is there; and when it has not won the store is as it was. *)
Lemma campaign_on_etcd (fuel : nat) (m : member.Member)
    (ctx : context.Context) (rawLease : lease.RawLease) (leaseTTLSec : Z)
    (w : World clientv3.Client) :
  mvcc.sound_at (list_byte_of_string (member.leaderKey m))
    (clientv3.cluster (kv w)) ->
  let r := member.CampaignAndKeepLeader nameNum idNum fuel m ctx rawLease
             leaseTTLSec w in
  mvcc.sound_at (list_byte_of_string (member.leaderKey m))
    (clientv3.cluster (kv (snd r)))
  /\ (member.won (fst r) = true ->
      mvcc.lookup (list_byte_of_string (member.leaderKey m))
        (mvcc.kvs (clientv3.cluster (kv w))) = None
      /\ exists kv0,
          mvcc.lookup (list_byte_of_string (member.leaderKey m))
            (mvcc.kvs (clientv3.cluster (kv (snd r)))) = Some kv0)
  /\ (member.won (fst r) = false -> kv (snd r) = kv w).
Proof.
  intros Hs r. unfold r.
  destruct (member.Marshal nameNum idNum m) as [leaderVal|err] eqn:HM.
  - destruct (lease.grantReply rawLease) as [id|err] eqn:Hg.
    + destruct (Campaign_effect nameNum idNum fuel m ctx rawLease leaseTTLSec w
                  leaderVal id HM Hg) as (-> & ->).
      unfold member.campaign_txn_reply. cbn [kvCommit etcdKV].
      destruct (context.Err _ _) as [e|]; cbn [fst snd clientv3.succeeded].
      * split; [exact Hs|]. split; [discriminate | reflexivity].
      * exact (campaign_commit (member.leaderKey m) (kv w) leaderVal id Hs).
    + destruct (Campaign_early nameNum idNum fuel m ctx rawLease leaseTTLSec w)
        as (-> & ->).
      { intros v i _ Hi. rewrite Hg in Hi. discriminate. }
      split; [exact Hs|]. split; [discriminate | reflexivity].
  - destruct (Campaign_early nameNum idNum fuel m ctx rawLease leaseTTLSec w)
      as (-> & ->).
    { intros v i Hv _. rewrite HM in Hv. discriminate. }
    split; [exact Hs|]. split; [discriminate | reflexivity].
Qed.

(** Once the leader key is there, no campaign wins. *)
Lemma campaigns_after_leader (key : string)
    (race : list (member.Attempt (St := clientv3.Client))) :
  Forall (fun a => member.leaderKey (member.attMember a) = key) race ->
  forall (c : clientv3.Client) (kv0 : mvccpb.KeyValue),
    mvcc.sound_at (list_byte_of_string key) (clientv3.cluster c) ->
    mvcc.lookup (list_byte_of_string key) (mvcc.kvs (clientv3.cluster c))
    = Some kv0 ->
    filter member.won (fst (member.campaign_all nameNum idNum race c)) = [].
Proof.
  induction 1 as [|a race Ha _ IH]; intros c kv0 Hs Hk; [reflexivity|].
  cbn [member.campaign_all].
  destruct (campaign_on_etcd (member.attRounds a) (member.attMember a)
              (member.attCtx a) (member.attLease a) (member.attTTL a)
              (mkWorld (now (member.attWorld a)) (waits (member.attWorld a))
                 (tickFirst (member.attWorld a)) c
                 (calls (member.attWorld a))))
    as (_ & Hwin & Hlose).
  { rewrite Ha. exact Hs. }
  cbn [kv] in Hwin, Hlose. rewrite Ha in Hwin.
  destruct (member.won (fst (member.CampaignAndKeepLeader _ _ _ _ _ _ _ _)))
    eqn:E.
  - destruct (Hwin eq_refl) as (Habs & _). congruence.
  - rewrite (Hlose eq_refl).
    specialize (IH c kv0 Hs Hk).
    destruct (member.campaign_all nameNum idNum race c) as [os s'].
    cbn [fst filter] in *. rewrite E. exact IH.
Qed.

(** Of any number of campaigns for one leader key, at most one wins. *)
Lemma campaigns_at_most_one (key : string)
    (race : list (member.Attempt (St := clientv3.Client))) :
  Forall (fun a => member.leaderKey (member.attMember a) = key) race ->
  forall c : clientv3.Client,
    mvcc.sound_at (list_byte_of_string key) (clientv3.cluster c) ->
    (List.length
       (filter member.won (fst (member.campaign_all nameNum idNum race c)))
     <= 1)%nat.
Proof.
  induction 1 as [|a race Ha Hrace IH]; intros c Hs; [cbn; lia|].
  cbn [member.campaign_all].
  destruct (campaign_on_etcd (member.attRounds a) (member.attMember a)
              (member.attCtx a) (member.attLease a) (member.attTTL a)
              (mkWorld (now (member.attWorld a)) (waits (member.attWorld a))
                 (tickFirst (member.attWorld a)) c
                 (calls (member.attWorld a))))
    as (Hs1 & Hwin & Hlose).
  { rewrite Ha. exact Hs. }
  cbn [kv] in Hwin, Hlose. rewrite Ha in Hs1, Hwin.
  destruct (member.won (fst (member.CampaignAndKeepLeader _ _ _ _ _ _ _ _)))
    eqn:E.
  - destruct (Hwin eq_refl) as (_ & kv0 & Hk).
    pose proof (campaigns_after_leader key race Hrace _ kv0 Hs1 Hk) as Hnone.
    destruct (member.campaign_all nameNum idNum race _) as [os s'].
    cbn [fst filter] in *. rewrite E, Hnone. cbn. lia.
  - specialize (IH _ Hs1).
    destruct (member.campaign_all nameNum idNum race _) as [os s'].
    cbn [fst filter] in *. rewrite E. exact IH.
Qed.

End ElectionOnEtcd.

(** C2. The only call a campaign makes on the key space is one
    transaction, and the store after the campaign is the store as that
    transaction left it: its condition is that the creation revision of the
    leader key equals zero, which holds exactly when the key is absent, and
    its then-branch puts the serialized identity under the lease just granted
    (a campaign that stops at [Marshal] or at the grant makes no call on the
    key space and leaves the store as it was). The campaign has won, that is
    monitors or returns nil, exactly when that transaction succeeded. So of
    any number of campaigns for one leader key, each running on the store
    the one before it left, at most one wins. *)
Theorem C2_single_conditional_write :
  (forall (St : Type) (clusterKV : ClusterKV St) (nameNum idNum : Z) (fuel : nat)
          (m : member.Member) (ctx : context.Context) (rawLease : lease.RawLease)
          (leaseTTLSec : Z) (w : World St),
      (exists tr,
         calls (snd (member.CampaignAndKeepLeader nameNum idNum fuel m ctx
                       rawLease leaseTTLSec w)) = calls w ++ tr
         /\ filter is_kv_call tr
            = match member.Marshal nameNum idNum m, lease.grantReply rawLease with
              | inl leaderVal, inl id =>
                [CallKVTxn
                   [clientv3.Compare
                      (clientv3.CreateRevision (member.leaderKey m)) "=" 0]
                   [clientv3.OpPut (member.leaderKey m) leaderVal
                      [clientv3.WithLease id]]]
              | _, _ => []
              end)
      /\ kv (snd (member.CampaignAndKeepLeader nameNum idNum fuel m ctx rawLease
                    leaseTTLSec w))
         = match member.Marshal nameNum idNum m, lease.grantReply rawLease with
           | inl leaderVal, inl id =>
             snd (kvCommit (member.campaign_ctx m ctx rawLease leaseTTLSec w)
                    [clientv3.Compare
                       (clientv3.CreateRevision (member.leaderKey m)) "=" 0]
                    [clientv3.OpPut (member.leaderKey m) leaderVal
                       [clientv3.WithLease id]]
                    (member.campaign_txn_at ctx rawLease leaseTTLSec w)
                    (kv w))
           | _, _ => kv w
           end
      /\ member.won
           (fst (member.CampaignAndKeepLeader nameNum idNum fuel m ctx rawLease
                   leaseTTLSec w))
         = match member.Marshal nameNum idNum m, lease.grantReply rawLease with
           | inl leaderVal, inl id =>
             clientv3.succeeded
               (member.campaign_txn_reply m ctx rawLease leaseTTLSec leaderVal
                  id w)
           | _, _ => false
           end)
  /\ (forall (key : string) (s : mvcc.Store),
        mvcc.sound_at (list_byte_of_string key) s ->
        clientv3.holds (mvcc.kvs s)
          (clientv3.Compare (clientv3.CreateRevision key) "=" 0) = true
        <-> mvcc.lookup (list_byte_of_string key) (mvcc.kvs s) = None)
  /\ (forall (nameNum idNum : Z) (key : string)
             (race : list (member.Attempt (St := clientv3.Client)))
             (c : clientv3.Client),
        mvcc.sound_at (list_byte_of_string key) (clientv3.cluster c) ->
        Forall (fun a => member.leaderKey (member.attMember a) = key) race ->
        (List.length
           (filter member.won
              (fst (member.campaign_all nameNum idNum race c))) <= 1)%nat).
Proof.
  split; [|split].
  - intros St clusterKV nameNum idNum fuel m ctx rawLease leaseTTLSec w.
    split; [apply Campaign_calls|].
    destruct (member.Marshal nameNum idNum m) as [leaderVal|err] eqn:HM.
    + destruct (lease.grantReply rawLease) as [id|err] eqn:Hg.
      * exact (Campaign_effect nameNum idNum fuel m ctx rawLease leaseTTLSec w
                 leaderVal id HM Hg).
      * apply Campaign_early. intros v i _ Hi. rewrite Hg in Hi. discriminate.
    + apply Campaign_early. intros v i Hv _. rewrite HM in Hv. discriminate.
  - intros key s. apply campaign_cmp_holds.
  - intros nameNum idNum key race c Hs Hrace.
    exact (campaigns_at_most_one nameNum idNum key race Hrace c Hs).
Qed.

(** ** The monitoring loop: when it returns *)

Section Monitoring.

Context {St : Type} {clusterKV : ClusterKV St}.

Variables nameNum idNum : Z.

(** A tick strictly before the end of the context is handled as a tick,
    at its instant. *)
Lemma select_tick_before (ctx : context.Context) (d nextTick : Z) (w : World St) :
  context.doneAt ctx = Some d ->
  nextTick < d ->
  now w <= nextTick ->
  member.select ctx nextTick w
  = (member.TickerC,
     mkWorld nextTick (waits w) (tickFirst w) (kv w) (calls w)).
Proof.
  intros Hd Hlt Hnow. unfold member.select. rewrite Hd.
  destruct (d <? nextTick) eqn:E1; [blia|].
  destruct (nextTick <? d) eqn:E2; [|blia].
  run_world. rewrite Z.max_r by exact Hnow. reflexivity.
Qed.

(** The loop from its first tick at [nextTick]: it is still running after
    [k] rounds in which the lease was alive and the store's leader in place,
    and ends in the round after them when one of the two no longer holds. *)
Lemma keep_leader_rounds (m : member.Member) (l : lease.lease)
    (ctx : context.Context) (d : Z) :
  context.doneAt ctx = Some d ->
  forall (k : nat) (nextTick : Z) (w : World St),
    now w <= nextTick ->
    nextTick + Z.of_nat k * member.leaderCheckInterval < d ->
    (forall j, (j < k)%nat ->
       lease.aliveAt (lease.rawLease l)
         (nextTick + Z.of_nat j * member.leaderCheckInterval) = true
       /\ member.etcdLeaderGetter m
            (nextTick + Z.of_nat j * member.leaderCheckInterval) = member.ID m) ->
    (forall fuel, (fuel <= k)%nat ->
       fst (member.keep_leader fuel m l ctx nextTick w) = Blocked)
    /\ (lease.aliveAt (lease.rawLease l)
          (nextTick + Z.of_nat k * member.leaderCheckInterval) = false
        \/ member.etcdLeaderGetter m
             (nextTick + Z.of_nat k * member.leaderCheckInterval) <> member.ID m ->
        forall fuel, (k < fuel)%nat ->
          member.keep_leader fuel m l ctx nextTick w
          = (Returned None,
             mkWorld (nextTick + Z.of_nat k * member.leaderCheckInterval)
               (waits w) (tickFirst w) (kv w)
               (calls w
                ++ [CallLog Info
                      (if lease.aliveAt (lease.rawLease l)
                            (nextTick
                             + Z.of_nat k * member.leaderCheckInterval)
                       then "etcd leader changed and should re-assign the leadership"
                       else "no longer a leader because lease has expired")]))).
Proof.
  intros Hd.
  assert (HI : 0 < member.leaderCheckInterval) by reflexivity.
  induction k as [|k IH]; intros nextTick w Hnow Hlt Hok.
  - split.
    + intros fuel Hf. assert (fuel = 0%nat) by lia. subst fuel. reflexivity.
    + intros Hbad [|fuel] Hf; [lia|]. rewrite keep_leader_S.
      rewrite (select_tick_before ctx d nextTick w Hd) by lia.
      cbn [fst snd now]. cbv zeta.
      change (Z.of_nat 0) with 0 in *. rewrite Z.mul_0_l, Z.add_0_r in *.
      unfold log, record. cbn [fst snd now waits tickFirst kv calls].
      destruct (lease.aliveAt (lease.rawLease l) nextTick) eqn:Ea;
        cbn [negb]; [|reflexivity].
      destruct Hbad as [Hbad|Hbad]; [discriminate|].
      destruct (member.etcdLeaderGetter m nextTick =? member.ID m) eqn:Ee;
        [blia|]. reflexivity.
  - assert (Hstep : forall fuel,
      member.keep_leader (S fuel) m l ctx nextTick w
      = member.keep_leader fuel m l ctx
          (nextTick + member.leaderCheckInterval)
          (mkWorld nextTick (waits w) (tickFirst w) (kv w) (calls w))).
    { intros fuel. rewrite keep_leader_S.
      rewrite (select_tick_before ctx d nextTick w Hd) by lia.
      cbn [fst snd now]. cbv zeta.
      destruct (Hok 0%nat ltac:(lia)) as (Ha & He).
      change (Z.of_nat 0) with 0 in *. rewrite Z.mul_0_l, Z.add_0_r in *.
      rewrite Ha, He, Z.eqb_refl. reflexivity. }
    assert (Hshift : forall j : nat,
      nextTick + member.leaderCheckInterval
      + Z.of_nat j * member.leaderCheckInterval
      = nextTick + Z.of_nat (S j) * member.leaderCheckInterval) by (intros; lia).
    destruct (IH (nextTick + member.leaderCheckInterval)
                (mkWorld nextTick (waits w) (tickFirst w) (kv w) (calls w)))
      as (Hblocked & Hexit).
    + cbn [now]. lia.
    + rewrite Hshift. exact Hlt.
    + intros j Hj. rewrite Hshift. apply Hok. lia.
    + split.
      * intros [|fuel] Hf; [reflexivity|]. rewrite Hstep. apply Hblocked. lia.
      * intros Hbad [|fuel] Hf; [lia|]. rewrite Hstep.
        rewrite Hshift in Hexit. rewrite (Hexit Hbad fuel) by lia.
        reflexivity.
Qed.

(** X16. A member that won its campaign checks its leadership every
    [leaderCheckInterval] from the moment the loop is entered, and leaves at
    the first check that finds the lease expired or the store's leader
    changed, provided that check comes before the end of the transaction's
    context: until then the call has not returned, and then it returns nil
    at that very instant, with the log line of the reason, the lease's expiry
    taking precedence. *)
Theorem monitoring_returns_at_first_change (m : member.Member)
    (ctx : context.Context) (rawLease : lease.RawLease) (leaseTTLSec : Z)
    (w : World St) (leaderVal : string) (id : Z) (d : Z) (k : nat) :
  member.Marshal nameNum idNum m = inl leaderVal ->
  lease.grantReply rawLease = inl id ->
  clientv3.succeeded
    (member.campaign_txn_reply m ctx rawLease leaseTTLSec leaderVal id w) = true ->
  context.doneAt (member.campaign_ctx m ctx rawLease leaseTTLSec w) = Some d ->
  let start := now (snd (member.CampaignAndKeepLeader nameNum idNum 0 m ctx
                           rawLease leaseTTLSec w)) in
  let tick (j : nat) := start + Z.of_nat j * member.leaderCheckInterval in
  tick (S k) < d ->
  (forall j, (1 <= j <= k)%nat ->
     lease.aliveAt rawLease (tick j) = true
     /\ member.etcdLeaderGetter m (tick j) = member.ID m) ->
  lease.aliveAt rawLease (tick (S k)) = false
  \/ member.etcdLeaderGetter m (tick (S k)) <> member.ID m ->
  (forall fuel, (fuel <= k)%nat ->
     fst (member.CampaignAndKeepLeader nameNum idNum fuel m ctx rawLease
            leaseTTLSec w) = Blocked)
  /\ forall fuel, (k < fuel)%nat ->
       fst (member.CampaignAndKeepLeader nameNum idNum fuel m ctx rawLease
              leaseTTLSec w) = Returned None
       /\ now (snd (member.CampaignAndKeepLeader nameNum idNum fuel m ctx
                      rawLease leaseTTLSec w)) = tick (S k)
       /\ calls (snd (member.CampaignAndKeepLeader nameNum idNum fuel m ctx
                        rawLease leaseTTLSec w))
          = calls w
            ++ [CallLeaseGrant leaseTTLSec;
                CallKVTxn
                  [clientv3.Compare
                     (clientv3.CreateRevision (member.leaderKey m)) "=" 0]
                  [clientv3.OpPut (member.leaderKey m) leaderVal
                     [clientv3.WithLease id]];
                CallLog Info "succeed to set leader";
                CallLeaseKeepAlive id;
                CallLog Info
                  (if lease.aliveAt rawLease (tick (S k))
                   then "etcd leader changed and should re-assign the leadership"
                   else "no longer a leader because lease has expired")].
Proof.
  intros HM Hg Hs Hd start tick Hlt Hok Hbad.
  destruct (Campaign_won nameNum idNum m ctx rawLease leaseTTLSec w leaderVal id
              HM Hg Hs) as (w3 & Hc & Hrun).
  assert (Hstart : start = now w3).
  { unfold start. rewrite Hrun. reflexivity. }
  assert (Hshift : forall j : nat,
    now w3 + member.leaderCheckInterval
    + Z.of_nat j * member.leaderCheckInterval = tick (S j)).
  { intros j. unfold tick. rewrite Hstart. lia. }
  assert (HI : 0 < member.leaderCheckInterval) by reflexivity.
  destruct (keep_leader_rounds m (lease.mklease rawLease leaseTTLSec id)
              (member.campaign_ctx m ctx rawLease leaseTTLSec w) d Hd k
              (now w3 + member.leaderCheckInterval) w3)
    as (Hblocked & Hexit).
  - lia.
  - rewrite Hshift. exact Hlt.
  - intros j Hj. rewrite Hshift. cbn [lease.rawLease]. apply Hok. lia.
  - split.
    + intros fuel Hf. rewrite Hrun. apply Hblocked. exact Hf.
    + intros fuel Hf. rewrite Hrun.
      rewrite Hshift in Hexit. cbn [lease.rawLease] in Hexit.
      rewrite (Hexit Hbad fuel Hf). cbn [fst snd now calls].
      rewrite Hc, <- app_assoc. auto.
Qed.

End Monitoring.

(** ** Waiting for the leader to change: every way out *)

Section WatchMore.

Context {St : Type} {clusterKV : ClusterKV St}.

Lemma block_now (w : World St) : now w <= now (snd (block w)).
Proof.
  unfold block. destruct (waits w); cbn [snd now]; lia.
Qed.

(** The loop over a channel logs at most, leaves the store alone, and
    the clock does not go back. *)
Lemma range_wch_frame (m : member.Member) (revision : Z)
    (rs : list clientv3.WatchResponse) (cl : bool) :
  forall w : World St,
    (exists logs,
       calls (snd (member.range_wch m revision rs cl w)) = calls w ++ logs
       /\ Forall (fun c => is_watch_or_log c = true) logs)
    /\ kv (snd (member.range_wch m revision rs cl w)) = kv w
    /\ now w <= now (snd (member.range_wch m revision rs cl w)).
Proof.
  induction rs as [|resp rs IH]; intros w.
  - cbn [member.range_wch]. destruct cl.
    + unfold bind, ret. destruct (block_frame w) as (Hc & Hk).
      pose proof (block_now w) as Hn.
      destruct (block w) as [[] w1]. cbn [snd] in *.
      split; [exists []; rewrite app_nil_r; auto | auto].
    + unfold ret. cbn [snd].
      split; [exists []; rewrite app_nil_r; auto | split; [reflexivity | lia]].
  - assert (Hstep :
      member.range_wch m revision (resp :: rs) cl w
      = (if negb (clientv3.CompactRevision resp =? 0) then
           log Warn
             "required revision has been compacted, use the compact revision";;
           ret (member.ExitBreak (clientv3.CompactRevision resp))
         else if clientv3.Canceled resp then
           log Error "watcher is cancelled";; ret member.ExitReturn
         else if existsb mvccpb.is_delete (clientv3.Events resp) then
           log Info "current leader is deleted";; ret member.ExitReturn
         else member.range_wch m revision rs cl)%go (snd (block w))).
    { cbn [member.range_wch]. unfold bind at 1.
      destruct (block w) as [[] w1]. reflexivity. }
    rewrite Hstep. clear Hstep.
    destruct (block_frame w) as (Hc & Hk). pose proof (block_now w) as Hn.
    destruct (block w) as [[] w1]. cbn [snd] in *.
    assert (Hlog : forall level msg (e : member.RangeExit),
      (exists logs,
         calls (snd ((log level msg;; ret e)%go w1)) = calls w ++ logs
         /\ Forall (fun c => is_watch_or_log c = true) logs)
      /\ kv (snd ((log level msg;; ret e)%go w1)) = kv w
      /\ now w <= now (snd ((log level msg;; ret e)%go w1))).
    { intros level msg e. unfold log, record, bind, ret.
      cbn [fst snd calls kv now]. rewrite Hc, Hk.
      split; [|auto]. exists [CallLog level msg]. split; [reflexivity|].
      constructor; [reflexivity | constructor]. }
    destruct (negb (clientv3.CompactRevision resp =? 0)); cbv iota;
      [apply Hlog|].
    destruct (clientv3.Canceled resp); cbv iota; [apply Hlog|].
    destruct (existsb mvccpb.is_delete (clientv3.Events resp)); cbv iota;
      [apply Hlog|].
    destruct (IH w1) as ((logs & Hl & HF) & Hk1 & Hn1).
    rewrite Hl, Hk1, Hc, Hk. split; [eauto|]. split; [reflexivity | lia].
Qed.

(** The outer loop watches and logs, and leaves the store alone. *)
Lemma watch_loop_frame (m : member.Member) (ctx : context.Context)
    (chs : list WatchChan) :
  forall (revision : Z) (w : World St),
    (exists tr,
       calls (snd (member.watch_loop m ctx chs revision w))
       = calls w ++ CallWatch (member.leaderKey m) [clientv3.WithRev revision] :: tr
       /\ Forall (fun c => is_watch_or_log c = true) tr)
    /\ kv (snd (member.watch_loop m ctx chs revision w)) = kv w.
Proof.
  induction chs as [|wch chs IH]; intros revision w.
  - cbn [member.watch_loop]. run_world. split; [|reflexivity].
    exists []. auto.
  - rewrite watch_loop_cons. cbv zeta.
    set (W := snd (record (CallWatch (member.leaderKey m)
                             [clientv3.WithRev revision]) w)).
    assert (HWc : calls W
                  = calls w ++ [CallWatch (member.leaderKey m)
                                  [clientv3.WithRev revision]]) by reflexivity.
    assert (HWk : kv W = kv w) by reflexivity.
    clearbody W.
    destruct (range_wch_frame m revision (resps wch) (closed wch) W)
      as ((logs & Hl & HF) & Hk & _).
    rewrite HWc in Hl. rewrite HWk in Hk.
    assert (Hhere :
      (exists tr,
         calls (snd (member.range_wch m revision (resps wch) (closed wch) W))
         = calls w
           ++ CallWatch (member.leaderKey m) [clientv3.WithRev revision] :: tr
         /\ Forall (fun c => is_watch_or_log c = true) tr)
      /\ kv (snd (member.range_wch m revision (resps wch) (closed wch) W))
         = kv w).
    { split; [|exact Hk]. exists logs. rewrite Hl, <- app_assoc. auto. }
    assert (Hnext : forall revision',
      (exists tr,
         calls (snd (member.watch_loop m ctx chs revision'
                       (snd (member.range_wch m revision (resps wch)
                               (closed wch) W))))
         = calls w
           ++ CallWatch (member.leaderKey m) [clientv3.WithRev revision] :: tr
         /\ Forall (fun c => is_watch_or_log c = true) tr)
      /\ kv (snd (member.watch_loop m ctx chs revision'
                    (snd (member.range_wch m revision (resps wch)
                            (closed wch) W))))
         = kv w).
    { intros revision'.
      destruct (IH revision'
                  (snd (member.range_wch m revision (resps wch) (closed wch) W)))
        as ((tr & Ht & HFt) & Hkt).
      split; [|rewrite Hkt; exact Hk].
      exists (logs ++ CallWatch (member.leaderKey m) [clientv3.WithRev revision']
                   :: tr).
      rewrite Ht, Hl, <- !app_assoc. split; [reflexivity|].
      apply Forall_app. split; [exact HF|]. constructor; [reflexivity | exact HFt]. }
    destruct (fst (member.range_wch m revision (resps wch) (closed wch) W));
      cbn [fst snd]; try exact Hhere;
      destruct (context.Done ctx _); cbn [fst snd];
      first [exact Hhere | apply Hnext].
Qed.

(** X17. Whatever the watcher delivers, [WaitForLeaderChange] starts with
    a watch of the leader key from the given revision, only watches and logs
    until it returns, never touches the store, and closes the watcher exactly
    when it returns: once, as its last call but for the log line of a close
    that failed, and not at all while it is still waiting. *)
Theorem WaitForLeaderChange_closes_watcher_on_return (m : member.Member)
    (ctx : context.Context) (watcher : Watcher) (revision : Z) (w : World St) :
  exists tr,
    calls (snd (member.WaitForLeaderChange m ctx watcher revision w))
    = calls w
      ++ CallWatch (member.leaderKey m) [clientv3.WithRev revision] :: tr
      ++ match fst (member.WaitForLeaderChange m ctx watcher revision w) with
         | Blocked => []
         | Returned _ =>
           CallWatcherClose
           :: match closeErr watcher with
              | Some _ => [CallLog Error "close watcher failed"]
              | None => []
              end
         end
    /\ Forall (fun c => is_watch_or_log c = true) tr
    /\ kv (snd (member.WaitForLeaderChange m ctx watcher revision w)) = kv w.
Proof.
  destruct (WaitForLeaderChange_loop m ctx watcher revision w) as (Hf & Hc).
  destruct (watch_loop_frame m ctx (chans watcher) revision w)
    as ((tr & Ht & HF) & Hk).
  exists tr. rewrite Hc, Hf, Ht, <- app_assoc. cbn [app].
  split; [reflexivity|]. split; [exact HF|].
  unfold member.WaitForLeaderChange, context.WithCancel, bind.
  revert Hk.
  destruct (member.watch_loop m ctx (chans watcher) revision w) as [[[]|] w1];
    cbn [fst snd]; intros Hk.
  - run_world. destruct (closeErr watcher); cbn [fst snd kv]; exact Hk.
  - exact Hk.
Qed.

(** A cancellation ends the loop over the channel. *)
Lemma range_wch_canceled (m : member.Member) (revision : Z)
    (resp : clientv3.WatchResponse) (rs : list clientv3.WatchResponse)
    (cl : bool) (w : World St) :
  clientv3.CompactRevision resp = 0 ->
  clientv3.Canceled resp = true ->
  fst (member.range_wch m revision (resp :: rs) cl w) = member.ExitReturn
  /\ calls (snd (member.range_wch m revision (resp :: rs) cl w))
     = calls w ++ [CallLog Error "watcher is cancelled"].
Proof.
  intros Hc Hcan. cbn [member.range_wch]. unfold bind.
  destruct (block_frame w) as (Hcs & Hk).
  destruct (block w) as [[] w1]. cbn [snd] in *.
  rewrite Hc, Hcan. cbn [Z.eqb negb].
  unfold log, record, bind, ret. cbn [fst snd calls kv].
  rewrite Hcs. auto.
Qed.

(** X18. When the watch is cancelled without a compact revision, after any
    responses that carry no compaction, cancellation or delete, the wait is
    over: [WaitForLeaderChange] logs the cancellation as an error, closes the
    watcher and returns without watching again, whatever the state of the
    caller's context and whatever events the cancelling response carries. *)
Theorem WaitForLeaderChange_canceled (m : member.Member)
    (ctx : context.Context) (watcher : Watcher) (revision : Z) (w : World St)
    (pre rest : list clientv3.WatchResponse) (cancel : clientv3.WatchResponse)
    (cl : bool) (chs : list WatchChan) :
  Forall (fun r => clientv3.quiet r = true) pre ->
  clientv3.CompactRevision cancel = 0 ->
  clientv3.Canceled cancel = true ->
  chans watcher = mkWatchChan (pre ++ cancel :: rest) cl :: chs ->
  fst (member.WaitForLeaderChange m ctx watcher revision w) = Returned tt
  /\ calls (snd (member.WaitForLeaderChange m ctx watcher revision w))
     = calls w
       ++ [CallWatch (member.leaderKey m) [clientv3.WithRev revision];
           CallLog Error "watcher is cancelled";
           CallWatcherClose]
       ++ match closeErr watcher with
          | Some _ => [CallLog Error "close watcher failed"]
          | None => []
          end.
Proof.
  intros Hpre Hc Hcan Hch.
  destruct (WaitForLeaderChange_loop m ctx watcher revision w) as (Hf & Hcs).
  rewrite Hch in Hf, Hcs. rewrite watch_loop_cons in Hf, Hcs.
  cbv zeta in Hf, Hcs. cbn [resps closed] in Hf, Hcs.
  destruct (range_wch_quiet m revision pre (cancel :: rest) cl Hpre
              (snd (record (CallWatch (member.leaderKey m)
                              [clientv3.WithRev revision]) w)))
    as (w' & Hc' & Hk' & Heq).
  rewrite Heq in Hf, Hcs.
  destruct (range_wch_canceled m revision cancel rest cl w' Hc Hcan)
    as (He & Hce).
  rewrite He in Hf, Hcs. cbn [fst snd] in Hf, Hcs.
  split; [exact Hf|].
  rewrite Hcs, Hce, Hc'. cbn [record snd calls].
  rewrite <- !app_assoc. reflexivity.
Qed.

(** The loop over a channel that only delivers responses to pass over. *)
Lemma range_wch_all_quiet (m : member.Member) (revision : Z)
    (pre : list clientv3.WatchResponse) (cl : bool) (w : World St) :
  Forall (fun r => clientv3.quiet r = true) pre ->
  fst (member.range_wch m revision pre cl w)
  = (if cl then member.ExitClosed else member.ExitSilent)
  /\ calls (snd (member.range_wch m revision pre cl w)) = calls w
  /\ kv (snd (member.range_wch m revision pre cl w)) = kv w.
Proof.
  intros Hpre.
  destruct (range_wch_quiet m revision pre [] cl Hpre w)
    as (w' & Hc' & Hk' & Heq).
  rewrite app_nil_r in Heq. rewrite Heq. cbn [member.range_wch].
  destruct cl.
  - unfold bind, ret. destruct (block_frame w') as (Hc & Hk).
    destruct (block w') as [[] w1]. cbn [fst snd] in *.
    rewrite Hc, Hk. auto.
  - unfold ret. cbn [fst snd]. auto.
Qed.

(** X19. A watch whose channel only delivers responses to pass over: while
    the channel stays open the call is still waiting, with the watcher not
    closed; when the channel is closed and the caller's context is not done
    at the [select] that follows, the call watches again from the same
    revision; and when the channel is closed and the context is done at that
    [select], the call returns, closing the watcher, without a second
    watch. *)
Theorem WaitForLeaderChange_quiet_channel (m : member.Member)
    (ctx : context.Context) (watcher : Watcher) (revision : Z) (w : World St)
    (pre : list clientv3.WatchResponse) (cl : bool) (chs : list WatchChan) :
  Forall (fun r => clientv3.quiet r = true) pre ->
  chans watcher = mkWatchChan pre cl :: chs ->
  (cl = false ->
   fst (member.WaitForLeaderChange m ctx watcher revision w) = Blocked
   /\ calls (snd (member.WaitForLeaderChange m ctx watcher revision w))
      = calls w ++ [CallWatch (member.leaderKey m) [clientv3.WithRev revision]])
  /\ (cl = true ->
      context.Done ctx
        (member.watch_left_at m revision (mkWatchChan pre true) w) = false ->
      exists w1,
        calls w1
        = calls w ++ [CallWatch (member.leaderKey m) [clientv3.WithRev revision]]
        /\ kv w1 = kv w
        /\ member.WaitForLeaderChange m ctx watcher revision w
           = member.WaitForLeaderChange m ctx (mkWatcher chs (closeErr watcher))
               revision w1)
  /\ (cl = true ->
      context.Done ctx
        (member.watch_left_at m revision (mkWatchChan pre true) w) = true ->
      fst (member.WaitForLeaderChange m ctx watcher revision w) = Returned tt
      /\ calls (snd (member.WaitForLeaderChange m ctx watcher revision w))
         = calls w
           ++ [CallWatch (member.leaderKey m) [clientv3.WithRev revision];
               CallWatcherClose]
           ++ match closeErr watcher with
              | Some _ => [CallLog Error "close watcher failed"]
              | None => []
              end).
Proof.
  intros Hpre Hch.
  destruct (range_wch_all_quiet m revision pre cl
              (snd (record (CallWatch (member.leaderKey m)
                              [clientv3.WithRev revision]) w)) Hpre)
    as (He & Hc & Hk).
  destruct (WaitForLeaderChange_loop m ctx watcher revision w) as (Hf & Hcs).
  rewrite Hch in Hf, Hcs. rewrite watch_loop_cons in Hf, Hcs.
  cbv zeta in Hf, Hcs. cbn [resps closed] in Hf, Hcs.
  unfold member.watch_left_at. cbn [resps closed].
  split; [|split].
  - intros ->. rewrite He in Hf, Hcs. cbn [fst snd] in Hf, Hcs.
    split; [exact Hf|]. rewrite Hcs, Hc, app_nil_r. reflexivity.
  - intros -> Hlive.
    exists (snd (member.range_wch m revision pre true
                   (snd (record (CallWatch (member.leaderKey m)
                                   [clientv3.WithRev revision]) w)))).
    split; [exact Hc|]. split; [exact Hk|].
    unfold member.WaitForLeaderChange, context.WithCancel, bind.
    cbn [chans closeErr]. rewrite Hch, watch_loop_cons. cbv zeta.
    cbn [resps closed]. rewrite He, Hlive. reflexivity.
  - intros -> Hdone.
    rewrite He, Hdone in Hf, Hcs. cbn [fst snd] in Hf, Hcs.
    split; [exact Hf|]. rewrite Hcs, Hc. cbn [record snd calls].
    rewrite <- app_assoc. reflexivity.
Qed.

End WatchMore.

(** ** The properties on the example worlds *)

(** C1 on the fresh cluster: node-a wins, nobody cancels, the lease stays
    alive and the store's leader stays node 7; the call returns all the same. *)
Lemma C1_witness :
  exists rounds, forall fuel,
    (rounds <= fuel)%nat ->
    fst (member.CampaignAndKeepLeader example.nameNum example.idNum fuel
           example.node_a context.Background example.alive 5 example.fresh)
    = Returned None.
Proof.
  destruct (C1_returns_when_rpcTimeout_elapses (clusterKV := etcdKV)
              example.nameNum example.idNum example.node_a context.Background
              example.alive 5 example.fresh
              (string_of_list_byte [x0a; x06; x6e; x6f; x64; x65; x2d; x61; x10; x07])
              77 eq_refl eq_refl eq_refl eq_refl
              (fun _ => eq_refl) (fun _ => eq_refl)) as (rounds & H).
  exists rounds. intros fuel Hf. exact (proj1 (H fuel Hf)).
Defined.

(** The run itself: three rounds are enough, and the call returns at
    instant 100ms, when [rpcTimeout] has elapsed, with the caller's context
    not done and the lease handle's flag still true. *)
Example campaign_returns_after_rpcTimeout :
  member.rpcTimeout example.node_a = 100 * member.Millisecond
  /\ fst (member.CampaignAndKeepLeader example.nameNum example.idNum 3
            example.node_a context.Background example.alive 5 example.fresh)
     = Returned None
  /\ now (snd (member.CampaignAndKeepLeader example.nameNum example.idNum 3
                 example.node_a context.Background example.alive 5 example.fresh))
     = 100 * member.Millisecond
  /\ context.Done context.Background (100 * member.Millisecond) = false
  /\ lease.aliveAt example.alive (100 * member.Millisecond) = true
  /\ member.etcdLeaderGetter example.node_a (100 * member.Millisecond)
     = member.ID example.node_a.
Proof. vm_compute. repeat split. Qed.

(** C2 on the fresh cluster: of the campaigns of node-a and node-b, at
    most one wins. *)
Lemma C2_witness :
  (List.length
     (filter member.won
        (fst (member.campaign_all example.nameNum example.idNum example.race_a_b
                (kv example.fresh)))) <= 1)%nat.
Proof.
  apply (proj2 (proj2 C2_single_conditional_write) example.nameNum example.idNum
           "/ceres/members/leader"%string).
  - split; [vm_compute; discriminate | intros kv0 H; vm_compute in H; discriminate].
  - repeat constructor.
Defined.

(** The same race, run: node-a wins and node-b does not, and the leader
    key holds the record of node-a, bound to its lease. *)
Example race_of_two :
  map member.won
    (fst (member.campaign_all example.nameNum example.idNum example.race_a_b
            (kv example.fresh)))
  = [true; false]
  /\ mvcc.kvs (clientv3.cluster
                 (snd (member.campaign_all example.nameNum example.idNum
                         example.race_a_b (kv example.fresh))))
     = [example.leader_record].
Proof. vm_compute. split; reflexivity. Qed.

(** C3 on the cluster node-a leads: node-b loses, its lease is closed, the
    failed close is logged, and the error is [TxnPutLeaderFailed]. *)
Lemma C3_witness :
  fst (member.CampaignAndKeepLeader example.nameNum example.idNum 0
         example.node_b context.Background example.stuck 5 example.led)
  = Returned (Some (Caused TxnPutLeaderFailed
                      (Formatted "txn put leader failed, resp:%v")))
  /\ calls (snd (member.CampaignAndKeepLeader example.nameNum example.idNum 0
                   example.node_b context.Background example.stuck 5 example.led))
     = [CallLeaseGrant 5;
        CallKVTxn
          [clientv3.Compare (clientv3.CreateRevision "/ceres/members/leader") "=" 0]
          [clientv3.OpPut "/ceres/members/leader"
             (string_of_list_byte [x0a; x06; x6e; x6f; x64; x65; x2d; x62; x10; x08])
             [clientv3.WithLease 78]];
        CallLeaseClose 78;
        CallLog Error "close lease failed after txn put leader"].
Proof.
  exact (C3_lost_campaign_closes_lease (clusterKV := etcdKV)
           example.nameNum example.idNum 0 example.node_b context.Background
           example.stuck 5 example.led
           (string_of_list_byte [x0a; x06; x6e; x6f; x64; x65; x2d; x62; x10; x08])
           78 eq_refl eq_refl eq_refl).
Defined.

(** C4 on the cluster node-a leads: the leader and the revision of its
    record. *)
Lemma C4_witness :
  fst (member.GetLeader example.nameNum example.idNum example.node_b
         context.Background example.led)
  = inl (member.mkGetLeaderResp (Some (metapb.mkMember "node-a" 7)) 2).
Proof.
  exact (proj2 (C4_GetLeader_success (clusterKV := etcdKV)
                  example.nameNum example.idNum example.node_b context.Background
                  example.led (clientv3.mkGetResponse [example.leader_record])
                  eq_refl)
           example.leader_record (metapb.mkMember "node-a" 7) eq_refl eq_refl).
Defined.

(** On the fresh cluster there is no leader. *)
Example GetLeader_fresh :
  fst (member.GetLeader example.nameNum example.idNum example.node_a
         context.Background example.fresh)
  = inl (member.mkGetLeaderResp None 0).
Proof. reflexivity. Qed.

(** The three failures of [GetLeader], each on a world that produces it. *)
Example GetLeader_fails :
  fst (member.GetLeader example.nameNum example.idNum example.node_a
         context.Background example.unreachable)
  = inr (Caused GetLeaderFailed (ClientError "context deadline exceeded"))
  /\ fst (member.GetLeader example.nameNum example.idNum example.node_a
            context.Background example.two_leaders)
     = inr (Coded MultipleLeaders)
  /\ fst (member.GetLeader example.nameNum example.idNum example.node_a
            context.Background
            (mkWorld 0 [] (fun _ => true)
               (mkStub (inl (clientv3.mkGetResponse
                               [mvccpb.mkKeyValue [] 2 2 1 [x0a; x06; x6e] 0]))
                  (inl (clientv3.mkDeleteResponse 0))
                  (inl (clientv3.mkTxnResponse false 2))) []))
     = inr (Caused InvalidLeaderValue ProtoDecode).
Proof. repeat split. Qed.

(** C6 on the cluster node-a leads: the reset succeeds and the leader key
    is gone. *)
Lemma C6_witness :
  fst (member.ResetLeader example.node_a context.Background example.led) = None
  /\ mvcc.lookup (list_byte_of_string "/ceres/members/leader")
       (mvcc.kvs (clientv3.cluster
                    (kv (snd (member.ResetLeader example.node_a
                                context.Background example.led))))) = None.
Proof.
  destruct (proj2 C6_ResetLeader_unconditional example.node_a context.Background
              example.led eq_refl eq_refl) as (Hr & Hgone & _).
  split; [exact Hr | exact Hgone].
Defined.

(** A reset of the cluster node-a leads removes the record. *)
Example ResetLeader_led :
  fst (member.ResetLeader example.node_a context.Background example.led) = None
  /\ mvcc.kvs (clientv3.cluster
                 (kv (snd (member.ResetLeader example.node_a context.Background
                             example.led)))) = [].
Proof. split; reflexivity. Qed.

(** C7 on the example watcher: a compaction at revision 10, then the
    delete. *)
Lemma C7_witness :
  fst (member.WaitForLeaderChange example.node_b context.Background
         example.watcher 3 example.fresh) = Returned tt
  /\ calls (snd (member.WaitForLeaderChange example.node_b context.Background
                   example.watcher 3 example.fresh))
     = [CallWatch "/ceres/members/leader" [clientv3.WithRev 3];
        CallLog Warn "required revision has been compacted, use the compact revision";
        CallWatch "/ceres/members/leader" [clientv3.WithRev 10];
        CallLog Info "current leader is deleted";
        CallWatcherClose].
Proof.
  exact (proj2 (proj1 (proj2 (C7_WaitForLeaderChange_compaction
                                (St := clientv3.Client)
                                example.node_b context.Background example.watcher 3
                                example.fresh [] [] example.compacted true
                                [mkWatchChan [example.deleted] false]
                                (Forall_nil _) ltac:(discriminate) eq_refl))
                  eq_refl)
           [] [] example.deleted false [] (Forall_nil _) eq_refl eq_refl eq_refl
           eq_refl).
Defined.

(** C7, as stated, fails on the same watcher for a caller that cancelled
    at 10ms and calls at 20ms: the call returns after the compaction notice
    and never watches from the compact revision 10. *)
Lemma C7_counterexample :
  clientv3.CompactRevision example.compacted = 10
  /\ fst (member.WaitForLeaderChange example.node_b example.cancels_at_10ms
            example.watcher 3 example.at_20ms) = Returned tt
  /\ calls (snd (member.WaitForLeaderChange example.node_b
                   example.cancels_at_10ms example.watcher 3 example.at_20ms))
     = [CallWatch "/ceres/members/leader" [clientv3.WithRev 3];
        CallLog Warn "required revision has been compacted, use the compact revision";
        CallWatcherClose]
  /\ ~ In (CallWatch "/ceres/members/leader" [clientv3.WithRev 10])
         (calls (snd (member.WaitForLeaderChange example.node_b
                        example.cancels_at_10ms example.watcher 3
                        example.at_20ms))).
Proof.
  split; [reflexivity|]. split; [reflexivity|]. split; [reflexivity|].
  intros [H|[H|[H|[]]]]; discriminate.
Qed.

(** C8 on the fresh cluster, with a caller that cancels after 10ms: nil,
    and no call on the lease after the keep-alive is started. *)
Lemma C8_witness :
  fst (member.CampaignAndKeepLeader example.nameNum example.idNum 1
         example.node_a example.cancels_at_10ms example.alive 5 example.fresh)
  = Blocked
  \/ fst (member.CampaignAndKeepLeader example.nameNum example.idNum 1
            example.node_a example.cancels_at_10ms example.alive 5 example.fresh)
     = Returned None.
Proof.
  exact (proj1 (proj1 (C8_monitoring_exits_return_nil (clusterKV := etcdKV)
                         example.nameNum example.idNum example.node_a
                         example.cancels_at_10ms example.alive 5 example.fresh
                         (string_of_list_byte
                            [x0a; x06; x6e; x6f; x64; x65; x2d; x61; x10; x07])
                         77 eq_refl eq_refl eq_refl) 1%nat)).
Defined.

(** The three exits of the monitoring loop, run: the caller cancels; the
    lease lapses; the store's leader moves. *)
Example monitoring_exits :
  (let r := member.CampaignAndKeepLeader example.nameNum example.idNum 1
              example.node_a example.cancels_at_10ms example.alive 5 example.fresh in
   fst r = Returned None
   /\ filter is_lease_close (calls (snd r)) = []
   /\ now (snd r) = 10 * member.Millisecond)
  /\ (let r := member.CampaignAndKeepLeader example.nameNum example.idNum 1
                 example.node_a context.Background
                 (lease.mkRawLease (inl 77) None (fun _ => false)) 5 example.fresh in
      fst r = Returned None /\ filter is_lease_close (calls (snd r)) = [])
  /\ (let r := member.CampaignAndKeepLeader example.nameNum example.idNum 1
                 (member.NewMember "/ceres" 7 "node-a" (fun _ => 9)
                    (100 * member.Millisecond))
                 context.Background example.alive 5 example.fresh in
      fst r = Returned None /\ filter is_lease_close (calls (snd r)) = []).
Proof. vm_compute. repeat split. Qed.

(** C9 on node-a, [{id: 7, name: "node-a"}]. *)
Lemma C9_witness :
  exists leaderVal,
    member.Marshal example.nameNum example.idNum example.node_a = inl leaderVal
    /\ proto.Unmarshal example.nameNum example.idNum (list_byte_of_string leaderVal)
       = inl (metapb.mkMember "node-a" 7).
Proof.
  assert (H1 : protowire.MinValidNumber <= example.nameNum
               <= protowire.MaxValidNumber) by (vm_compute; split; discriminate).
  assert (H2 : protowire.MinValidNumber <= example.idNum
               <= protowire.MaxValidNumber) by (vm_compute; split; discriminate).
  assert (H3 : example.nameNum <> example.idNum) by discriminate.
  assert (H4 : 0 <= member.ID example.node_a < 2 ^ 64)
    by (vm_compute; split; [discriminate | reflexivity]).
  assert (H5 : Z.of_nat (String.length (member.Name example.node_a)) < 2 ^ 63)
    by (vm_compute; reflexivity).
  destruct (C9_Marshal_round_trip (clusterKV := etcdKV)
              example.nameNum example.idNum H1 H2 H3 example.node_a H4 H5)
    as (Htotal & Hrt & _).
  destruct (Htotal eq_refl) as (leaderVal & HM).
  exists leaderVal. split; [exact HM | exact (proj1 (Hrt leaderVal HM))].
Defined.

(** C10, as stated, fails on the storage of two keys: with a limit of
    zero both entries are returned. *)
Lemma C10_counterexample :
  storage.LoadRange example.two_keys "a" "c" 0
  = inl (["a"%string; "b"%string], ["1"%string; "2"%string])
  /\ ~ (Z.of_nat (List.length ["a"%string; "b"%string]) <= 0).
Proof. split; [reflexivity | vm_compute; intros H; apply H; reflexivity]. Qed.

(** C10 as amended, on the same storage with a limit of one. *)
Lemma C10_witness :
  List.length ["a"%string] = List.length ["1"%string]
  /\ Z.of_nat (List.length ["a"%string]) <= 1.
Proof.
  destruct (C10_LoadRange_relative_keys example.two_keys "a" "c" 1
              ["a"%string] ["1"%string] eq_refl)
    as (Hk & Hv & _ & Hlimit & _).
  split; [rewrite Hk, Hv; reflexivity | apply Hlimit; reflexivity].
Defined.

(** ** The further properties on the example worlds *)

Lemma two_keys_ascending :
  mvcc.ascending (mvcc.kvs (clientv3.cluster (storage.client example.two_keys))).
Proof. cbn. repeat constructor. Defined.

(** [Load] of a key that is there, and of one that is not. *)
Lemma Load_returns_value_or_empty_witness :
  storage.Load example.two_keys "a" = inl "1"%string
  /\ storage.Load example.two_keys "c" = inl EmptyString.
Proof.
  split.
  - exact (proj1 (Load_returns_value_or_empty example.two_keys "a" eq_refl
                    two_keys_ascending) _ eq_refl).
  - exact (proj1 (proj2 (Load_returns_value_or_empty example.two_keys "c"
                           eq_refl two_keys_ascending)) eq_refl).
Defined.

(** A third key saved in the storage of two keys. *)
Lemma Save_then_Load_witness :
  exists kv1,
    storage.Save example.two_keys "c" "3" = (None, kv1, [])
    /\ storage.Load kv1 "c" = inl "3"%string
    /\ storage.Load kv1 "a" = inl "1"%string.
Proof.
  destruct (Save_then_Load example.two_keys "c" "3" eq_refl two_keys_ascending)
    as (kv1 & HS & _ & _ & _ & _ & HL).
  exists kv1. split; [exact HS|].
  split; [exact (HL "c"%string) | exact (HL "a"%string)].
Defined.

(** The first key removed from the storage of two keys. *)
Lemma Remove_then_Load_witness :
  exists kv1,
    storage.Remove example.two_keys "a" = (None, kv1, [])
    /\ storage.Load kv1 "a" = inl EmptyString
    /\ storage.Load kv1 "b" = inl "2"%string.
Proof.
  destruct (Remove_then_Load example.two_keys "a" eq_refl two_keys_ascending)
    as (kv1 & HR & _ & _ & _ & _ & HL).
  exists kv1. split; [exact HR|].
  split; [exact (HL "a"%string) | exact (HL "b"%string)].
Defined.

(** The storage cut off from its cluster. *)
Lemma storage_fails_when_unreachable_witness :
  storage.Load example.cut_off "a"
  = inr (storage.LoadFailed
           (Caused KVGetFailed (ClientError "context deadline exceeded")))
  /\ storage.Save example.cut_off "a" "9"
     = (Some (Caused KVPutFailed (ClientError "context deadline exceeded")),
        example.cut_off, [CallLog Error "save to etcd meet error"]).
Proof.
  destruct (storage_fails_when_unreachable example.cut_off "a" "c" "9" 0
              (ClientError "context deadline exceeded") eq_refl)
    as (HL & _ & HS & _).
  split; [exact HL | exact HS].
Defined.

(** A range that ends where it starts, and one that ends before. *)
Lemma LoadRange_of_empty_range_witness :
  storage.LoadRange example.two_keys "a" "a" 0 = inl ([], [])
  /\ storage.LoadRange example.two_keys "b" "a" 5 = inl ([], []).
Proof.
  split.
  - exact (LoadRange_of_empty_range example.two_keys "a" "a" 0 eq_refl eq_refl).
  - exact (LoadRange_of_empty_range example.two_keys "b" "a" 5 eq_refl eq_refl).
Defined.

(** The first key saved again, then read as the start of a range. *)
Lemma Save_then_LoadRange_witness :
  exists kv1 keys values,
    storage.Save example.two_keys "a" "9" = (None, kv1, [])
    /\ storage.LoadRange kv1 "a" "c" 1
       = inl ("a"%string :: keys, "9"%string :: values).
Proof.
  exact (Save_then_LoadRange example.two_keys "a" "c" "9" 1 eq_refl eq_refl).
Defined.

(** A key of two names under the root path [/r]. *)
Lemma Save_Load_round_trip_witness :
  exists kv1,
    storage.Save example.two_keys "c/d" "3" = (None, kv1, [])
    /\ storage.Load kv1 "c/d" = inl "3"%string
    /\ storage.Load kv1 "a" = storage.Load example.two_keys "a".
Proof.
  destruct (Save_Load_round_trip example.two_keys "c/d" "3" ["r"%string]
              eq_refl two_keys_ascending eq_refl ltac:(discriminate)
              ltac:(repeat constructor) ltac:(cbn; repeat constructor))
    as (kv1 & HS & HL & Hother).
  exists kv1. split; [exact HS|]. split; [exact HL|].
  apply Hother; [cbn; repeat constructor | discriminate].
Defined.

(** The manager named by the byte 0xff on the fresh cluster. *)
Lemma Campaign_invalid_name_witness :
  member.CampaignAndKeepLeader example.nameNum example.idNum 3 example.node_bad
    context.Background example.alive 5 example.fresh
  = (Returned (Some (Caused MarshalMemberFailed ProtoInvalidUTF8)), example.fresh).
Proof.
  exact (Campaign_invalid_name (clusterKV := etcdKV) example.nameNum
           example.idNum 3 example.node_bad context.Background example.alive 5
           example.fresh eq_refl).
Defined.

(** node-a with a lease service that refuses. *)
Lemma Campaign_grant_fails_witness :
  fst (member.CampaignAndKeepLeader example.nameNum example.idNum 3
         example.node_a context.Background example.refusing 5 example.fresh)
  = Returned (Some (Caused LeaseGrantFailed (LeaseError "grant failed")))
  /\ calls (snd (member.CampaignAndKeepLeader example.nameNum example.idNum 3
                   example.node_a context.Background example.refusing 5
                   example.fresh))
     = [CallLeaseGrant 5].
Proof.
  destruct (Campaign_grant_fails (clusterKV := etcdKV) example.nameNum
              example.idNum 3 example.node_a context.Background example.refusing
              5 example.fresh
              (string_of_list_byte
                 [x0a; x06; x6e; x6f; x64; x65; x2d; x61; x10; x07])
              (LeaseError "grant failed") eq_refl eq_refl)
    as (Hr & Hc & _).
  split; [exact Hr | exact Hc].
Defined.

(** [GetLeader] on the fresh cluster and on the cluster node-a leads, and
    for a caller that cancelled at 10ms and calls at 20ms. *)
Lemma GetLeader_on_etcd_witness :
  fst (member.GetLeader example.nameNum example.idNum example.node_b
         context.Background example.fresh)
  = inl (member.mkGetLeaderResp None 0)
  /\ fst (member.GetLeader example.nameNum example.idNum example.node_b
            context.Background example.led)
     = inl (member.mkGetLeaderResp (Some (metapb.mkMember "node-a" 7)) 2)
  /\ fst (member.GetLeader example.nameNum example.idNum example.node_b
            example.cancels_at_10ms example.at_20ms)
     = inr (Caused GetLeaderFailed context.Canceled).
Proof.
  split; [|split].
  - exact (proj1 (proj2 (proj2
             (proj2 (proj2
                (GetLeader_on_etcd example.nameNum example.idNum example.node_b
                   context.Background example.fresh eq_refl I)) eq_refl)))
             eq_refl).
  - exact (proj2 (proj2 (proj2
             (proj2 (proj2
                (GetLeader_on_etcd example.nameNum example.idNum example.node_b
                   context.Background example.led eq_refl
                   (conj (Forall_nil _) I))) eq_refl)))
             example.leader_record eq_refl).
  - exact (proj1 (proj2
             (GetLeader_on_etcd example.nameNum example.idNum example.node_b
                example.cancels_at_10ms example.at_20ms eq_refl I)) eq_refl).
Defined.


(** node-b campaigns on the cluster node-a leads. *)
Lemma Campaign_against_leader_witness :
  fst (member.CampaignAndKeepLeader example.nameNum example.idNum 3
         example.node_b context.Background example.alive 5 example.led)
  = Returned (Some (Caused TxnPutLeaderFailed
                      (Formatted "txn put leader failed, resp:%v")))
  /\ kv (snd (member.CampaignAndKeepLeader example.nameNum example.idNum 3
                example.node_b context.Background example.alive 5 example.led))
     = kv example.led.
Proof.
  exact (Campaign_against_leader example.nameNum example.idNum 3 example.node_b
           context.Background example.alive 5 example.led
           (string_of_list_byte
              [x0a; x06; x6e; x6f; x64; x65; x2d; x62; x10; x08])
           77 example.leader_record eq_refl eq_refl eq_refl eq_refl
           ltac:(discriminate)).
Defined.


(** node-c, whose lease lapses 120ms after it won: still monitoring after
    the checks at 50ms and 100ms, gone at the check at 150ms. *)
Lemma monitoring_returns_at_first_change_witness :
  fst (member.CampaignAndKeepLeader example.nameNum example.idNum 2
         example.node_c context.Background example.lapsing 5 example.fresh)
  = Blocked
  /\ fst (member.CampaignAndKeepLeader example.nameNum example.idNum 3
            example.node_c context.Background example.lapsing 5 example.fresh)
     = Returned None
  /\ now (snd (member.CampaignAndKeepLeader example.nameNum example.idNum 3
                 example.node_c context.Background example.lapsing 5
                 example.fresh))
     = 150 * member.Millisecond.
Proof.
  destruct (monitoring_returns_at_first_change (clusterKV := etcdKV)
              example.nameNum example.idNum example.node_c context.Background
              example.lapsing 5 example.fresh
              (string_of_list_byte
                 [x0a; x06; x6e; x6f; x64; x65; x2d; x63; x10; x09])
              79 (1000 * member.Millisecond) 2
              eq_refl eq_refl eq_refl eq_refl eq_refl)
    as (Hblocked & Hexit).
  - intros [|[|[|j]]] Hj; [lia | split; reflexivity | split; reflexivity | lia].
  - left. reflexivity.
  - destruct (Hexit 3%nat ltac:(lia)) as (Hr & Hn & _).
    split; [apply Hblocked; lia|]. split; [exact Hr | exact Hn].
Defined.

(** The watcher that reports a put and is then cancelled. *)
Lemma WaitForLeaderChange_canceled_witness :
  fst (member.WaitForLeaderChange example.node_b context.Background
         example.cancelled_watcher 3 example.fresh) = Returned tt
  /\ calls (snd (member.WaitForLeaderChange example.node_b context.Background
                   example.cancelled_watcher 3 example.fresh))
     = [CallWatch "/ceres/members/leader" [clientv3.WithRev 3];
        CallLog Error "watcher is cancelled";
        CallWatcherClose;
        CallLog Error "close watcher failed"].
Proof.
  exact (WaitForLeaderChange_canceled (St := clientv3.Client) example.node_b
           context.Background example.cancelled_watcher 3 example.fresh
           [example.put] [] example.cancelled false []
           (Forall_cons example.put (@eq_refl bool true) (Forall_nil _)) eq_refl eq_refl eq_refl).
Defined.

(** The watcher whose first channel is closed after a put: a caller that
    cancelled at 10ms, called at 20ms, gets the call back after one watch. *)
Lemma WaitForLeaderChange_quiet_channel_witness :
  fst (member.WaitForLeaderChange example.node_b example.cancels_at_10ms
         example.closing_watcher 3 example.at_20ms)
  = Returned tt
  /\ calls (snd (member.WaitForLeaderChange example.node_b
                   example.cancels_at_10ms example.closing_watcher 3
                   example.at_20ms))
     = [CallWatch "/ceres/members/leader" [clientv3.WithRev 3];
        CallWatcherClose].
Proof.
  exact (proj2 (proj2
           (WaitForLeaderChange_quiet_channel (St := clientv3.Client)
              example.node_b example.cancels_at_10ms example.closing_watcher 3
              example.at_20ms
              [example.put] true [mkWatchChan [example.deleted] false]
              (Forall_cons example.put (@eq_refl bool true) (Forall_nil _))
              eq_refl))
           eq_refl eq_refl).
Defined.

(** The first key removed from the storage of two keys, then the whole
    range read. *)
Lemma Remove_then_LoadRange_witness :
  exists kv1,
    storage.Remove example.two_keys "a" = (None, kv1, [])
    /\ storage.LoadRange kv1 "a" "c" 0 = inl (["b"%string], ["2"%string])
    /\ ~ In "a"%string ["b"%string].
Proof.
  destruct (Remove_then_LoadRange example.two_keys "a" "a" "c" 0 eq_refl)
    as (kv1 & HR & Hgone).
  exists kv1. split; [exact HR|].
  injection HR as <-.
  split; [reflexivity | exact (Hgone ["b"%string] ["2"%string] eq_refl)].
Defined.

(** A manager of the root path [/other] wins on the cluster node-a leads;
    the leader key of [/ceres] still holds node-a's record. *)
Lemma Campaign_keeps_other_keys_witness :
  mvcc.lookup (list_byte_of_string "/ceres/members/leader")
    (mvcc.kvs (clientv3.cluster
       (kv (snd (member.CampaignAndKeepLeader example.nameNum example.idNum 1
                   (member.NewMember "/other" 8 "node-b" (fun _ => 7)
                      (100 * member.Millisecond))
                   context.Background example.alive 5 example.led)))))
  = Some example.leader_record.
Proof.
  exact (proj2 (Campaign_keeps_other_keys example.nameNum example.idNum 1
                  "/other" "/ceres" 8 "node-b" (fun _ => 7)
                  (100 * member.Millisecond) context.Background example.alive 5
                  example.led ltac:(discriminate))).
Defined.
